(** * Census ETL pipeline (tools/etl): a shallow embedding

    The pipeline downloads ZCTA boundaries, fetches ACS variables in
    chunks, joins both on the zipcode identifier and exports the result.
    This development embeds the control flow of

      - [load_acs_zipcode_data.py]   (statistical data loader),
      - [load_tiger_zipcode_boundaries.py] (boundary loader),
      - [convert_geometry_to_wkt.py] and [export_to_json.py] (exporters),

    over a small model of the pandas tables they manipulate, and proves
    the properties the specification states about them. *)

From Stdlib Require Import ZArith Lia Ascii String List Bool.
From stdpp Require Import base decidable option list strings pretty gmap.

Local Open Scope string_scope.
Local Open Scope list_scope.

(** ** Python strings *)

Module PyStr.

Definition is_digit (c : ascii) : bool :=
  let n := nat_of_ascii c in (48 <=? n)%nat && (n <=? 57)%nat.

(** Every character of [s] is an ASCII decimal digit. *)
Fixpoint all_digits (s : string) : bool :=
  match s with
  | EmptyString => true
  | String c r => is_digit c && all_digits r
  end.

Fixpoint zeros (n : nat) : string :=
  match n with
  | O => EmptyString
  | S k => String "0" (zeros k)
  end.

Definition is_sign (c : ascii) : bool :=
  (Ascii.eqb c "+" || Ascii.eqb c "-")%bool.

(** [s.zfill(width)], which [Series.str.zfill] applies to every value:
    a string at least [width] long is returned as it is; otherwise zeros
    are inserted on the left, after a leading sign character when there
    is one. *)
Definition zfill (width : nat) (s : string) : string :=
  if (width <=? String.length s)%nat then s
  else
    let fill := (width - String.length s)%nat in
    match s with
    | String c r =>
        if is_sign c then String c (zeros fill +:+ r) else zeros fill +:+ s
    | EmptyString => zeros fill
    end.

Definition upper_char (c : ascii) : ascii :=
  let n := nat_of_ascii c in
  if (97 <=? n)%nat && (n <=? 122)%nat then ascii_of_nat (n - 32) else c.

Definition lower_char (c : ascii) : ascii :=
  let n := nat_of_ascii c in
  if (65 <=? n)%nat && (n <=? 90)%nat then ascii_of_nat (n + 32) else c.

Fixpoint map_chars (f : ascii -> ascii) (s : string) : string :=
  match s with
  | EmptyString => EmptyString
  | String c r => String (f c) (map_chars f r)
  end.

(** [s.upper()] and [s.lower()] on ASCII letters; other bytes are kept. *)
Definition upper : string -> string := map_chars upper_char.
Definition lower : string -> string := map_chars lower_char.

(** [s.startswith(p)] *)
Definition startswith (s p : string) : bool := String.prefix p s.

(** [p in s] for strings. *)
Fixpoint contains (s p : string) : bool :=
  String.prefix p s ||
  match s with
  | EmptyString => false
  | String _ r => contains r p
  end.

(** [s.endswith(p)] *)
Fixpoint endswith (s p : string) : bool :=
  String.eqb s p ||
  match s with
  | EmptyString => false
  | String _ r => endswith r p
  end.

(** [sep.join(l)] *)
Fixpoint join (sep : string) (l : list string) : string :=
  match l with
  | [] => ""
  | [x] => x
  | x :: r => x +:+ sep +:+ join sep r
  end.

(** [x in l] for a list of strings. *)
Definition mem (x : string) (l : list string) : bool :=
  existsb (String.eqb x) l.

End PyStr.

(** ** Table cells

    A cell of a column: a string, an integer, a geometry (kept as its
    well-known text) or a missing value (pandas' [NaN]/[None]).  Floating
    point values are not represented; no property below inspects a
    numeric value. *)

Inductive cell :=
| Str (s : string)
| Num (z : Z)
| Geom (wkt : string)
| NaN.

#[global] Instance cell_eq_dec : EqDecision cell.
Proof. solve_decision. Defined.

Definition isna (c : cell) : bool :=
  match c with NaN => true | _ => false end.

(** [Series.astype(str)] on one cell.  A numeric cell is rendered as
    the integer it holds; the cells of a float column (in pandas, also
    an integer column that holds a null) would be rendered with a
    decimal point and are not represented. *)
Definition astype_str (c : cell) : string :=
  match c with
  | Str s => s
  | Num z => pretty z
  | Geom wkt => wkt
  | NaN => "nan"
  end.

(** The canonicalisation of an identifier cell:
    [.astype(str).str.zfill(5)]. *)
Definition canonical_zip (c : cell) : cell :=
  Str (PyStr.zfill 5 (astype_str c)).

(** ** Chunking of the variable list *)

(** [range(start, stop, step)] for a positive step.  The loop counter
    only grows, so [stop] iterations always suffice. *)
Fixpoint range_up (fuel start stop step : nat) : list nat :=
  match fuel with
  | O => []
  | S f =>
      if (start <? stop)%nat then start :: range_up f (start + step) stop step
      else []
  end.

Definition py_range (start stop step : nat) : list nat :=
  range_up stop start stop step.

(** [l[i:j]] for [0 <= i <= j]. *)
Definition slice {A} (l : list A) (i j : nat) : list A :=
  take (j - i) (drop i l).

(** The pairs [(i, variables[i:i + max_vars_per_request])] visited by the
    loop of [fetch_acs_data]. *)
Definition chunks (variables : list string) (max_vars_per_request : nat)
  : list (nat * list string) :=
  map (fun i => (i, slice variables i (i + max_vars_per_request)))
      (py_range 0 (length variables) max_vars_per_request).

(** ** Exceptions

    The scripts signal failure by raising; [result] is the error monad
    that threads a raised exception through a computation. *)

Inductive exn :=
| Exception (msg : string)
| KeyError (label : string)
| ValueError (msg : string)
| AttributeError (attr : string)
| TypeError (msg : string)
| DataSourceError (layer : string)
| MergeError.

Inductive result (A : Type) :=
| Ok (a : A)
| Raise (e : exn).
Arguments Ok {A} a.
Arguments Raise {A} e.

#[global] Instance result_ret : MRet result := fun A a => Ok a.

#[global] Instance result_bind : MBind result := fun A B k m =>
  match m with
  | Ok a => k a
  | Raise e => Raise e
  end.

Definition raises {A} (m : result A) : bool :=
  match m with Ok _ => false | Raise _ => true end.

(** ** Tables

    A frame is an ordered list of column labels and a list of rows, each
    row holding one cell per column.  Labels may repeat, as in pandas. *)

Record DataFrame := mkDF {
  columns : list string;
  rows : list (list cell)
}.

Definition rectangular (df : DataFrame) : Prop :=
  Forall (fun r => length r = length (columns df)) (rows df).

Module Pd.

(** [label in df.columns] *)
Definition has_col (c : string) (df : DataFrame) : bool :=
  PyStr.mem c (columns df).

(** Position of the first column labelled [c]. *)
Fixpoint index_of (c : string) (cols : list string) : option nat :=
  match cols with
  | [] => None
  | x :: r => if String.eqb x c then Some O else S <$> index_of c r
  end.

(** The cell of row [r] under label [c]. *)
Definition get (cols : list string) (r : list cell) (c : string)
  : option cell :=
  match index_of c cols with
  | Some i => r !! i
  | None => None
  end.

(** [df[c]] is a single column when exactly one label equals [c];
    a missing label is a [KeyError], and with a repeated label the
    selection is a frame, on which the caller's next step raises
    [dup]. *)
Definition the_column (c : string) (cols : list string) (dup : exn)
  : result unit :=
  match List.filter (String.eqb c) cols with
  | [] => Raise (KeyError c)
  | [_] => Ok tt
  | _ => Raise dup
  end.

(** [pd.DataFrame(data, columns=header)] for a list of rows: short rows
    are filled with missing values up to the longest one, and the
    number of labels has to equal that width. *)
Definition width (data : list (list cell)) : nat :=
  foldr (fun r => Nat.max (length r)) O data.

Definition pad (n : nat) (r : list cell) : list cell :=
  r ++ replicate (n - length r) NaN.

Definition DataFrame_of (data : list (list cell)) (header : list string)
  : result DataFrame :=
  match data with
  | [] => Ok (mkDF header [])
  | _ =>
      if (width data =? length header)%nat
      then Ok (mkDF header (map (pad (length header)) data))
      else Raise (ValueError "columns passed do not match the data")
  end.

(** The cell under label [c], missing when the row has none. *)
Definition key_of (cols : list string) (c : string) (r : list cell)
  : cell :=
  default NaN (get cols r c).

(** [list(df[c])] *)
Definition keys (c : string) (df : DataFrame) : list cell :=
  map (key_of (columns df) c) (rows df).

(** Keep the cells of a row whose column label satisfies [keep]. *)
Fixpoint select_row (keep : string -> bool) (cols : list string)
  (r : list cell) : list cell :=
  match cols, r with
  | c :: cs, x :: xs =>
      if keep c then x :: select_row keep cs xs else select_row keep cs xs
  | _, _ => []
  end.

(** [df.loc[:, mask]] for a mask computed from the labels. *)
Definition select (keep : string -> bool) (df : DataFrame) : DataFrame :=
  mkDF (List.filter keep (columns df))
       (map (select_row keep (columns df)) (rows df)).

(** [df.drop(columns=[c], errors='ignore')] *)
Definition drop_column (c : string) (df : DataFrame) : DataFrame :=
  select (fun x => negb (String.eqb x c)) df.

(** [df.rename(columns={old: new})] *)
Definition rename (old new : string) (df : DataFrame) : DataFrame :=
  mkDF (map (fun c => if String.eqb c old then new else c) (columns df))
       (rows df).

(** Apply [f] to the cells of a row that stand under label [c]. *)
Fixpoint map_row_at (f : cell -> cell) (c : string) (cols : list string)
  (r : list cell) : list cell :=
  match cols, r with
  | k :: cs, x :: xs =>
      (if String.eqb k c then f x else x) :: map_row_at f c cs xs
  | _, _ => r
  end.

(** [df[c] = f(df[c])] for a cell-wise [f] and an existing label [c]. *)
Definition assign (c : string) (f : cell -> cell) (df : DataFrame)
  : DataFrame :=
  mkDF (columns df) (map (map_row_at f c (columns df)) (rows df)).

(** [df[c] = values], one value computed per row: the column is
    overwritten, or appended when the label is new. *)
Definition set_column (c : string) (f : list cell -> cell)
  (df : DataFrame) : DataFrame :=
  if has_col c df
  then mkDF (columns df)
         (map (fun r => map_row_at (fun _ => f r) c (columns df) r)
            (rows df))
  else mkDF (columns df ++ [c]) (map (fun r => r ++ [f r]) (rows df)).

(** [df[labels]]: the columns carrying each label, in the order of
    [labels]; a label without a column is a [KeyError]. *)
Definition select_labels (labels : list string) (df : DataFrame)
  : result DataFrame :=
  match find (fun c => negb (has_col c df)) labels with
  | Some c => Raise (KeyError c)
  | None =>
      Ok (mkDF
            (flat_map (fun c => List.filter (String.eqb c) (columns df))
               labels)
            (map (fun r =>
                    flat_map (fun c => select_row (String.eqb c)
                                         (columns df) r) labels)
               (rows df)))
  end.

(** [df.dropna(subset=[c])] *)
Definition dropna (c : string) (df : DataFrame) : DataFrame :=
  mkDF (columns df)
       (List.filter (fun r => match get (columns df) r c with
                              | Some NaN => false
                              | _ => true
                              end) (rows df)).

(** *** [DataFrame.merge]

    [left.merge(right, on=key, how=..., suffixes=...)] on one key
    label present in both frames. *)

Inductive how := Left | Outer.

(** The key label has to name exactly one column of a frame. *)
Definition check_key (on : string) (cols : list string) : result unit :=
  the_column on cols (ValueError "The column label is not unique").

Definition not_label (on : string) (c : string) : bool :=
  negb (String.eqb c on).

(** [Index.duplicated()]: a label is marked when it repeats an earlier
    one. *)
Fixpoint duplicated_from (seen l : list string) : list bool :=
  match l with
  | [] => []
  | x :: r => PyStr.mem x seen :: duplicated_from (x :: seen) r
  end.

Definition duplicated : list string -> list bool := duplicated_from [].

(** Labels that became duplicates only through the renaming. *)
Definition new_duplicates (orig renamed : list string) : bool :=
  existsb id
    (zip_with (fun d o => d && negb o) (duplicated renamed)
       (duplicated orig)).

Definition renamer (to_rename : list string) (suffix x : string)
  : string :=
  if PyStr.mem x to_rename then x +:+ suffix else x.

(** Labels present on both sides get the side's suffix.  The renaming
    is refused when no suffix is given, or when it makes two labels of
    one side collide. *)
Definition items_overlap_with_suffix (left right : list string)
  (suffixes : string * string) : result (list string * list string) :=
  let to_rename := List.filter (fun x => PyStr.mem x right) left in
  match to_rename with
  | [] => Ok (left, right)
  | _ =>
      let '(lsuffix, rsuffix) := suffixes in
      if String.eqb lsuffix "" && String.eqb rsuffix ""
      then Raise (ValueError "columns overlap but no suffix specified")
      else
        let llabels := map (renamer to_rename lsuffix) left in
        let rlabels := map (renamer to_rename rsuffix) right in
        if new_duplicates left llabels || new_duplicates right rlabels
        then Raise MergeError
        else Ok (llabels, rlabels)
  end.

(** The right rows whose key equals [k]; missing keys match each
    other. *)
Definition matching (on : string) (rcols : list string)
  (rrows : list (list cell)) (k : cell) : list (list cell) :=
  List.filter (fun r => bool_decide (key_of rcols on r = k)) rrows.

(** The result rows of one left row: one per matching right row, in
    the right frame's order, or a single row filled with missing
    values when there is none. *)
Definition join_left_row (on : string) (left right : DataFrame)
  (l : list cell) : list (list cell) :=
  let rest := select_row (not_label on) (columns right) in
  match matching on (columns right) (rows right)
          (key_of (columns left) on l) with
  | [] =>
      [l ++ replicate (length (List.filter (not_label on) (columns right)))
              NaN]
  | ms => map (fun m => l ++ rest m) ms
  end.

(** The result row of a right row no left row matches (outer join):
    the key is kept, every other left column is missing. *)
Definition join_right_only (on : string) (left right : DataFrame)
  (r : list cell) : list (list cell) :=
  let k := key_of (columns right) on r in
  if existsb (fun l => bool_decide (key_of (columns left) on l = k))
       (rows left)
  then []
  else [map (fun c => if String.eqb c on then k else NaN) (columns left)
        ++ select_row (not_label on) (columns right) r].

(** Rows of the result.  A left join keeps the left frame's row order.
    An outer join holds the same rows followed by the unmatched right
    rows (pandas additionally sorts an outer join by key; the order
    of rows is not used below). *)
Definition merge_rows (h : how) (on : string) (left right : DataFrame)
  : list (list cell) :=
  flat_map (join_left_row on left right) (rows left)
  ++ match h with
     | Left => []
     | Outer => flat_map (join_right_only on left right) (rows right)
     end.

Definition merge (h : how) (on : string) (suffixes : string * string)
  (left right : DataFrame) : result DataFrame :=
  _ ← check_key on (columns left);
  _ ← check_key on (columns right);
  labels ← items_overlap_with_suffix (columns left)
             (List.filter (not_label on) (columns right)) suffixes;
  mret (mkDF (labels.1 ++ labels.2) (merge_rows h on left right)).

(** *** [pd.concat([a, b], axis=1)]

    Rows are aligned by position; the shorter frame is filled with
    missing values. *)
Definition row_or_nan (df : DataFrame) (i : nat) : list cell :=
  default (replicate (length (columns df)) NaN) (rows df !! i).

Definition concat_columns (a b : DataFrame) : DataFrame :=
  mkDF (columns a ++ columns b)
       (map (fun i => row_or_nan a i ++ row_or_nan b i)
            (seq 0 (Nat.max (length (rows a)) (length (rows b))))).

End Pd.

(** ** Configuration ([config.py])

    Paths are written relative to the project root. *)

Module Config.
Definition CENSUS_BASE_URL : string := "https://api.census.gov".
Definition ACS_YEAR : Z := 2023.
Definition ACS_DATASET : string := "acs/acs5".
Definition TIGER_BASE_URL : string := "https://www2.census.gov/geo/tiger".
Definition TIGER_YEAR : Z := 2025.
Definition GEO_LEVEL_ZIPCODE : string := "zip code tabulation area".
Definition DATA_RAW : string := "data/raw/census".
Definition DATA_PROCESSED : string := "data/processed/census".
Definition OUTPUT_GPKG : string :=
  DATA_PROCESSED +:+ "/census_zipcode_data.gpkg".
End Config.

(** ** The environment of a run *)

(** What [requests.get(...)], [raise_for_status()] and [response.json()]
    yield for one request: a [requests.exceptions.RequestException], or
    the decoded body, a JSON array whose first row holds the column
    labels. *)
Inductive json :=
| JEmpty
| JTable (header : list string) (data_rows : list (list cell)).

Definition json_len (data : json) : nat :=
  match data with
  | JEmpty => 0
  | JTable _ rs => S (length rs)
  end.

Inductive response :=
| RequestException
| Json (data : json).

(** The geospatial container: absent, or a map from layer names to
    tables. *)
Definition container := option (gmap string DataFrame).

Record world := mkWorld {
  CENSUS_API_KEY : string;
  (** the answer to the [n]-th request of the run *)
  http_get : nat -> string -> list (string * string) -> response;
  gpkg : container
}.

(** [gpd.read_file(OUTPUT_GPKG, layer=name)] *)
Definition read_file (g : container) (name : string) : result DataFrame :=
  match g with
  | None => Raise (DataSourceError name)
  | Some layers =>
      match layers !! name with
      | Some df => Ok df
      | None => Raise (DataSourceError name)
      end
  end.

(** [gdf.to_file(OUTPUT_GPKG, layer=name, ...)]: the layer is replaced;
    the file is created when it is missing. *)
Definition to_file (g : container) (name : string) (df : DataFrame)
  : container :=
  Some (<[name := df]> (default ∅ g)).

(** ** Statistical data loader ([load_acs_zipcode_data.py]) *)

Module Acs.

Definition build_census_api_url (key : string) (variables : list string)
  (geo_level : string) : string * list (string * string) :=
  let vars_str := PyStr.join "," variables in
  let geo_param :=
    if String.eqb geo_level "zip code tabulation area"
    then "zip code tabulation area:*"
    else geo_level +:+ ":*" in
  let url :=
    Config.CENSUS_BASE_URL +:+ "/data/" +:+ pretty Config.ACS_YEAR
      +:+ "/" +:+ Config.ACS_DATASET in
  (url, [("get", vars_str); ("for", geo_param); ("key", key)]).

(** The request loop of [fetch_acs_data]: [n] counts the requests made
    so far, [all_data] collects the tables of the chunks that came
    back with data.  A request error and a body of fewer than two rows
    skip the chunk; anything else raised inside the [try] is not a
    [RequestException] and leaves the function. *)
Fixpoint fetch_chunks (w : world) (n : nat)
  (cs : list (nat * list string)) (all_data : list DataFrame)
  : result (list DataFrame) :=
  match cs with
  | [] => Ok all_data
  | (i, chunk) :: rest =>
      let '(url, params) :=
        build_census_api_url (CENSUS_API_KEY w) chunk
          Config.GEO_LEVEL_ZIPCODE in
      match http_get w n url params with
      | RequestException => fetch_chunks w (S n) rest all_data
      | Json data =>
          match data with
          | JEmpty | JTable _ [] => fetch_chunks w (S n) rest all_data
          | JTable header data_rows =>
              df_chunk ← Pd.DataFrame_of data_rows header;
              fetch_chunks w (S n) rest (all_data ++ [df_chunk])
          end
      end
  end.


(** A chunk produced usable data: the request went through and the
    body has at least two rows. *)
Definition usable (r : response) : bool :=
  match r with
  | RequestException => false
  | Json data => (2 <=? json_len data)%nat
  end.


Definition zipcode_candidates : list string :=
  ["zip code tabulation area"; "ZCTA5"; "ZIPCODE"].

(** The first candidate label present in both frames. *)
Definition common_zipcode_col (df chunk : DataFrame) : option string :=
  find (fun col => Pd.has_col col df && Pd.has_col col chunk)
    zipcode_candidates.

Definition is_dup (c : string) : bool := PyStr.endswith c "_dup".

(** One iteration of the merge loop. *)
Definition merge_chunk (df chunk : DataFrame) : result DataFrame :=
  match common_zipcode_col df chunk with
  | Some zipcode_col =>
      df' ← Pd.merge Pd.Outer zipcode_col ("", "_dup") df chunk;
      mret (Pd.select (fun c => negb (is_dup c)) df')
  | None => mret (Pd.concat_columns df chunk)
  end.

(** The labels a chunk brings in: its own labels other than the
    identifier that no earlier chunk carried.  (A label that an earlier
    chunk carried comes back from the join with the suffix [_dup] and is
    dropped.) *)
Definition brings_in (zc : string) (pre : list DataFrame) (t : DataFrame)
  (v : string) : Prop :=
  In v (columns t) /\ v <> zc
  /\ forall t', In t' pre -> ~ In v (columns t').

(** What the merge loop has established once the chunks [seen] went
    into [df], all of them carrying the identifier column [zc]: the
    labels of [df] are those of the chunks and its identifiers are
    theirs.  A row of [df] holds, under the labels a chunk brought in,
    the values of one row of that chunk with the same identifier, or
    missing values when the chunk lacks the identifier; every row of a
    chunk is found in this way in some row of [df]; and [df] has one
    row per identifier when no chunk repeats an identifier. *)
Record merged_inv (zc : string) (seen : list DataFrame) (df : DataFrame)
  : Prop := {
  inv_rect : rectangular df;
  inv_key : length (List.filter (String.eqb zc) (columns df)) = 1;
  inv_labels : Forall (fun c => is_dup c = false) (columns df);
  inv_from : forall c, In c (columns df) ->
               exists t, In t seen /\ In c (columns t);
  inv_kept : forall t v, In t seen -> In v (columns t) -> In v (columns df);
  inv_keys : forall id, In id (Pd.keys zc df)
               <-> exists t, In t seen /\ In id (Pd.keys zc t);
  inv_missing : forall pre t post row v,
      seen = pre ++ t :: post -> In row (rows df) ->
      ~ In (Pd.key_of (columns df) zc row) (Pd.keys zc t) ->
      In v (columns t) -> v <> zc ->
      (forall t', In t' pre -> ~ In v (columns t')) ->
      Pd.get (columns df) row v = Some NaN;
  inv_values : forall pre t post row,
      seen = pre ++ t :: post -> In row (rows df) ->
      In (Pd.key_of (columns df) zc row) (Pd.keys zc t) ->
      exists rt,
        In rt (rows t)
        /\ Pd.key_of (columns t) zc rt = Pd.key_of (columns df) zc row
        /\ forall v, brings_in zc pre t v ->
             Pd.get (columns df) row v = Pd.get (columns t) rt v;
  inv_complete : forall pre t post rt,
      seen = pre ++ t :: post -> In rt (rows t) ->
      exists row,
        In row (rows df)
        /\ Pd.key_of (columns df) zc row = Pd.key_of (columns t) zc rt
        /\ forall v, brings_in zc pre t v ->
             Pd.get (columns df) row v = Pd.get (columns t) rt v;
  inv_unique :
      Forall (fun t => NoDup (Pd.keys zc t)) seen -> NoDup (Pd.keys zc df)
}.



Fixpoint merge_chunks (df : DataFrame) (rest : list DataFrame)
  : result DataFrame :=
  match rest with
  | [] => Ok df
  | chunk :: rest' => df' ← merge_chunk df chunk; merge_chunks df' rest'
  end.

Definition no_data : exn :=
  Exception "No data was successfully fetched from Census API".

(** The chunk list of the loop header.  [range] rejects a zero step and
    is empty for a negative one. *)
Definition fetch_acs_data (w : world) (variables : list string)
  (max_vars_per_request : Z) : result DataFrame :=
  if (max_vars_per_request =? 0)%Z
  then Raise (ValueError "range() arg 3 must not be zero")
  else
    let cs :=
      if (max_vars_per_request <? 0)%Z then []
      else chunks variables (Z.to_nat max_vars_per_request) in
    all_data ← fetch_chunks w 0 cs [];
    match all_data with
    | [] => Raise no_data
    | df :: rest => merge_chunks df rest
    end.

(** The identifier column [clean_acs_data] looks for. *)
Definition find_zipcode_col (cols : list string) : option string :=
  find (fun col => PyStr.mem col cols) zipcode_candidates.

Definition geography_names : list string :=
  ["state"; "county"; "tract"; "block group"; "name"].

Definition is_variable_col (col : string) : bool :=
  negb (String.eqb col "ZIPCODE") && PyStr.startswith col "B"
  && PyStr.contains col "_".

(** The loop that removes the geography columns. *)
Fixpoint drop_geography (cols_to_remove : list string) (df : DataFrame)
  : DataFrame :=
  match cols_to_remove with
  | [] => df
  | col :: rest =>
      if negb (String.eqb col "ZIPCODE")
      then drop_geography rest (Pd.drop_column col df)
      else drop_geography rest df
  end.

(** The loop that coerces the variable columns. *)
Fixpoint coerce_columns (to_numeric : cell -> cell) (cols : list string)
  (df : DataFrame) : result DataFrame :=
  match cols with
  | [] => Ok df
  | col :: rest =>
      if is_variable_col col then
        _ ← Pd.the_column col (columns df)
              (TypeError "arg must be a list, tuple, 1-d array, or Series");
        coerce_columns to_numeric rest (Pd.assign col to_numeric df)
      else coerce_columns to_numeric rest df
  end.

(** [clean_acs_data]; [to_numeric] stands for
    [pd.to_numeric(_, errors='coerce')] on one cell. *)
Definition clean_acs_data (to_numeric : cell -> cell) (df : DataFrame)
  : result DataFrame :=
  match find_zipcode_col (columns df) with
  | None => Raise (Exception "Could not find zipcode column in ACS data")
  | Some zipcode_col =>
      let df :=
        if negb (String.eqb zipcode_col "ZIPCODE")
        then Pd.rename zipcode_col "ZIPCODE" df else df in
      let cols_to_remove :=
        List.filter (fun col => PyStr.mem (PyStr.lower col) geography_names)
          (columns df) in
      let df := drop_geography cols_to_remove df in
      df ← coerce_columns to_numeric (columns df) df;
      let df := Pd.dropna "ZIPCODE" df in
      _ ← Pd.the_column "ZIPCODE" (columns df) (AttributeError "str");
      Ok (Pd.assign "ZIPCODE" canonical_zip df)
  end.

(** [load_existing_zipcodes]: the canonical identifiers of the boundary
    layer, or [None]. *)
Definition load_existing_zipcodes (g : container)
  : option (list cell) :=
  match g with
  | None => None
  | Some _ =>
      match read_file g "zipcodes" with
      | Ok gdf =>
          if Pd.has_col "ZIPCODE" gdf then
            match Pd.the_column "ZIPCODE" (columns gdf)
                    (AttributeError "str") with
            | Ok _ =>
                Some (map (fun r => canonical_zip
                                      (Pd.key_of (columns gdf) "ZIPCODE" r))
                        (rows gdf))
            | Raise _ => None
            end
          else None
      | Raise _ => None
      end
  end.

(** [df['ZIPCODE'] = df['ZIPCODE'].astype(str).str.zfill(5)] *)
Definition canonicalize (df : DataFrame) : result DataFrame :=
  _ ← Pd.the_column "ZIPCODE" (columns df) (AttributeError "str");
  Ok (Pd.assign "ZIPCODE" canonical_zip df).

Definition merge_with_boundaries (g : container) (acs_df : DataFrame)
  : result DataFrame :=
  match g with
  | None =>
      Raise (Exception ("Zipcode boundaries not found at "
                        +:+ Config.OUTPUT_GPKG
                        +:+ ". Run load_tiger_zipcode_boundaries.py first."))
  | Some _ =>
      boundaries ← read_file g "zipcodes";
      boundaries ← canonicalize boundaries;
      acs_df ← canonicalize acs_df;
      Pd.merge Pd.Left "ZIPCODE" ("_x", "_y") boundaries acs_df
  end.

Definition save_acs_data (g : container) (acs_df merged_gdf : DataFrame)
  : container :=
  let g := to_file g "acs_data" merged_gdf in
  let acs_df_no_geom :=
    Pd.set_column "geometry" (fun _ => Geom "POINT (0 0)") acs_df in
  to_file g "acs_data_table" acs_df_no_geom.

(** [main]; [all_variables] is [get_all_acs_variables()].  The result
    is the container after the run. *)
Definition main (w : world) (to_numeric : cell -> cell)
  (all_variables : list string) : result container :=
  if String.eqb (CENSUS_API_KEY w) ""
  then Raise (Exception
    "CENSUS_API_KEY not found in environment. Please set it in .env file.")
  else
    let existing_zipcodes := load_existing_zipcodes (gpkg w) in
    acs_df ← fetch_acs_data w all_variables 50;
    acs_df ← clean_acs_data to_numeric acs_df;
    let acs_df :=
      match existing_zipcodes with
      | None | Some [] => acs_df
      | Some zs =>
          mkDF (columns acs_df)
            (List.filter
               (fun r => bool_decide
                           (Pd.key_of (columns acs_df) "ZIPCODE" r ∈ zs))
               (rows acs_df))
      end in
    merged_gdf ← merge_with_boundaries (gpkg w) acs_df;
    Ok (save_acs_data (gpkg w) acs_df merged_gdf).

End Acs.

(** ** Boundary loader ([load_tiger_zipcode_boundaries.py]) *)

Module Tiger.

(** Files of the raw-data directory: a downloaded archive with its
    members, or an extracted shapefile with its coordinate reference. *)
Record shapefile := mkShp {
  shp_crs : option string;
  shp_table : DataFrame
}.

Inductive file :=
| Archive (members : list (string * shapefile))
| Shapefile (shp : shapefile).

(** The outcome of one download attempt. *)
Inductive attempt :=
| Downloaded (f : file)
| Timeout
| Failed.

Record world := mkWorld {
  fs : gmap string file;
  (** [requests.get(url, stream=True, timeout=(60, read))] and the
      streaming of the body, at the given attempt *)
  try_download : string -> nat -> Z -> attempt;
  (** does a geometry meet the metro bounding box ([gdf.cx]) *)
  in_bounds : cell -> bool;
  (** [to_crs('EPSG:4326')] on one geometry, from the given reference *)
  reproject : string -> cell -> cell;
  gpkg : container
}.

Definition max_retries : nat := 3.

(** The retry loop of [download_tiger_file]: [Some f] when an attempt
    delivered the file (the function returns [True]), [None] when it
    returns [False]. *)
Fixpoint download_loop (get : string -> nat -> Z -> attempt)
  (url : string) (attempts : list nat) (timeout : Z) : option file :=
  match attempts with
  | [] => None
  | attempt :: rest =>
      match get url attempt timeout with
      | Downloaded f => Some f
      | Timeout =>
          if (attempt <? max_retries - 1)%nat
          then download_loop get url rest 600%Z
          else None
      | Failed =>
          if (attempt <? max_retries - 1)%nat
          then download_loop get url rest timeout
          else None
      end
  end.

Definition download_tiger_file (w : world) (url : string) : option file :=
  download_loop (try_download w) url (seq 0 max_retries) 300%Z.

Definition tiger_file_name (year : Z) : string :=
  "tl_" +:+ pretty year +:+ "_us_zcta520.zip".

Definition tiger_url_of (year : Z) : string :=
  Config.TIGER_BASE_URL +:+ "/TIGER" +:+ pretty year +:+ "/ZCTA5/"
    +:+ tiger_file_name year.

Definition raw_path (name : string) : string :=
  Config.DATA_RAW +:+ "/" +:+ name.

(** The acquisition part of [extract_zipcode_boundaries]: the files
    after it and the path of the archive to extract. *)
Definition acquire (w : world) (TIGER_YEAR : Z)
  : result (gmap string file * string) :=
  let tiger_file := tiger_file_name TIGER_YEAR in
  let tiger_url := tiger_url_of TIGER_YEAR in
  let zip_path := raw_path tiger_file in
  match fs w !! zip_path with
  | Some _ => Ok (fs w, zip_path)
  | None =>
      match download_tiger_file w tiger_url with
      | Some f => Ok (<[zip_path := f]> (fs w), zip_path)
      | None =>
          if (2020 <? TIGER_YEAR)%Z then
            let fallback_year := (TIGER_YEAR - 1)%Z in
            let tiger_file_fallback := tiger_file_name fallback_year in
            let tiger_url_fallback := tiger_url_of fallback_year in
            let zip_path_fallback := raw_path tiger_file_fallback in
            match download_tiger_file w tiger_url_fallback with
            | Some f =>
                Ok (<[zip_path_fallback := f]> (fs w), zip_path_fallback)
            | None =>
                Raise (Exception
                  ("Failed to download TIGER file from both "
                   +:+ pretty TIGER_YEAR +:+ " and "
                   +:+ pretty fallback_year))
            end
          else
            Raise (Exception
              ("Failed to download TIGER file: " +:+ tiger_url))
      end
  end.

Definition extract_dir : string := raw_path "tiger_zcta".

(** [zipfile.ZipFile(zip_path).extractall(extract_dir)] *)
Definition extractall (files : gmap string file) (zip_path : string)
  : result (gmap string file) :=
  match files !! zip_path with
  | Some (Archive members) =>
      Ok (foldr (fun m acc =>
                   <[extract_dir +:+ "/" +:+ m.1 := Shapefile m.2]> acc)
            files members)
  | _ => Raise (Exception "File is not a zip file")
  end.

(** [gpd.read_file(shp_path)] *)
Definition read_shapefile (files : gmap string file) (path : string)
  : result (option string * DataFrame) :=
  match files !! path with
  | Some (Shapefile shp) => Ok (shp_crs shp, shp_table shp)
  | _ => Raise (DataSourceError path)
  end.

Definition looks_like_zipcode (col : string) : bool :=
  PyStr.contains (PyStr.upper col) "ZCTA"
  || PyStr.contains (PyStr.upper col) "ZIP".

(** The renaming of the identifier column to [ZIPCODE]. *)
Definition normalize_zipcode_column (gdf : DataFrame)
  : result DataFrame :=
  let gdf :=
    if Pd.has_col "ZCTA5CE20" gdf then Pd.rename "ZCTA5CE20" "ZIPCODE" gdf
    else if Pd.has_col "ZCTA5CE10" gdf
         then Pd.rename "ZCTA5CE10" "ZIPCODE" gdf
    else if Pd.has_col "ZCTA5" gdf then Pd.rename "ZCTA5" "ZIPCODE" gdf
    else gdf in
  if negb (Pd.has_col "ZIPCODE" gdf) then
    match List.filter looks_like_zipcode (columns gdf) with
    | c :: _ => Ok (Pd.rename c "ZIPCODE" gdf)
    | [] => Raise (Exception "Could not find ZIPCODE column in TIGER file")
    end
  else Ok gdf.

(** The source column that [normalize_zipcode_column] turns into (or
    leaves as) the identifier, as a function of the labels alone. *)
Definition resolve_zipcode_col (cols : list string) : option string :=
  if PyStr.mem "ZCTA5CE20" cols then Some "ZCTA5CE20"
  else if PyStr.mem "ZCTA5CE10" cols then Some "ZCTA5CE10"
  else if PyStr.mem "ZCTA5" cols then Some "ZCTA5"
  else if PyStr.mem "ZIPCODE" cols then Some "ZIPCODE"
  else head (List.filter looks_like_zipcode cols).

Definition metadata_columns : list string :=
  ["GEOID20"; "GEOID10"; "AFFGEOID20"; "AFFGEOID10"].

Definition extract_zipcode_boundaries (w : world) (TIGER_YEAR : Z)
  : result container :=
  acquired ← acquire w TIGER_YEAR;
  let '(files, zip_path) := acquired in
  let shp_path :=
    extract_dir +:+ "/tl_" +:+ pretty TIGER_YEAR +:+ "_us_zcta520.shp" in
  files ← match files !! shp_path with
          | None => extractall files zip_path
          | Some _ => Ok files
          end;
  shp ← read_shapefile files shp_path;
  let '(crs, gdf) := shp in
  (* rows whose geometry meets the bounding box *)
  let gdf_filtered :=
    mkDF (columns gdf)
      (List.filter
         (fun r => in_bounds w (Pd.key_of (columns gdf) "geometry" r))
         (rows gdf)) in
  let crs := default "EPSG:4269" crs in
  let gdf_filtered :=
    if negb (String.eqb crs "EPSG:4326")
    then Pd.assign "geometry" (reproject w crs) gdf_filtered
    else gdf_filtered in
  gdf_filtered ← normalize_zipcode_column gdf_filtered;
  let columns_to_keep :=
    ["ZIPCODE"; "geometry"]
    ++ List.filter (fun col => Pd.has_col col gdf_filtered)
         metadata_columns in
  gdf_filtered ← Pd.select_labels columns_to_keep gdf_filtered;
  Ok (to_file (gpkg w) "zipcodes" gdf_filtered).

End Tiger.

(** ** Exporters *)

Module Exporters.

Section geometry_text.

(** [is_empty wkt]: is the geometry with the text [wkt] empty?  The
    truth value of a shapely geometry is that it is not empty; which
    geometries are empty is shapely's matter, so the function is taken
    from the environment. *)
Variable is_empty : string -> bool.

(** [x.wkt if x else None]: a missing geometry and an empty one are
    falsy and give a missing value. *)
Definition wkt_of (x : cell) : cell :=
  match x with
  | Geom wkt => if is_empty wkt then NaN else Str wkt
  | _ => NaN
  end.

(** The [try] body of [convert_geometry_to_wkt]. *)
Definition convert_body (g : container) : result container :=
  gdf ← read_file g "zipcodes";
  if Pd.has_col "geometry" gdf then
    let gdf :=
      Pd.set_column "geometry_wkt"
        (fun r => wkt_of (Pd.key_of (columns gdf) "geometry" r)) gdf in
    Ok (to_file g "zipcodes" gdf)
  else Raise (AttributeError "geometry").

(** [convert_geometry_to_wkt]: the returned flag and the container
    after the call. *)
Definition convert_geometry_to_wkt (g : container) : bool * container :=
  match g with
  | None => (false, g)
  | Some _ =>
      match convert_body g with
      | Ok g' => (true, g')
      | Raise _ => (false, g)
      end
  end.

End geometry_text.

Section raw_table.

(** [read_sql_query g table] is what
    [pd.read_sql_query("SELECT * FROM table", "sqlite:///OUTPUT_GPKG")]
    returns or raises on the container file: the raw SQLite table, not
    the layer that [gpd.read_file] decodes (the raw table carries the
    feature id and the geometry as bytes), and nothing at all without
    an SQL driver.  It is taken from the environment. *)
Variable read_sql_query : container -> string -> result DataFrame.

(** [to_json_raw df]: does [to_json] go through on the frame joined
    from the raw table?  [json] refuses values such as bytes, so this
    too is taken from the environment.  A frame that [gpd.read_file]
    read from a layer is serialised without error. *)
Variable to_json_raw : DataFrame -> result unit.

(** The [try] body of [export_to_json]: the table that is serialised. *)
Definition export_body (g : container) : result DataFrame :=
  gdf ← read_file g "zipcodes";
  match read_file g "acs_data" with
  | Ok acs_gdf => Ok acs_gdf
  | Raise _ =>
      acs_df ← read_sql_query g "acs_data_table";
      gdf_merged ← Pd.merge Pd.Left "ZIPCODE" ("_x", "_y") gdf acs_df;
      _ ← to_json_raw gdf_merged;
      Ok gdf_merged
  end.

(** [export_to_json]: the returned flag and the table written to
    [census_zipcode_data.json], if any. *)
Definition export_to_json (g : container) : bool * option DataFrame :=
  match g with
  | None => (false, None)
  | Some _ =>
      match export_body g with
      | Ok acs_gdf => (true, Some acs_gdf)
      | Raise _ => (false, None)
      end
  end.

End raw_table.

End Exporters.

(** ** Entry points and exit status *)

Module Script.

(** [try: body() except Exception: ...; exit(1)]: the status the
    process ends with. *)
Definition guarded {A} (body : result A) : Z :=
  match body with
  | Ok _ => 0
  | Raise _ => 1
  end.

Definition load_tiger_zipcode_boundaries (w : Tiger.world) : Z :=
  guarded (Tiger.extract_zipcode_boundaries w Config.TIGER_YEAR).

Definition load_acs_zipcode_data (w : world) (to_numeric : cell -> cell)
  (all_variables : list string) : Z :=
  guarded (Acs.main w to_numeric all_variables).

(** The exporters' entry points call the function and drop its flag;
    the interpreter then ends with status 0. *)
Definition convert_geometry_to_wkt (is_empty : string -> bool)
  (g : container) : Z :=
  let _ := Exporters.convert_geometry_to_wkt is_empty g in 0.

Definition export_to_json
  (read_sql_query : container -> string -> result DataFrame)
  (to_json_raw : DataFrame -> result unit) (g : container) : Z :=
  let _ := Exporters.export_to_json read_sql_query to_json_raw g in 0.

End Script.


(** ** Variable catalog ([config.py]) *)

Module Catalog.

Record category := mkCategory {
  name : string;
  variables : list string
}.

(** [ACS_CATEGORIES], a dictionary kept in insertion order. *)
Definition ACS_CATEGORIES : list (string * category) :=
  [("demographics",
    mkCategory "Core Demographics"
      ["B01001_001E"; "B01001_002E"; "B01001_026E"; "B01002_001E"]);
   ("race_ethnicity",
    mkCategory "Race and Ethnicity"
      ["B02001_001E"; "B02001_002E"; "B02001_003E"; "B02001_004E";
       "B02001_005E"; "B02001_006E"; "B03003_001E"; "B03003_002E";
       "B03003_003E"]);
   ("housing",
    mkCategory "Housing"
      ["B25001_001E"; "B25002_001E"; "B25002_002E"; "B25002_003E";
       "B25003_001E"; "B25003_002E"; "B25003_003E"; "B25077_001E";
       "B25064_001E"]);
   ("income", mkCategory "Income" ["B19013_001E"; "B19301_001E"]);
   ("education",
    mkCategory "Education"
      ["B15003_001E"; "B15003_022E"; "B15003_023E"; "B15003_024E";
       "B15003_025E"]);
   ("employment",
    mkCategory "Employment"
      ["B23025_001E"; "B23025_002E"; "B23025_003E"; "B23025_004E";
       "B23025_005E"; "B23025_006E"]);
   ("commuting",
    mkCategory "Commuting"
      ["B08301_001E"; "B08301_003E"; "B08301_010E"; "B08301_016E";
       "B08301_017E"; "B08301_018E"]);
   ("health_insurance",
    mkCategory "Health Insurance"
      ["B27001_001E"; "B27001_002E"; "B27001_003E"]);
   ("disability", mkCategory "Disability" ["B18101_001E"; "B18101_002E"]);
   ("veteran", mkCategory "Veteran Status" ["B21001_001E"; "B21001_002E"]);
   ("language",
    mkCategory "Language" ["B16001_001E"; "B16001_002E"; "B16001_003E"])].

(** The loop of [get_all_acs_variables]: the variables of every
    category, one list after the other. *)
Definition all_vars (categories : list (string * category)) : list string :=
  flat_map (fun kv => variables kv.2) categories.

(** [list(set(all_vars))].  Python leaves the order of a set open; the
    list is taken in the order of the finite set. *)
Definition flatten (categories : list (string * category)) : list string :=
  elements (list_to_set (all_vars categories) : gset string).

Definition get_all_acs_variables : list string := flatten ACS_CATEGORIES.

End Catalog.

(** The rows of the cleaned table that [main] keeps
    ([acs_df[acs_df['ZIPCODE'].isin(existing_zipcodes)]], applied only
    when the set of existing identifiers is truthy). *)
Definition Acs_filtered (existing : option (list cell)) (acs_df : DataFrame)
  : DataFrame :=
  match existing with
  | None | Some [] => acs_df
  | Some zs =>
      mkDF (columns acs_df)
        (List.filter
           (fun r => bool_decide
                       (Pd.key_of (columns acs_df) "ZIPCODE" r ∈ zs))
           (rows acs_df))
  end.

(** * Properties *)

(** ** Strings *)

Lemma append_nil (s : string) : "" +:+ s = s.
Proof. reflexivity. Qed.

Lemma append_cons c (a b : string) : String c a +:+ b = String c (a +:+ b).
Proof. reflexivity. Qed.

Ltac str_simpl := rewrite ?append_nil, ?append_cons; simpl.

Section string_facts.

Lemma length_zeros n : String.length (PyStr.zeros n) = n.
Proof. induction n; simpl; congruence. Qed.

Lemma length_app_string (a b : string) :
  String.length (a +:+ b) = String.length a + String.length b.
Proof. induction a; str_simpl; congruence. Qed.

Lemma app_empty_string (a : string) : a +:+ "" = a.
Proof. induction a; str_simpl; congruence. Qed.

Lemma all_digits_app (a b : string) :
  PyStr.all_digits (a +:+ b) = PyStr.all_digits a && PyStr.all_digits b.
Proof.
  induction a as [|c a IH]; str_simpl; [done|].
  rewrite IH. by destruct (PyStr.is_digit c).
Qed.

Lemma all_digits_zeros n : PyStr.all_digits (PyStr.zeros n) = true.
Proof. induction n; simpl; [done|]. by rewrite IHn. Qed.

Lemma digit_not_sign c : PyStr.is_digit c = true -> PyStr.is_sign c = false.
Proof.
  destruct c as [[] [] [] [] [] [] [] []]; vm_compute; intros; congruence.
Qed.

(** [zfill] returns a string that is long enough as it is. *)
Lemma zfill_long width s :
  width <= String.length s -> PyStr.zfill width s = s.
Proof.
  intros Hle. unfold PyStr.zfill.
  destruct (Nat.leb_spec width (String.length s)); [done | lia].
Qed.

(** On a string of digits [zfill] only puts zeros in front. *)
Lemma zfill_digits width s :
  PyStr.all_digits s = true ->
  PyStr.zfill width s = PyStr.zeros (width - String.length s) +:+ s.
Proof.
  intros Hd. unfold PyStr.zfill.
  destruct (Nat.leb_spec width (String.length s)) as [Hle|Hlt].
  - by replace (width - String.length s) with 0 by lia.
  - destruct s as [|c r]; simpl in *.
    + by rewrite app_empty_string.
    + apply andb_prop in Hd as [Hc _]. by rewrite (digit_not_sign c Hc).
Qed.

Lemma zfill_length width s :
  Nat.max width (String.length s) = String.length (PyStr.zfill width s).
Proof.
  unfold PyStr.zfill.
  destruct (Nat.leb_spec width (String.length s)) as [Hle|Hlt]; [lia|].
  destruct s as [|c r]; simpl in *.
  - rewrite length_zeros. lia.
  - destruct (PyStr.is_sign c); simpl;
      rewrite length_app_string, length_zeros; simpl; lia.
Qed.

End string_facts.

(** ** Chunking *)

Section chunking.

Context {A : Type}.
Implicit Types l : list A.

Lemma slice_length l i c : length (slice l i (i + c)) <= c.
Proof.
  unfold slice. replace (i + c - i) with c by lia.
  rewrite length_take. lia.
Qed.

Lemma slice_drop l i c :
  slice l i (i + c) ++ drop (i + c) l = drop i l.
Proof.
  unfold slice. replace (i + c - i) with c by lia.
  rewrite <- drop_drop. apply take_drop.
Qed.

(** The slices visited from [start] on cover the rest of the list. *)
Lemma range_up_cover l c fuel start :
  0 < c -> length l - start <= fuel ->
  concat (map (fun i => slice l i (i + c))
            (range_up fuel start (length l) c))
  = drop start l.
Proof.
  intros Hc. revert start.
  induction fuel as [|fuel IH]; intros start Hfuel; simpl.
  - rewrite drop_ge by lia. done.
  - destruct (Nat.ltb_spec start (length l)) as [Hlt|Hge]; simpl.
    + rewrite IH by lia. apply slice_drop.
    + rewrite drop_ge by lia. done.
Qed.

Lemma range_up_length c fuel start stop :
  0 < c -> stop - start <= fuel ->
  length (range_up fuel start stop c) = (stop - start + c - 1) / c.
Proof.
  intros Hc. revert start.
  induction fuel as [|fuel IH]; intros start Hfuel; simpl.
  - replace (stop - start + c - 1) with (c - 1) by lia.
    rewrite Nat.div_small; lia.
  - destruct (Nat.ltb_spec start stop) as [Hlt|Hge]; simpl.
    + rewrite IH by lia.
      destruct (decide (stop <= start + c)) as [Hs|Hs].
      * replace (stop - (start + c) + c - 1) with (c - 1) by lia.
        rewrite Nat.div_small by lia.
        apply (Nat.div_unique _ _ 1 (stop - start - 1)); lia.
      * replace (stop - start + c - 1)
          with ((stop - (start + c) + c - 1) + 1 * c) by lia.
        rewrite Nat.div_add by lia. lia.
    + replace (stop - start + c - 1) with (c - 1) by lia.
      rewrite Nat.div_small; lia.
Qed.

End chunking.

(** ** Tables: labels, cells and shape *)

Section frame_facts.

Implicit Types (cols : list string) (r : list cell) (c k : string).

Lemma mem_In c cols : PyStr.mem c cols = true <-> In c cols.
Proof.
  unfold PyStr.mem. rewrite existsb_exists. split.
  - intros (x & Hx & Heq). apply String.eqb_eq in Heq. by subst.
  - intros H. exists c. split; [done | apply String.eqb_refl].
Qed.

Lemma mem_false c cols : PyStr.mem c cols = false <-> ~ In c cols.
Proof.
  rewrite <- mem_In. destruct (PyStr.mem c cols); split; congruence.
Qed.

Lemma mem_cons c k cols :
  PyStr.mem c (k :: cols) = String.eqb c k || PyStr.mem c cols.
Proof. reflexivity. Qed.

Lemma get_nil r c : Pd.get [] r c = None.
Proof. reflexivity. Qed.

Lemma get_cons k cols x r c :
  Pd.get (k :: cols) (x :: r) c
  = if String.eqb k c then Some x else Pd.get cols r c.
Proof.
  unfold Pd.get. simpl. destruct (String.eqb k c); [done|].
  by destruct (Pd.index_of c cols).
Qed.

Lemma get_short cols c : Pd.get cols [] c = None.
Proof. unfold Pd.get. by destruct (Pd.index_of c cols). Qed.

Lemma get_None cols r c : ~ In c cols -> Pd.get cols r c = None.
Proof.
  revert r. induction cols as [|k cols IH]; intros r Hin; [done|].
  destruct r as [|x r]; [apply get_short|].
  rewrite get_cons. destruct (String.eqb_spec k c) as [->|Hne].
  - destruct Hin. by left.
  - apply IH. intros H. apply Hin. by right.
Qed.

Lemma get_is_Some cols r c :
  In c cols -> length r = length cols -> is_Some (Pd.get cols r c).
Proof.
  revert r. induction cols as [|k cols IH]; intros r Hin Hlen; [done|].
  destruct r as [|x r]; [done|]. rewrite get_cons.
  destruct (String.eqb_spec k c) as [->|Hne]; [by eexists|].
  apply IH; [|simpl in Hlen; lia]. destruct Hin; congruence.
Qed.

Lemma get_app cols1 cols2 r1 r2 c :
  length r1 = length cols1 ->
  Pd.get (cols1 ++ cols2) (r1 ++ r2) c
  = if PyStr.mem c cols1 then Pd.get cols1 r1 c else Pd.get cols2 r2 c.
Proof.
  revert r1. induction cols1 as [|k cols1 IH]; intros r1 Hlen.
  - by destruct r1.
  - destruct r1 as [|x r1]; [done|].
    rewrite <- !app_comm_cons, !get_cons, mem_cons.
    rewrite (String.eqb_sym c k).
    destruct (String.eqb k c); [done|]. simpl. apply IH.
    simpl in Hlen. lia.
Qed.

(** *** Selecting columns *)

Lemma select_row_length keep cols r :
  length r = length cols ->
  length (Pd.select_row keep cols r) = length (List.filter keep cols).
Proof.
  revert r. induction cols as [|k cols IH]; intros [|x r] Hlen;
    simpl in *; try done.
  destruct (keep k); simpl; rewrite IH; lia.
Qed.

Lemma get_select_row keep cols r c :
  keep c = true ->
  Pd.get (List.filter keep cols) (Pd.select_row keep cols r) c
  = Pd.get cols r c.
Proof.
  intros Hk. revert r. induction cols as [|k cols IH]; intros r.
  - by destruct r.
  - destruct r as [|x r]; simpl.
    + by rewrite !get_short.
    + rewrite get_cons. destruct (keep k) eqn:Hkk.
      * rewrite get_cons. by rewrite IH.
      * rewrite IH. destruct (String.eqb_spec k c); [congruence | done].
Qed.

Lemma select_rectangular keep df :
  rectangular df -> rectangular (Pd.select keep df).
Proof.
  unfold rectangular. simpl. intros H.
  apply Forall_map. eapply Forall_impl; [exact H|].
  intros r Hr. by apply select_row_length.
Qed.

(** *** Cell-wise assignment *)

Lemma map_row_at_length f c cols r :
  length (Pd.map_row_at f c cols r) = length r.
Proof.
  revert r. induction cols as [|k cols IH]; intros [|x r]; simpl; try done.
  by rewrite IH.
Qed.

Lemma get_map_row_at f c cols r k :
  Pd.get cols (Pd.map_row_at f c cols r) k
  = if String.eqb k c then f <$> Pd.get cols r k else Pd.get cols r k.
Proof.
  revert r. induction cols as [|x cols IH]; intros r.
  - rewrite !get_nil. by destruct (String.eqb k c).
  - destruct r as [|y r]; simpl.
    + rewrite !get_short. by destruct (String.eqb k c).
    + rewrite !get_cons, IH.
      destruct (String.eqb_spec x k) as [->|Hne]; [|done].
      by destruct (String.eqb k c).
Qed.

Lemma assign_rectangular c f df :
  rectangular df -> rectangular (Pd.assign c f df).
Proof.
  unfold rectangular. simpl. intros H.
  apply Forall_map. eapply Forall_impl; [exact H|].
  intros r Hr. simpl. by rewrite map_row_at_length.
Qed.

Lemma dropna_rectangular c df :
  rectangular df -> rectangular (Pd.dropna c df).
Proof.
  unfold rectangular. simpl. intros H.
  apply Forall_forall. intros r Hr.
  apply list_elem_of_In, filter_In in Hr as [Hr _].
  rewrite Forall_forall in H. by apply H, list_elem_of_In.
Qed.

Lemma rename_rectangular old new df :
  rectangular df -> rectangular (Pd.rename old new df).
Proof.
  unfold rectangular. simpl. intros H.
  eapply Forall_impl; [exact H|]. intros r Hr. simpl.
  by rewrite length_map.
Qed.

(** *** Unique labels *)

Lemma the_column_Ok c cols e :
  Pd.the_column c cols e = Ok tt
  <-> length (List.filter (String.eqb c) cols) = 1.
Proof.
  unfold Pd.the_column.
  destruct (List.filter (String.eqb c) cols) as [|x [|y l]]; simpl;
    split; intros H; try done; lia.
Qed.

Lemma the_column_In c cols e u :
  Pd.the_column c cols e = Ok u -> In c cols.
Proof.
  unfold Pd.the_column.
  destruct (List.filter (String.eqb c) cols) as [|x l] eqn:Hf; [done|].
  intros _. assert (In x (List.filter (String.eqb c) cols)) as Hx
    by (rewrite Hf; by left).
  apply filter_In in Hx as [Hx Heq]. apply String.eqb_eq in Heq.
  by subst.
Qed.

(** Renaming [old] to [new] when the result holds [new] only once: the
    renamed column is where [old] stood. *)
Lemma index_of_rename old new cols :
  In old cols ->
  length (List.filter (String.eqb new)
            (map (fun c => if String.eqb c old then new else c) cols)) = 1 ->
  Pd.index_of new (map (fun c => if String.eqb c old then new else c) cols)
  = Pd.index_of old cols.
Proof.
  induction cols as [|k cols IH]; intros Hin Hone; [done|]. simpl in *.
  destruct (String.eqb_spec k old) as [->|Hne].
  - by rewrite String.eqb_refl.
  - destruct Hin as [?|Hin]; [congruence|].
    destruct (String.eqb_spec k new) as [->|Hne2].
    + rewrite String.eqb_refl in Hone. simpl in Hone.
      assert (In new (List.filter (String.eqb new)
        (map (fun c => if String.eqb c old then new else c) cols))) as Hx.
      { apply filter_In. split; [|apply String.eqb_refl].
        apply in_map_iff. exists old. by rewrite String.eqb_refl. }
      destruct (List.filter _ _); [done | simpl in Hone; lia].
    + destruct (String.eqb_spec new k); [congruence|].
      by rewrite IH.
Qed.

End frame_facts.

(** ** The cleaning step *)

Section cleaning.

Variable to_numeric : cell -> cell.

Lemma key_of_select_row keep cols r c :
  keep c = true ->
  Pd.key_of (List.filter keep cols) c (Pd.select_row keep cols r)
  = Pd.key_of cols c r.
Proof. intros H. unfold Pd.key_of. by rewrite get_select_row. Qed.

Lemma keys_drop_column c k df :
  k <> c -> Pd.keys c (Pd.drop_column k df) = Pd.keys c df.
Proof.
  intros Hne. unfold Pd.keys, Pd.drop_column. simpl.
  rewrite map_map. apply map_ext. intros r.
  apply key_of_select_row. by destruct (String.eqb_spec c k).
Qed.

Lemma keys_assign_other c k f df :
  k <> c -> Pd.keys c (Pd.assign k f df) = Pd.keys c df.
Proof.
  intros Hne. unfold Pd.keys, Pd.assign. simpl.
  rewrite map_map. apply map_ext. intros r. unfold Pd.key_of.
  rewrite get_map_row_at. by destruct (String.eqb_spec c k).
Qed.

Lemma keys_assign c f df :
  rectangular df -> In c (columns df) ->
  Pd.keys c (Pd.assign c f df) = map f (Pd.keys c df).
Proof.
  intros Hrect Hin. unfold Pd.keys, Pd.assign. simpl.
  rewrite !map_map. apply map_ext_in. intros r Hr. unfold Pd.key_of.
  rewrite get_map_row_at, String.eqb_refl.
  destruct (get_is_Some (columns df) r c Hin) as [x ->]; [|done].
  unfold rectangular in Hrect. rewrite Forall_forall in Hrect.
  by apply Hrect, list_elem_of_In.
Qed.

Lemma keys_dropna c df :
  rectangular df -> In c (columns df) ->
  Pd.keys c (Pd.dropna c df)
  = List.filter (fun x => negb (isna x)) (Pd.keys c df).
Proof.
  intros Hrect Hin. unfold Pd.keys, Pd.dropna. simpl.
  unfold rectangular in Hrect.
  induction (rows df) as [|r rs IH]; [done|].
  apply Forall_cons in Hrect as [Hr Hrs]. simpl.
  destruct (get_is_Some (columns df) r c Hin Hr) as [x Hx].
  assert (Pd.key_of (columns df) c r = x) as Hk
    by (unfold Pd.key_of; by rewrite Hx).
  rewrite Hx, Hk.
  destruct x; simpl; rewrite ?Hk, IH by done; done.
Qed.

Lemma keys_rename old new df :
  In old (columns df) ->
  length (List.filter (String.eqb new) (columns (Pd.rename old new df))) = 1 ->
  Pd.keys new (Pd.rename old new df) = Pd.keys old df.
Proof.
  intros Hin Hone. unfold Pd.keys. simpl. apply map_ext. intros r.
  unfold Pd.key_of, Pd.get. simpl in Hone.
  by rewrite index_of_rename.
Qed.

Lemma rename_same c df : Pd.rename c c df = df.
Proof.
  destruct df as [cols rs]. unfold Pd.rename. simpl. f_equal.
  induction cols as [|k cols IH]; [done|]. simpl. rewrite IH.
  by destruct (String.eqb_spec k c) as [->|].
Qed.

(** The loop that drops geography columns leaves the identifier
    column alone. *)
Lemma filter_eqb_drop c k cols :
  k <> c ->
  List.filter (String.eqb c)
    (List.filter (fun x => negb (String.eqb x k)) cols)
  = List.filter (String.eqb c) cols.
Proof.
  intros Hne. induction cols as [|x l IH]; [done|]. simpl.
  destruct (String.eqb_spec x k) as [->|Hk]; simpl.
  - destruct (String.eqb_spec c k); [congruence | done].
  - by rewrite IH.
Qed.

Lemma drop_loop_spec cs df :
  rectangular df ->
  rectangular (Acs.drop_geography cs df)
  /\ Pd.keys "ZIPCODE" (Acs.drop_geography cs df) = Pd.keys "ZIPCODE" df
  /\ List.filter (String.eqb "ZIPCODE")
       (columns (Acs.drop_geography cs df))
     = List.filter (String.eqb "ZIPCODE") (columns df).
Proof.
  revert df. induction cs as [|col cs IH]; intros df Hrect;
    cbn [Acs.drop_geography]; [done|].
  destruct (String.eqb_spec col "ZIPCODE") as [->|Hne]; cbn [negb].
  - by apply IH.
  - destruct (IH (Pd.drop_column col df)) as (H1 & H2 & H3).
    { by apply select_rectangular. }
    split; [done|]. split.
    + rewrite H2. by apply keys_drop_column.
    + rewrite H3. by apply filter_eqb_drop.
Qed.

Lemma is_variable_col_not_zip col :
  Acs.is_variable_col col = true -> col <> "ZIPCODE".
Proof.
  unfold Acs.is_variable_col. intros H ->. by vm_compute in H.
Qed.

Lemma coerce_columns_spec cs df out :
  Acs.coerce_columns to_numeric cs df = Ok out ->
  rectangular df ->
  rectangular out /\ columns out = columns df
  /\ Pd.keys "ZIPCODE" out = Pd.keys "ZIPCODE" df.
Proof.
  revert df. induction cs as [|col cs IH]; intros df Hrun Hrect;
    cbn [Acs.coerce_columns] in Hrun.
  - injection Hrun as <-. auto.
  - destruct (Acs.is_variable_col col) eqn:Hv; [|by apply IH].
    destruct (Pd.the_column col (columns df) _); [|done]. simpl in Hrun.
    apply IH in Hrun as (H1 & H2 & H3); [|by apply assign_rectangular].
    split; [done|]. split; [done|].
    rewrite H3. apply keys_assign_other. by apply is_variable_col_not_zip.
Qed.

Lemma find_zipcode_col_In cols zc :
  Acs.find_zipcode_col cols = Some zc ->
  In zc cols /\ In zc Acs.zipcode_candidates.
Proof.
  unfold Acs.find_zipcode_col. intros H.
  apply find_some in H as [H1 H2]. split; [by apply mem_In | done].
Qed.

(** The identifiers that leave [clean_acs_data] are the non-missing
    identifiers that entered it, each one canonicalised. *)
Lemma clean_acs_data_keys df out zc :
  Acs.clean_acs_data to_numeric df = Ok out ->
  rectangular df ->
  Acs.find_zipcode_col (columns df) = Some zc ->
  Pd.keys "ZIPCODE" out
  = map canonical_zip
      (List.filter (fun x => negb (isna x)) (Pd.keys zc df)).
Proof.
  intros Hrun Hrect Hzc. unfold Acs.clean_acs_data in Hrun.
  rewrite Hzc in Hrun.
  apply find_zipcode_col_In in Hzc as [Hin _].
  set (df1 := if negb (String.eqb zc "ZIPCODE") then Pd.rename zc "ZIPCODE" df else df)
    in Hrun.
  assert (df1 = Pd.rename zc "ZIPCODE" df) as Hdf1.
  { unfold df1. destruct (String.eqb_spec zc "ZIPCODE") as [Heq|]; simpl;
      [by rewrite Heq, rename_same | done]. }
  clearbody df1. subst df1.
  set (cs := List.filter _ _) in Hrun.
  destruct (drop_loop_spec cs (Pd.rename zc "ZIPCODE" df)) as (R2 & K2 & U2).
  { by apply rename_rectangular. }
  set (df2 := Acs.drop_geography cs _) in *. clearbody df2.
  destruct (Acs.coerce_columns to_numeric (columns df2) df2) as [df3|]
    eqn:Hco; [|done].
  simpl in Hrun.
  apply coerce_columns_spec in Hco as (R3 & C3 & K3); [|done].
  destruct (Pd.the_column "ZIPCODE" (columns df3) _) as [[]|]
    eqn:Hu; [|done].
  simpl in Hrun. injection Hrun as <-.
  pose proof (the_column_In _ _ _ _ Hu) as Hz.
  apply the_column_Ok in Hu.
  rewrite keys_assign; [|by apply dropna_rectangular | done].
  rewrite keys_dropna by done.
  rewrite K3, K2. rewrite keys_rename; [done | done |].
  by rewrite <- U2, <- C3.
Qed.

End cleaning.

(** ** Canonical identifiers *)

Lemma canonicalize_spec df d :
  Acs.canonicalize df = Ok d ->
  rectangular df ->
  d = Pd.assign "ZIPCODE" canonical_zip df
  /\ Pd.keys "ZIPCODE" d = map canonical_zip (Pd.keys "ZIPCODE" df).
Proof.
  unfold Acs.canonicalize. intros Hrun Hrect.
  destruct (Pd.the_column _ _ _) as [[]|] eqn:Hu; [|done].
  simpl in Hrun. injection Hrun as <-. split; [done|].
  apply keys_assign; [done|]. by eapply the_column_In.
Qed.

Lemma merge_with_boundaries_unfold layers boundaries acs_df merged :
  layers !! "zipcodes" = Some boundaries ->
  Acs.merge_with_boundaries (Some layers) acs_df = Ok merged ->
  exists b a,
    Acs.canonicalize boundaries = Ok b /\ Acs.canonicalize acs_df = Ok a
    /\ Pd.merge Pd.Left "ZIPCODE" ("_x", "_y") b a = Ok merged.
Proof.
  intros Hl. unfold Acs.merge_with_boundaries, read_file. rewrite Hl. simpl.
  destruct (Acs.canonicalize boundaries) as [b|]; [|done]. simpl.
  destruct (Acs.canonicalize acs_df) as [a|]; [|done]. simpl.
  intros H. by exists b, a.
Qed.

(** C1.  A string of at most five digits is canonicalised to the
    five-character string that puts zeros in front of it; the cleaning
    step leaves exactly the canonicalised non-missing identifiers; and
    [merge_with_boundaries] joins on the identifier column after the same
    canonicalisation has been applied to the boundary table and to the
    statistical table. *)
Theorem canonical_zip_both_sides :
  (forall s,
      PyStr.all_digits s = true -> String.length s <= 5 ->
      canonical_zip (Str s)
      = Str (PyStr.zeros (5 - String.length s) +:+ s)
      /\ String.length (PyStr.zeros (5 - String.length s) +:+ s) = 5
      /\ PyStr.all_digits (PyStr.zeros (5 - String.length s) +:+ s) = true)
  /\ (forall to_numeric df out zc,
      Acs.clean_acs_data to_numeric df = Ok out ->
      rectangular df ->
      Acs.find_zipcode_col (columns df) = Some zc ->
      Pd.keys "ZIPCODE" out
      = map canonical_zip
          (List.filter (fun x => negb (isna x)) (Pd.keys zc df)))
  /\ (forall layers boundaries acs_df merged,
      layers !! "zipcodes" = Some boundaries ->
      rectangular boundaries -> rectangular acs_df ->
      Acs.merge_with_boundaries (Some layers) acs_df = Ok merged ->
      let b := Pd.assign "ZIPCODE" canonical_zip boundaries in
      let a := Pd.assign "ZIPCODE" canonical_zip acs_df in
      Pd.merge Pd.Left "ZIPCODE" ("_x", "_y") b a = Ok merged
      /\ Pd.keys "ZIPCODE" b = map canonical_zip (Pd.keys "ZIPCODE" boundaries)
      /\ Pd.keys "ZIPCODE" a = map canonical_zip (Pd.keys "ZIPCODE" acs_df)).
Proof.
  split; [|split].
  - intros s Hd Hlen. unfold canonical_zip. simpl.
    rewrite zfill_digits by done. split; [done|]. split.
    + rewrite length_app_string, length_zeros. lia.
    + by rewrite all_digits_app, all_digits_zeros.
  - intros to_numeric df out zc. apply clean_acs_data_keys.
  - intros layers boundaries acs_df merged Hl Hb Ha Hrun.
    destruct (merge_with_boundaries_unfold _ _ _ _ Hl Hrun)
      as (b & a & Hcb & Hca & Hm).
    apply canonicalize_spec in Hcb as [-> Hkb]; [|done].
    apply canonicalize_spec in Hca as [-> Hka]; [|done].
    done.
Qed.

Lemma canonical_zip_both_sides_witness :
  canonical_zip (Str "123") = Str "00123"
  /\ Pd.keys "ZIPCODE"
       (mkDF ["B01001_001E"; "ZIPCODE"]
          [[Str "12"; Str "06410"]; [Str "7"; Str "64101"]])
     = [Str "06410"; Str "64101"]
  /\ Pd.merge Pd.Left "ZIPCODE" ("_x", "_y")
       (mkDF ["ZIPCODE"; "geometry"] [[Str "06410"; Geom "POLYGON A"]])
       (mkDF ["ZIPCODE"; "B01001_001E"] [[Str "06410"; Num 12]])
     = Ok (mkDF ["ZIPCODE"; "geometry"; "B01001_001E"]
             [[Str "06410"; Geom "POLYGON A"; Num 12]]).
Proof.
  destruct canonical_zip_both_sides as (HA & HB & HC).
  split; [|split].
  - apply (HA "123"); [reflexivity | simpl; lia].
  - apply (HB (fun c => c)
             (mkDF ["B01001_001E"; "NAME"; "zip code tabulation area"]
                [[Str "12"; Str "ZCTA5 06410"; Str "6410"];
                 [Str "x"; Str "none"; NaN];
                 [Str "7"; Str "ZCTA5 64101"; Str "64101"]])
             _ "zip code tabulation area");
      [reflexivity | repeat constructor | reflexivity].
  - apply (HC {["zipcodes" := mkDF ["ZIPCODE"; "geometry"]
                                [[Str "6410"; Geom "POLYGON A"]]]}
             (mkDF ["ZIPCODE"; "geometry"] [[Str "6410"; Geom "POLYGON A"]])
             (mkDF ["ZIPCODE"; "B01001_001E"] [[Str "06410"; Num 12]]));
      [reflexivity | repeat constructor | repeat constructor | reflexivity].
Defined.

(** C9.  Canonicalisation never truncates: an identifier of more than
    five characters is returned unchanged, and it leaves the cleaning
    step as it entered it. *)
Theorem overlong_identifier_unchanged to_numeric df out zc s :
  5 < String.length s ->
  Acs.clean_acs_data to_numeric df = Ok out ->
  rectangular df ->
  Acs.find_zipcode_col (columns df) = Some zc ->
  In (Str s) (Pd.keys zc df) ->
  PyStr.zfill 5 s = s
  /\ canonical_zip (Str s) = Str s
  /\ In (Str s) (Pd.keys "ZIPCODE" out).
Proof.
  intros Hlen Hrun Hrect Hzc Hin.
  assert (PyStr.zfill 5 s = s) as Hz by (apply zfill_long; lia).
  assert (canonical_zip (Str s) = Str s) as Hc
    by (unfold canonical_zip; simpl; by rewrite Hz).
  split; [done|]. split; [done|].
  rewrite (clean_acs_data_keys _ _ _ _ Hrun Hrect Hzc).
  rewrite <- Hc. apply in_map, filter_In. by split.
Qed.

Lemma overlong_identifier_unchanged_witness :
  PyStr.zfill 5 "641010000" = "641010000"
  /\ canonical_zip (Str "641010000") = Str "641010000"
  /\ In (Str "641010000")
       (Pd.keys "ZIPCODE"
          (mkDF ["B01001_001E"; "ZIPCODE"]
             [[Str "12"; Str "641010000"]; [Str "7"; Str "00064"]])).
Proof.
  apply (overlong_identifier_unchanged (fun c => c)
           (mkDF ["B01001_001E"; "ZCTA5"]
              [[Str "12"; Str "641010000"]; [Str "7"; Str "64"]])
           _ "ZCTA5" "641010000");
    [simpl; lia | reflexivity | repeat constructor | reflexivity
    | by left].
Defined.

(** C4.  For a chunk size [C > 0] the loop of [fetch_acs_data] visits
    [ceil(N / C)] chunks of a list of [N] variables, none longer than
    [C], and the chunks put end to end are the list itself, so a
    variable is in the list exactly when it is in some chunk. *)
Theorem chunks_cover (variables : list string) (C : nat) :
  0 < C ->
  let n := length (chunks variables C) in
  n = (length variables + C - 1) / C
  /\ length variables <= n * C < length variables + C
  /\ Forall (fun ic => length ic.2 <= C) (chunks variables C)
  /\ concat (map snd (chunks variables C)) = variables
  /\ (forall v,
        In v variables <-> exists ic, In ic (chunks variables C) /\ In v ic.2).
Proof.
  intros HC n.
  assert (n = (length variables + C - 1) / C) as Hn.
  { unfold n, chunks, py_range. rewrite length_map.
    rewrite range_up_length by lia. f_equal. lia. }
  assert (concat (map snd (chunks variables C)) = variables) as Hcat.
  { unfold chunks, py_range. rewrite map_map. simpl.
    rewrite range_up_cover by lia. done. }
  split; [done|]. split.
  { rewrite Hn.
    pose proof (Nat.div_mod (length variables + C - 1) C ltac:(lia)) as Hdm.
    pose proof (Nat.mod_upper_bound (length variables + C - 1) C ltac:(lia)).
    nia. }
  split.
  { unfold chunks. apply Forall_map, Forall_forall. intros i _. simpl.
    apply slice_length. }
  split; [done|].
  intros v. rewrite <- Hcat at 1. rewrite in_concat. split.
  - intros (ch & Hch & Hv). apply in_map_iff in Hch as (ic & <- & Hic).
    by exists ic.
  - intros (ic & Hic & Hv). exists ic.2. split; [|done]. by apply in_map.
Qed.

Lemma chunks_cover_witness :
  chunks ["B01001_001E"; "B01001_002E"; "B01002_001E"] 2
  = [(0, ["B01001_001E"; "B01001_002E"]); (2, ["B01002_001E"])]
  /\ length (chunks ["B01001_001E"; "B01001_002E"; "B01002_001E"] 2)
     = (3 + 2 - 1) / 2.
Proof.
  split; [reflexivity|].
  apply (chunks_cover ["B01001_001E"; "B01001_002E"; "B01002_001E"] 2).
  lia.
Defined.

(** ** Discovery of the identifier column *)

Section discovery.

Lemma mem_rename_new old new cols :
  In old cols ->
  PyStr.mem new (map (fun c => if String.eqb c old then new else c) cols)
  = true.
Proof.
  intros Hin. apply mem_In, in_map_iff. exists old.
  by rewrite String.eqb_refl.
Qed.

(** [resolve_zipcode_col] names the column that the boundary loader's
    renaming turns into [ZIPCODE]. *)
Lemma normalize_zipcode_column_resolve gdf :
  Tiger.normalize_zipcode_column gdf
  = match Tiger.resolve_zipcode_col (columns gdf) with
    | Some c => Ok (Pd.rename c "ZIPCODE" gdf)
    | None =>
        Raise (Exception "Could not find ZIPCODE column in TIGER file")
    end.
Proof.
  unfold Tiger.normalize_zipcode_column, Tiger.resolve_zipcode_col,
    Pd.has_col.
  destruct (PyStr.mem "ZCTA5CE20" (columns gdf)) eqn:H20.
  { simpl. rewrite mem_rename_new by (by apply mem_In). done. }
  destruct (PyStr.mem "ZCTA5CE10" (columns gdf)) eqn:H10.
  { simpl. rewrite mem_rename_new by (by apply mem_In). done. }
  destruct (PyStr.mem "ZCTA5" (columns gdf)) eqn:H5.
  { simpl. rewrite mem_rename_new by (by apply mem_In). done. }
  destruct (PyStr.mem "ZIPCODE" (columns gdf)) eqn:Hz; simpl.
  { by rewrite rename_same. }
  by destruct (List.filter Tiger.looks_like_zipcode (columns gdf)).
Qed.

Lemma candidates_look_like_zipcode zc :
  In zc Acs.zipcode_candidates -> Tiger.looks_like_zipcode zc = true.
Proof.
  intros [<-|[<-|[<-|[]]]]; reflexivity.
Qed.

End discovery.

(** C5, as the code has it.  The two loaders search different lists: the
    statistical loader takes the first of [zip code tabulation area],
    [ZCTA5], [ZIPCODE]; the boundary loader the first of [ZCTA5CE20],
    [ZCTA5CE10], [ZCTA5], [ZIPCODE] and then the first label that
    contains ZCTA or ZIP.  Whenever the statistical loader resolves a
    column, the boundary loader's logic resolves one as well, and it is
    the same column when no other label of the table contains ZCTA or
    ZIP. *)
Theorem zipcode_col_agreement (cols : list string) (zc : string) :
  Acs.find_zipcode_col cols = Some zc ->
  (exists c, Tiger.resolve_zipcode_col cols = Some c)
  /\ ((forall c, In c cols -> Tiger.looks_like_zipcode c = true -> c = zc) ->
      Tiger.resolve_zipcode_col cols = Some zc).
Proof.
  intros Hfind. apply find_zipcode_col_In in Hfind as [Hin Hcand].
  pose proof (candidates_look_like_zipcode zc Hcand) as Hlook.
  assert (In zc (List.filter Tiger.looks_like_zipcode cols)) as Hf
    by (by apply filter_In).
  split.
  - unfold Tiger.resolve_zipcode_col.
    repeat (match goal with |- context [if ?b then _ else _] =>
              destruct b; [by eexists|] end).
    destruct (List.filter _ cols); [done | by eexists].
  - intros Honly. unfold Tiger.resolve_zipcode_col.
    destruct (PyStr.mem "ZCTA5CE20" cols) eqn:H20.
    { apply mem_In, Honly in H20; [|done]. subst zc.
      by destruct Hcand as [?|[?|[?|[]]]]. }
    destruct (PyStr.mem "ZCTA5CE10" cols) eqn:H10.
    { apply mem_In, Honly in H10; [|done]. subst zc.
      by destruct Hcand as [?|[?|[?|[]]]]. }
    destruct (PyStr.mem "ZCTA5" cols) eqn:H5.
    { apply mem_In, Honly in H5; [|done]. by subst zc. }
    destruct (PyStr.mem "ZIPCODE" cols) eqn:Hz.
    { apply mem_In, Honly in Hz; [|done]. by subst zc. }
    destruct (List.filter Tiger.looks_like_zipcode cols) as [|c l] eqn:Hl;
      [done|]. simpl. f_equal.
    assert (In c (List.filter Tiger.looks_like_zipcode cols)) as Hc
      by (rewrite Hl; by left).
    apply filter_In in Hc as [Hc1 Hc2]. by apply Honly.
Qed.

Lemma zipcode_col_agreement_witness :
  Tiger.resolve_zipcode_col ["B01001_001E"; "zip code tabulation area"]
  = Some "zip code tabulation area".
Proof.
  apply (zipcode_col_agreement
           ["B01001_001E"; "zip code tabulation area"]
           "zip code tabulation area"); [reflexivity|].
  intros c [<-|[<-|[]]]; [by vm_compute | done].
Defined.

(** On a table that holds both [zip code tabulation area] and [ZCTA5]
    the two loaders resolve different columns. *)
Lemma zipcode_col_disagreement :
  Acs.find_zipcode_col ["zip code tabulation area"; "ZCTA5"]
  = Some "zip code tabulation area"
  /\ Tiger.resolve_zipcode_col ["zip code tabulation area"; "ZCTA5"]
     = Some "ZCTA5"
  /\ ~ (forall cols,
          Acs.find_zipcode_col cols = Tiger.resolve_zipcode_col cols).
Proof.
  split; [reflexivity|]. split; [reflexivity|].
  intros H. specialize (H ["zip code tabulation area"; "ZCTA5"]).
  by vm_compute in H.
Qed.

(** ** Acquisition of the boundary archive *)

(** C7, as the code has it.  When the archive is not on disk, the
    download of the configured year fails and, the year being later than
    2020, the download of the prior year fails too, the boundary loader
    raises an exception whose message names the two years. *)
Theorem both_downloads_fail (w : Tiger.world) (year : Z) :
  Tiger.fs w !! Tiger.raw_path (Tiger.tiger_file_name year) = None ->
  Tiger.download_tiger_file w (Tiger.tiger_url_of year) = None ->
  (2020 < year)%Z ->
  Tiger.download_tiger_file w (Tiger.tiger_url_of (year - 1)) = None ->
  Tiger.extract_zipcode_boundaries w year
  = Raise (Exception ("Failed to download TIGER file from both "
                      +:+ pretty year +:+ " and " +:+ pretty (year - 1)%Z)).
Proof.
  intros Hfs Hd1 Hy Hd2.
  unfold Tiger.extract_zipcode_boundaries, Tiger.acquire.
  rewrite Hfs, Hd1, Hd2.
  destruct (Z.ltb_spec 2020 year); [done | lia].
Qed.

(** A run in which nothing is on disk and every download attempt
    fails. *)
Lemma both_downloads_fail_witness :
  Tiger.extract_zipcode_boundaries
    (Tiger.mkWorld ∅ (fun _ _ _ => Tiger.Failed) (fun _ => true)
       (fun _ g => g) None)
    Config.TIGER_YEAR
  = Raise (Exception "Failed to download TIGER file from both 2025 and 2024").
Proof.
  apply (both_downloads_fail
           (Tiger.mkWorld ∅ (fun _ _ _ => Tiger.Failed) (fun _ => true)
              (fun _ g => g) None) 2025);
    [reflexivity | reflexivity | lia | reflexivity].
Defined.

(** With the configured year, the message raised after both downloads
    failed contains neither of the two URLs that were tried. *)
Lemma both_downloads_fail_no_url :
  let w :=
    Tiger.mkWorld ∅ (fun _ _ _ => Tiger.Timeout) (fun _ => true)
      (fun _ g => g) None in
  exists msg,
    Tiger.extract_zipcode_boundaries w Config.TIGER_YEAR
    = Raise (Exception msg)
    /\ Tiger.download_tiger_file w (Tiger.tiger_url_of Config.TIGER_YEAR)
       = None
    /\ Tiger.download_tiger_file w
         (Tiger.tiger_url_of (Config.TIGER_YEAR - 1)) = None
    /\ PyStr.contains msg (Tiger.tiger_url_of Config.TIGER_YEAR) = false
    /\ PyStr.contains msg (Tiger.tiger_url_of (Config.TIGER_YEAR - 1))
       = false.
Proof.
  eexists. split; [reflexivity|]. by vm_compute.
Qed.

(** ** Exit status of the entry points *)

(** C6 at the failing inputs: with the container file missing, and with
    a container that lacks the [zipcodes] layer, both exporters report
    failure to their caller, and the process still ends with status 0,
    whatever the libraries of the environment would answer. *)
Theorem exporters_exit_zero_on_failure
    (is_empty : string -> bool)
    (read_sql_query : container -> string -> result DataFrame)
    (to_json_raw : DataFrame -> result unit) :
  Exporters.export_to_json read_sql_query to_json_raw None = (false, None)
  /\ Script.export_to_json read_sql_query to_json_raw None = 0%Z
  /\ Exporters.export_to_json read_sql_query to_json_raw (Some ∅)
     = (false, None)
  /\ Script.export_to_json read_sql_query to_json_raw (Some ∅) = 0%Z
  /\ (Exporters.convert_geometry_to_wkt is_empty None).1 = false
  /\ Script.convert_geometry_to_wkt is_empty None = 0%Z
  /\ (Exporters.convert_geometry_to_wkt is_empty (Some ∅)).1 = false
  /\ Script.convert_geometry_to_wkt is_empty (Some ∅) = 0%Z.
Proof. repeat split; reflexivity. Qed.

(** The two loaders end with status 1 exactly when their body raises. *)
Lemma loaders_exit_status :
  (forall w, Script.load_tiger_zipcode_boundaries w <> 0%Z
             <-> raises (Tiger.extract_zipcode_boundaries w
                           Config.TIGER_YEAR) = true)
  /\ (forall w to_numeric vars,
         Script.load_acs_zipcode_data w to_numeric vars <> 0%Z
         <-> raises (Acs.main w to_numeric vars) = true).
Proof.
  split; intros; unfold Script.load_tiger_zipcode_boundaries,
    Script.load_acs_zipcode_data, Script.guarded, raises;
    match goal with |- context [match ?m with _ => _ end] => destruct m end;
    split; (done || lia || congruence).
Qed.

(** ** Suffixes of a merge *)

Section suffixes.

Lemma endswith_refl s : PyStr.endswith s s = true.
Proof.
  destruct s as [|c s]; [done|].
  cbn [PyStr.endswith]. by rewrite String.eqb_refl.
Qed.

Lemma endswith_app x s : PyStr.endswith (x +:+ s) s = true.
Proof.
  induction x as [|c x IH]; str_simpl; [apply endswith_refl|].
  rewrite IH. apply orb_true_r.
Qed.

Lemma append_inj_r x y s : x +:+ s = y +:+ s -> x = y.
Proof.
  revert y. induction x as [|c x IH]; intros [|d y] H; [done| | |].
  - apply (f_equal String.length) in H.
    rewrite append_nil, length_app_string in H. simpl in H. lia.
  - apply (f_equal String.length) in H.
    rewrite append_nil, length_app_string in H. simpl in H. lia.
  - rewrite !append_cons in H. injection H as -> H. f_equal. by apply IH.
Qed.

Lemma renamer_empty to_rename x : Pd.renamer to_rename "" x = x.
Proof.
  unfold Pd.renamer. destruct (PyStr.mem x to_rename); [|done].
  apply app_empty_string.
Qed.

Lemma renamer_nil suffix x : Pd.renamer [] suffix x = x.
Proof. reflexivity. Qed.

(** Appending [_dup] to some labels of a list in which no label ends
    in [_dup] keeps distinct labels distinct. *)
Lemma renamer_dup_inj to_rename cols x y :
  Forall (fun c => Acs.is_dup c = false) cols ->
  In x cols -> In y cols ->
  Pd.renamer to_rename "_dup" x = Pd.renamer to_rename "_dup" y -> x = y.
Proof.
  intros Hnd Hx Hy. rewrite Forall_forall in Hnd.
  pose proof (Hnd x (proj2 (list_elem_of_In _ _) Hx)) as Hdx.
  pose proof (Hnd y (proj2 (list_elem_of_In _ _) Hy)) as Hdy.
  unfold Pd.renamer.
  destruct (PyStr.mem x to_rename), (PyStr.mem y to_rename); intros H.
  - by apply append_inj_r in H.
  - subst y. unfold Acs.is_dup in Hdy. by rewrite endswith_app in Hdy.
  - subst x. unfold Acs.is_dup in Hdx. by rewrite endswith_app in Hdx.
  - done.
Qed.

Lemma no_new_duplicates_from f seen l :
  (forall x y, In x (seen ++ l) -> In y (seen ++ l) -> f x = f y -> x = y) ->
  existsb id
    (zip_with (fun d o => d && negb o)
       (Pd.duplicated_from (map f seen) (map f l))
       (Pd.duplicated_from seen l)) = false.
Proof.
  revert seen. induction l as [|x l IH]; intros seen Hinj; [done|].
  assert (forall a b, In a ((x :: seen) ++ l) -> In b ((x :: seen) ++ l) ->
                      f a = f b -> a = b) as Hinj'.
  { intros a b Ha Hb. apply Hinj.
    - simpl in Ha. apply in_or_app.
      destruct Ha as [<-|Ha]; [right; by left|].
      apply in_app_or in Ha as [?|?]; [by left | right; by right].
    - simpl in Hb. apply in_or_app.
      destruct Hb as [<-|Hb]; [right; by left|].
      apply in_app_or in Hb as [?|?]; [by left | right; by right]. }
  specialize (IH (x :: seen) Hinj'). simpl in IH. simpl. rewrite IH.
  rewrite orb_false_r.
  destruct (PyStr.mem (f x) (map f seen)) eqn:Hm; [|done]. simpl.
  apply mem_In, in_map_iff in Hm as (y & Hfy & Hy).
  assert (y = x) as ->.
  { apply Hinj; [apply in_or_app; by left
                | apply in_or_app; right; by left | done]. }
  apply mem_In in Hy. unfold id. by rewrite Hy.
Qed.

Lemma no_new_duplicates f l :
  (forall x y, In x l -> In y l -> f x = f y -> x = y) ->
  Pd.new_duplicates l (map f l) = false.
Proof.
  intros H. unfold Pd.new_duplicates, Pd.duplicated.
  by apply (no_new_duplicates_from f [] l).
Qed.

(** With the suffixes of the chunk merge the labels are accepted as
    soon as no label of the right frame ends in [_dup]; the left
    labels stay as they are. *)
Lemma items_overlap_dup_Ok left right :
  Forall (fun c => Acs.is_dup c = false) right ->
  Pd.items_overlap_with_suffix left right ("", "_dup")
  = Ok (left,
        map (Pd.renamer
               (List.filter (fun x => PyStr.mem x right) left) "_dup")
          right).
Proof.
  intros Hnd. unfold Pd.items_overlap_with_suffix.
  destruct (List.filter (fun x => PyStr.mem x right) left) as [|t tr]
    eqn:Htr.
  - replace (map (Pd.renamer [] "_dup") right) with right; [done|].
    clear. induction right as [|x r IH]; [done|].
    simpl. by rewrite renamer_nil, <- IH.
  - simpl.
    replace (map (Pd.renamer (t :: tr) "") left) with left.
    2:{ clear. induction left as [|x l IH]; [done|].
        simpl. by rewrite renamer_empty, <- IH. }
    assert (Pd.new_duplicates left left = false) as ->.
    { rewrite <- (map_id left) at 2. by apply no_new_duplicates. }
    rewrite no_new_duplicates; [done|].
    intros x y. by apply renamer_dup_inj.
Qed.

Lemma select_no_dup df :
  Forall (fun c => Acs.is_dup c = false)
    (columns (Pd.select (fun c => negb (Acs.is_dup c)) df)).
Proof.
  simpl. apply Forall_forall. intros c Hc.
  apply list_elem_of_In, filter_In in Hc as [_ Hc].
  by destruct (Acs.is_dup c).
Qed.

Lemma merge_chunk_Ok df chunk zc :
  Acs.common_zipcode_col df chunk = Some zc ->
  length (List.filter (String.eqb zc) (columns df)) = 1 ->
  length (List.filter (String.eqb zc) (columns chunk)) = 1 ->
  Forall (fun c => Acs.is_dup c = false) (columns chunk) ->
  Acs.merge_chunk df chunk
  = Ok (Pd.select (fun c => negb (Acs.is_dup c))
          (mkDF
             (columns df
              ++ map (Pd.renamer
                        (List.filter
                           (fun x => PyStr.mem x
                              (List.filter (Pd.not_label zc)
                                 (columns chunk)))
                           (columns df)) "_dup")
                   (List.filter (Pd.not_label zc) (columns chunk)))
             (Pd.merge_rows Pd.Outer zc df chunk))).
Proof.
  intros Hzc Hl Hr Hnd. unfold Acs.merge_chunk, Pd.merge, Pd.check_key.
  rewrite Hzc.
  rewrite (proj2 (the_column_Ok zc (columns df) _) Hl).
  rewrite (proj2 (the_column_Ok zc (columns chunk) _) Hr). simpl.
  rewrite items_overlap_dup_Ok; [done|].
  apply Forall_forall. intros c Hc.
  apply list_elem_of_In, filter_In in Hc as [Hc _].
  rewrite Forall_forall in Hnd. by apply Hnd, list_elem_of_In.
Qed.

End suffixes.

(** C8.  When two chunk tables share an identifier column, the table
    their merge produces has no column whose label ends in [_dup]; and
    the merge does produce a table whenever the identifier labels one
    column in each frame and no label of the incoming chunk already
    ends in [_dup]. *)
Theorem merge_chunk_no_dup_columns (df chunk : DataFrame) (zc : string) :
  Acs.common_zipcode_col df chunk = Some zc ->
  (forall out,
      Acs.merge_chunk df chunk = Ok out ->
      Forall (fun c => PyStr.endswith c "_dup" = false) (columns out))
  /\ (length (List.filter (String.eqb zc) (columns df)) = 1 ->
      length (List.filter (String.eqb zc) (columns chunk)) = 1 ->
      Forall (fun c => PyStr.endswith c "_dup" = false) (columns chunk) ->
      exists out, Acs.merge_chunk df chunk = Ok out).
Proof.
  intros Hzc. split.
  - intros out. unfold Acs.merge_chunk. rewrite Hzc.
    destruct (Pd.merge _ _ _ _ _) as [df'|]; [|done]. simpl.
    intros H. injection H as <-. apply select_no_dup.
  - intros Hl Hr Hnd. eexists. by apply merge_chunk_Ok.
Qed.

Lemma merge_chunk_no_dup_columns_witness :
  exists out,
    Acs.merge_chunk
      (mkDF ["B01001_001E"; "state"; "zip code tabulation area"]
         [[Str "12"; Str "29"; Str "64101"]])
      (mkDF ["B01002_001E"; "state"; "zip code tabulation area"]
         [[Str "35.2"; Str "29"; Str "64101"];
          [Str "40.1"; Str "20"; Str "66101"]])
    = Ok out
    /\ columns out
       = ["B01001_001E"; "state"; "zip code tabulation area"; "B01002_001E"]
    /\ Forall (fun c => PyStr.endswith c "_dup" = false) (columns out).
Proof.
  eexists. split; [reflexivity|]. split; [reflexivity|].
  apply (proj1 (merge_chunk_no_dup_columns
                  (mkDF ["B01001_001E"; "state"; "zip code tabulation area"]
                     [[Str "12"; Str "29"; Str "64101"]])
                  (mkDF ["B01002_001E"; "state"; "zip code tabulation area"]
                     [[Str "35.2"; Str "29"; Str "64101"];
                      [Str "40.1"; Str "20"; Str "66101"]])
                  "zip code tabulation area" eq_refl));
    reflexivity.
Defined.

(** ** The left join with the boundaries *)

Section left_join.

Implicit Types (left right : DataFrame) (l m : list cell) (k : cell).

Lemma items_overlap_lengths lcols rcols sfx ll rl :
  Pd.items_overlap_with_suffix lcols rcols sfx = Ok (ll, rl) ->
  length ll = length lcols /\ length rl = length rcols.
Proof.
  unfold Pd.items_overlap_with_suffix.
  destruct (List.filter _ lcols); [intros H; by injection H as <- <-|].
  destruct sfx as [ls rs].
  destruct (String.eqb ls "" && String.eqb rs ""); [done|].
  destruct (_ || _); [done|].
  intros H. injection H as <- <-. by rewrite !length_map.
Qed.

Lemma merge_unfold h on sfx left right out :
  Pd.merge h on sfx left right = Ok out ->
  rows out = Pd.merge_rows h on left right
  /\ length (columns out)
     = length (columns left)
       + length (List.filter (Pd.not_label on) (columns right))
  /\ length (List.filter (String.eqb on) (columns left)) = 1
  /\ length (List.filter (String.eqb on) (columns right)) = 1.
Proof.
  unfold Pd.merge, Pd.check_key.
  destruct (Pd.the_column on (columns left) _) as [[]|] eqn:Hl; [|done].
  destruct (Pd.the_column on (columns right) _) as [[]|] eqn:Hr; [|done].
  simpl.
  destruct (Pd.items_overlap_with_suffix _ _ _) as [[ll rl]|] eqn:Hi;
    [|done].
  simpl. intros H. injection H as <-. simpl.
  apply items_overlap_lengths in Hi as [Hll Hrl].
  rewrite length_app, Hll, Hrl. apply the_column_Ok in Hl, Hr. done.
Qed.

Lemma matching_length on right k :
  length (Pd.matching on (columns right) (rows right) k)
  = count_occ cell_eq_dec (Pd.keys on right) k.
Proof.
  unfold Pd.matching, Pd.keys.
  induction (rows right) as [|r rs IH]; [done|]. simpl.
  destruct (cell_eq_dec (Pd.key_of (columns right) on r) k) as [Heq|Hne].
  - rewrite bool_decide_true by done. simpl. by rewrite IH.
  - rewrite bool_decide_false by done. done.
Qed.

Lemma matching_nil on right k :
  ~ In k (Pd.keys on right) ->
  Pd.matching on (columns right) (rows right) k = [].
Proof.
  intros Hk. apply length_zero_iff_nil. rewrite matching_length.
  by apply count_occ_not_In.
Qed.

Lemma join_left_row_length on left right l :
  length (Pd.join_left_row on left right l)
  = Nat.max 1 (count_occ cell_eq_dec (Pd.keys on right)
                 (Pd.key_of (columns left) on l)).
Proof.
  unfold Pd.join_left_row. rewrite <- matching_length.
  destruct (Pd.matching _ _ _ _) as [|m ms]; [done|].
  rewrite length_map. simpl. lia.
Qed.

Lemma join_left_row_prefix on left right l m :
  In m (Pd.join_left_row on left right l) -> take (length l) m = l.
Proof.
  unfold Pd.join_left_row.
  destruct (Pd.matching _ _ _ _) as [|x xs].
  - intros [<-|[]]. by rewrite take_app_length.
  - intros Hm. apply in_map_iff in Hm as (y & <- & _).
    by rewrite take_app_length.
Qed.

Lemma join_left_row_unmatched on left right l :
  ~ In (Pd.key_of (columns left) on l) (Pd.keys on right) ->
  Pd.join_left_row on left right l
  = [l ++ replicate
            (length (List.filter (Pd.not_label on) (columns right))) NaN].
Proof.
  intros Hk. unfold Pd.join_left_row. by rewrite matching_nil.
Qed.

Lemma flat_map_length_sum {A B} (f : A -> list B) (xs : list A) :
  length (flat_map f xs) = list_sum (map (fun x => length (f x)) xs).
Proof.
  induction xs as [|x xs IH]; [done|]. simpl.
  by rewrite length_app, IH.
Qed.

Lemma count_occ_NoDup_le (ks : list cell) k :
  NoDup ks -> count_occ cell_eq_dec ks k <= 1.
Proof.
  intros Hnd. rewrite NoDup_ListNoDup in Hnd.
  by apply (proj1 (NoDup_count_occ cell_eq_dec ks)).
Qed.

End left_join.

(** C2, as the code has it.  The merge with the boundaries is a left
    join on the canonical identifier.  Every row of the result extends a
    boundary row, whose cells it keeps in place (the geometry and every
    other cell but the identifier being those of the boundary layer),
    and every boundary row is extended by some row of the result: none
    is dropped.  A boundary
    row whose identifier has no match in the statistical table yields
    one row, with a missing value in every statistical column.  A
    boundary row yields one row per matching statistical row otherwise,
    so the result has one row per boundary row when no identifier occurs
    twice in the statistical table. *)
Theorem left_join_keeps_boundaries layers boundaries acs_df merged :
  layers !! "zipcodes" = Some boundaries ->
  rectangular boundaries -> rectangular acs_df ->
  Acs.merge_with_boundaries (Some layers) acs_df = Ok merged ->
  let b := Pd.assign "ZIPCODE" canonical_zip boundaries in
  let a := Pd.assign "ZIPCODE" canonical_zip acs_df in
  let nb := length (columns boundaries) in
  let ns := length (List.filter (Pd.not_label "ZIPCODE") (columns acs_df)) in
  let key := Pd.key_of (columns boundaries) "ZIPCODE" in
  length (columns merged) = nb + ns
  /\ (forall l, In l (rows b) ->
        exists m, In m (rows merged) /\ take nb m = l)
  /\ (forall m, In m (rows merged) ->
        exists l, In l (rows b) /\ take nb m = l)
  /\ (forall l, In l (rows b) -> ~ In (key l) (Pd.keys "ZIPCODE" a) ->
        In (l ++ replicate ns NaN) (rows merged)
        /\ forall m, In m (rows merged) -> take nb m = l ->
                     m = l ++ replicate ns NaN)
  /\ length (rows merged)
     = list_sum
         (map (fun l => Nat.max 1 (count_occ cell_eq_dec
                                     (Pd.keys "ZIPCODE" a) (key l)))
            (rows b))
  /\ (NoDup (Pd.keys "ZIPCODE" a) ->
      length (rows merged) = length (rows boundaries))
  /\ (forall r c, c <> "ZIPCODE" ->
        Pd.get (columns boundaries)
          (Pd.map_row_at canonical_zip "ZIPCODE" (columns boundaries) r) c
        = Pd.get (columns boundaries) r c).
Proof.
  intros Hl Hb Ha Hrun b a nb ns key.
  destruct (merge_with_boundaries_unfold _ _ _ _ Hl Hrun)
    as (b' & a' & Hcb & Hca & Hm).
  apply canonicalize_spec in Hcb as [-> _]; [|done].
  apply canonicalize_spec in Hca as [-> _]; [|done].
  fold b a in Hm. apply merge_unfold in Hm as (Hrows & Hcols & _ & _).
  unfold Pd.merge_rows in Hrows. rewrite app_nil_r in Hrows.
  assert (forall l, In l (rows b) -> length l = nb) as Hlen.
  { intros l Hin. pose proof (assign_rectangular "ZIPCODE" canonical_zip _ Hb)
      as Hr.
    unfold rectangular in Hr. rewrite Forall_forall in Hr.
    by apply Hr, list_elem_of_In. }
  split; [done|]. split; [|split; [|split; [|split; [|split]]]].
  - intros l Hin.
    destruct (Pd.join_left_row "ZIPCODE" b a l) as [|m ms] eqn:Hj.
    { pose proof (join_left_row_length "ZIPCODE" b a l) as Hn.
      rewrite Hj in Hn. simpl in Hn. lia. }
    exists m. split.
    + rewrite Hrows. apply in_flat_map. exists l. split; [done|].
      rewrite Hj. by left.
    + rewrite <- (Hlen l Hin). apply (join_left_row_prefix "ZIPCODE" b a).
      rewrite Hj. by left.
  - intros m Hin. rewrite Hrows in Hin.
    apply in_flat_map in Hin as (l & Hl1 & Hl2). exists l. split; [done|].
    rewrite <- (Hlen l Hl1). by eapply join_left_row_prefix.
  - intros l Hin Hk. split.
    + rewrite Hrows. apply in_flat_map. exists l. split; [done|].
      rewrite join_left_row_unmatched by done. by left.
    + intros m Hm Htake. rewrite Hrows in Hm.
      apply in_flat_map in Hm as (l' & Hl1 & Hl2).
      pose proof (join_left_row_prefix _ _ _ _ _ Hl2) as Hp.
      rewrite (Hlen l' Hl1) in Hp. rewrite Htake in Hp. subst l'.
      rewrite join_left_row_unmatched in Hl2 by done.
      by destruct Hl2 as [<-|[]].
  - rewrite Hrows, flat_map_length_sum. f_equal. apply map_ext.
    intros l. apply join_left_row_length.
  - intros Hnd. rewrite Hrows, flat_map_length_sum.
    replace (length (rows boundaries)) with (length (rows b))
      by (unfold b; simpl; by rewrite length_map).
    clear Hrows Hlen.
    induction (rows b) as [|l ls IH]; [done|]. simpl. rewrite IH.
    rewrite join_left_row_length.
    pose proof (count_occ_NoDup_le (Pd.keys "ZIPCODE" a)
                  (Pd.key_of (columns b) "ZIPCODE" l) Hnd).
    lia.
  - intros r c Hne. rewrite get_map_row_at.
    by destruct (String.eqb_spec c "ZIPCODE").
Qed.

Lemma left_join_keeps_boundaries_witness :
  exists merged,
    Acs.merge_with_boundaries
      (Some {["zipcodes" :=
                mkDF ["ZIPCODE"; "geometry"]
                  [[Str "64101"; Geom "POLYGON A"];
                   [Str "64102"; Geom "POLYGON B"]]]})
      (mkDF ["ZIPCODE"; "B01001_001E"] [[Str "64101"; Num 12]])
    = Ok merged
    /\ In ([Str "64102"; Geom "POLYGON B"] ++ replicate 1 NaN) (rows merged)
    /\ length (rows merged) = 2.
Proof.
  eexists. split; [reflexivity|].
  pose proof (left_join_keeps_boundaries
    {["zipcodes" :=
        mkDF ["ZIPCODE"; "geometry"]
          [[Str "64101"; Geom "POLYGON A"];
           [Str "64102"; Geom "POLYGON B"]]]}
    (mkDF ["ZIPCODE"; "geometry"]
       [[Str "64101"; Geom "POLYGON A"]; [Str "64102"; Geom "POLYGON B"]])
    (mkDF ["ZIPCODE"; "B01001_001E"] [[Str "64101"; Num 12]])
    _ eq_refl ltac:(repeat constructor) ltac:(repeat constructor) eq_refl)
    as (_ & _ & _ & H4 & _ & H6 & _).
  split.
  - apply (H4 [Str "64102"; Geom "POLYGON B"]).
    + right. by left.
    + intros [H|[]]. discriminate H.
  - apply H6. repeat constructor. intros H. inversion H.
Defined.

(** Two statistical rows that carry the same canonical identifier give
    two rows for the one boundary row they match. *)
Lemma left_join_duplicates_rows :
  exists merged,
    Acs.merge_with_boundaries
      (Some {["zipcodes" :=
                mkDF ["ZIPCODE"; "geometry"]
                  [[Str "06410"; Geom "POLYGON A"]]]})
      (mkDF ["ZIPCODE"; "B01001_001E"]
         [[Str "06410"; Num 12]; [Str "6410"; Num 13]])
    = Ok merged
    /\ rows merged
       = [[Str "06410"; Geom "POLYGON A"; Num 12];
          [Str "06410"; Geom "POLYGON A"; Num 13]]
    /\ length (rows merged) <> 1.
Proof.
  eexists. split; [reflexivity|]. split; [reflexivity|]. simpl. lia.
Qed.

(** ** The fetch: which failures are skipped *)

Section fetch.

Variable w : world.

Lemma usable_spec r :
  Acs.usable r = true
  <-> exists header x xs, r = Json (JTable header (x :: xs)).
Proof.
  destruct r as [|[|h [|x xs]]]; simpl; split; try done.
  - by intros (? & ? & ? & ?).
  - by intros (? & ? & ? & ?).
  - by intros (? & ? & ? & ?).
  - intros _. by eexists _, _, _.
Qed.






End fetch.

(** ** The merge loop always goes through on well-formed chunks *)

Section merge_total.

Local Notation "'cnt' c cols" := (length (List.filter (String.eqb c) cols))
  (at level 10, c at level 9, cols at level 9).

Lemma cnt_app c (A B : list string) : cnt c (A ++ B) = cnt c A + cnt c B.
Proof. by rewrite List.filter_app, length_app. Qed.

Lemma cnt_filter_keep (p : string -> bool) c L :
  p c = true -> cnt c (List.filter p L) = cnt c L.
Proof.
  intros Hp. induction L as [|x L IH]; [done|]. simpl.
  destruct (String.eqb_spec c x) as [<-|Hne].
  - rewrite Hp. simpl. rewrite String.eqb_refl. simpl. by rewrite IH.
  - destruct (p x); simpl; [|done].
    destruct (String.eqb_spec c x); [done|]. done.
Qed.


Lemma cnt_not_In c L : ~ In c L -> cnt c L = 0.
Proof.
  intros Hn. destruct (List.filter (String.eqb c) L) as [|x l] eqn:Hf;
    [done|].
  assert (In x (List.filter (String.eqb c) L)) as Hx
    by (rewrite Hf; by left).
  apply filter_In in Hx as [Hx Heq]. apply String.eqb_eq in Heq.
  by subst.
Qed.

Lemma cnt_In c L : In c L -> 1 <= cnt c L.
Proof.
  intros Hin.
  assert (In c (List.filter (String.eqb c) L))
    by (apply filter_In; split; [done | apply String.eqb_refl]).
  destruct (List.filter (String.eqb c) L); [done | simpl; lia].
Qed.

Lemma cnt_NoDup c L : NoDup L -> cnt c L <= 1.
Proof.
  induction 1 as [|x L Hx Hnd IH]; [simpl; lia|]. simpl.
  destruct (String.eqb_spec c x) as [->|Hne]; [|done]. simpl.
  rewrite cnt_not_In; [lia|]. by rewrite <- list_elem_of_In.
Qed.

Lemma cnt_renamed c tr R :
  Acs.is_dup c = false ->
  cnt c (map (Pd.renamer tr "_dup") R)
  <= if PyStr.mem c tr then 0 else cnt c R.
Proof.
  intros Hc. induction R as [|x R IH]; [by destruct (PyStr.mem c tr)|].
  simpl. unfold Pd.renamer at 1.
  destruct (PyStr.mem x tr) eqn:Hx.
  - destruct (String.eqb_spec c (x +:+ "_dup")) as [->|_].
    { unfold Acs.is_dup in Hc. by rewrite endswith_app in Hc. }
    destruct (PyStr.mem c tr); [done|].
    destruct (String.eqb c x); simpl; lia.
  - destruct (String.eqb_spec c x) as [->|_]; [|done].
    rewrite Hx in *. simpl. lia.
Qed.

Lemma candidate_not_dup c :
  In c Acs.zipcode_candidates -> Acs.is_dup c = false.
Proof. intros [<-|[<-|[<-|[]]]]; reflexivity. Qed.






End merge_total.

Section fetch_total.

Variable w : world.



End fetch_total.




(** ** Rows of an outer join *)

Section outer_rows.

Variables (on : string) (left right : DataFrame).

Local Abbreviation A := (columns left).
Local Abbreviation R := (List.filter (Pd.not_label on) (columns right)).
Local Abbreviation keyL := (Pd.key_of (columns left) on).
Local Abbreviation keyR := (Pd.key_of (columns right) on).
Local Abbreviation rest := (Pd.select_row (Pd.not_label on) (columns right)).
Local Abbreviation blank k :=
  (map (fun c => if String.eqb c on then k else NaN) (columns left)).

Lemma keys_In (df : DataFrame) c k :
  In k (Pd.keys c df)
  <-> exists r, In r (rows df) /\ Pd.key_of (columns df) c r = k.
Proof.
  unfold Pd.keys. rewrite in_map_iff. split.
  - intros (r & Hk & Hr). by exists r.
  - intros (r & Hr & Hk). by exists r.
Qed.

Lemma matching_In r k :
  In r (Pd.matching on (columns right) (rows right) k)
  <-> In r (rows right) /\ keyR r = k.
Proof.
  unfold Pd.matching. rewrite filter_In.
  by rewrite bool_decide_eq_true.
Qed.

Lemma join_left_row_In l m :
  In m (Pd.join_left_row on left right l)
  <-> (exists r, In r (rows right) /\ keyR r = keyL l /\ m = l ++ rest r)
      \/ (~ In (keyL l) (Pd.keys on right)
          /\ m = l ++ replicate (length R) NaN).
Proof.
  unfold Pd.join_left_row.
  destruct (Pd.matching on (columns right) (rows right) (keyL l))
    as [|x xs] eqn:Hm.
  - assert (~ In (keyL l) (Pd.keys on right)) as Hn.
    { intros (r & Hr & Hk)%keys_In.
      assert (In r (Pd.matching on (columns right) (rows right) (keyL l)))
        as Hin by (by apply matching_In).
      by rewrite Hm in Hin. }
    split.
    + intros [<-|[]]. by right.
    + intros [(r & Hr & Hk & _)|[_ ->]]; [|by left].
      destruct Hn. apply keys_In. by exists r.
  - rewrite <- Hm. rewrite in_map_iff. split.
    + intros (r & <- & Hr). apply matching_In in Hr as [Hr Hk].
      left. by exists r.
    + intros [(r & Hr & Hk & ->)|[Hn _]].
      * exists r. split; [done|]. by apply matching_In.
      * destruct Hn. apply keys_In. exists x. apply matching_In.
        rewrite Hm. by left.
Qed.

Lemma join_right_only_In r m :
  In m (Pd.join_right_only on left right r)
  <-> ~ In (keyR r) (Pd.keys on left) /\ m = blank (keyR r) ++ rest r.
Proof.
  unfold Pd.join_right_only.
  destruct (existsb _ (rows left)) eqn:He.
  - apply existsb_exists in He as (l & Hl & Hk).
    apply bool_decide_eq_true in Hk. split; [done|].
    intros [Hn _]. destruct Hn. apply keys_In. by exists l.
  - split.
    + intros [<-|[]]. split; [|done].
      intros (l & Hl & Hk)%keys_In.
      assert (existsb (fun l => bool_decide (keyL l = keyR r)) (rows left)
              = true) as Ht; [|congruence].
      apply existsb_exists. exists l. split; [done|].
      by apply bool_decide_eq_true.
    + intros [_ ->]. by left.
Qed.

(** The rows of an outer join: a left row with a matching right row, a
    left row without a match, or a right row without a match. *)
Lemma merge_rows_outer_In m :
  In m (Pd.merge_rows Pd.Outer on left right)
  <-> (exists l r, In l (rows left) /\ In r (rows right)
                   /\ keyR r = keyL l /\ m = l ++ rest r)
      \/ (exists l, In l (rows left)
                    /\ ~ In (keyL l) (Pd.keys on right)
                    /\ m = l ++ replicate (length R) NaN)
      \/ (exists r, In r (rows right)
                    /\ ~ In (keyR r) (Pd.keys on left)
                    /\ m = blank (keyR r) ++ rest r).
Proof.
  unfold Pd.merge_rows. rewrite in_app_iff, !in_flat_map. split.
  - intros [(l & Hl & Hm)|(r & Hr & Hm)].
    + apply join_left_row_In in Hm as [(r & Hr & Hk & ->)|[Hn ->]].
      * left. by exists l, r.
      * right. left. by exists l.
    + apply join_right_only_In in Hm as [Hn ->].
      right. right. by exists r.
  - intros [(l & r & Hl & Hr & Hk & ->)|[(l & Hl & Hn & ->)
                                        |(r & Hr & Hn & ->)]].
    + left. exists l. split; [done|]. apply join_left_row_In.
      left. by exists r.
    + left. exists l. split; [done|]. apply join_left_row_In. by right.
    + right. exists r. split; [done|]. by apply join_right_only_In.
Qed.

(** Cells of the three kinds of rows. *)
Lemma get_blank k v :
  Pd.get A (blank k) v
  = if PyStr.mem v A then Some (if String.eqb v on then k else NaN)
    else None.
Proof.
  induction A as [|c cols IH]; [done|].
  cbn [map]. rewrite get_cons, mem_cons, IH.
  rewrite (String.eqb_sym v c).
  destruct (String.eqb_spec c v) as [->|Hne]; [|done]. done.
Qed.

Lemma get_replicate_NaN (cols : list string) v :
  Pd.get cols (replicate (length cols) NaN) v
  = if PyStr.mem v cols then Some NaN else None.
Proof.
  induction cols as [|c cols IH]; [done|].
  cbn [length replicate]. rewrite get_cons, mem_cons, IH.
  rewrite (String.eqb_sym v c). by destruct (String.eqb c v).
Qed.

Lemma get_rest r v :
  v <> on -> Pd.get R (rest r) v = Pd.get (columns right) r v.
Proof.
  intros Hne. apply get_select_row. unfold Pd.not_label.
  by destruct (String.eqb_spec v on).
Qed.

Lemma blank_length k : length (blank k) = length A.
Proof. by rewrite length_map. Qed.

Lemma merge_rows_rectangular :
  rectangular left -> rectangular right ->
  Forall (fun m => length m = length (A ++ R))
    (Pd.merge_rows Pd.Outer on left right).
Proof.
  intros Hl Hr. unfold rectangular in *.
  rewrite Forall_forall in Hl, Hr.
  apply Forall_forall. intros m Hm%list_elem_of_In.
  rewrite length_app.
  apply merge_rows_outer_In in Hm
    as [(l & r & Hl' & Hr' & _ & ->)|[(l & Hl' & _ & ->)
                                     |(r & Hr' & _ & ->)]];
    rewrite length_app.
  - rewrite select_row_length by (by apply Hr, list_elem_of_In).
    by rewrite (Hl l) by (by apply list_elem_of_In).
  - rewrite length_replicate.
    by rewrite (Hl l) by (by apply list_elem_of_In).
  - rewrite select_row_length by (by apply Hr, list_elem_of_In).
    by rewrite blank_length.
Qed.

(** When the right frame does not repeat an identifier, a left row is
    joined into a single row. *)
Lemma join_left_row_single l :
  NoDup (Pd.keys on right) ->
  exists x, Pd.join_left_row on left right l = [l ++ x].
Proof.
  intros Hnd. unfold Pd.join_left_row.
  pose proof (matching_length on right (keyL l)) as Hlen.
  pose proof (count_occ_NoDup_le (Pd.keys on right) (keyL l) Hnd) as Hle.
  destruct (Pd.matching on (columns right) (rows right) (keyL l))
    as [|m [|m' ms]]; [by eexists | by eexists |].
  simpl in Hlen. lia.
Qed.

(** The identifiers of the rows of an outer join of two frames that do
    not repeat an identifier are distinct; [kf] reads the identifier of
    a joined row. *)
Lemma merge_rows_keys_NoDup (kf : list cell -> cell) :
  (forall l x, In l (rows left) -> kf (l ++ x) = keyL l) ->
  (forall k x, kf (blank k ++ x) = k) ->
  NoDup (Pd.keys on left) -> NoDup (Pd.keys on right) ->
  NoDup (map kf (Pd.merge_rows Pd.Outer on left right)).
Proof.
  intros HkL HkB HndL HndR. unfold Pd.merge_rows. rewrite map_app.
  assert (forall ls, (forall l, In l ls -> In l (rows left)) ->
            map kf (flat_map (Pd.join_left_row on left right) ls)
            = map keyL ls) as Hleft.
  { induction ls as [|l ls IH]; intros Hls; [done|].
    cbn [flat_map map]. rewrite map_app, IH by (intros; apply Hls; by right).
    destruct (join_left_row_single l HndR) as [x ->].
    cbn [map app]. rewrite HkL by (apply Hls; by left). done. }
  assert (forall rs k,
            In k (map kf (flat_map (Pd.join_right_only on left right) rs)) ->
            In k (map keyR rs) /\ ~ In k (Pd.keys on left)) as Hright.
  { intros rs k Hk. apply in_map_iff in Hk as (m & <- & Hm).
    apply in_flat_map in Hm as (r & Hr & Hm).
    apply join_right_only_In in Hm as [Hn ->]. rewrite HkB.
    split; [by apply in_map | done]. }
  apply NoDup_app. split; [|split].
  - rewrite Hleft by done. exact HndL.
  - intros k Hk%list_elem_of_In Hk'%list_elem_of_In.
    rewrite Hleft in Hk by done.
    by destruct (Hright _ _ Hk') as [_ Hn].
  - unfold Pd.keys in HndR. revert HndR.
    induction (rows right) as [|r rs IH]; intros HndR; [constructor|].
    cbn [map] in HndR. apply NoDup_cons in HndR as [Hr HndR].
    cbn [flat_map]. rewrite map_app.
    unfold Pd.join_right_only at 1.
    destruct (existsb _ (rows left)); cbn [map app]; [by apply IH|].
    rewrite HkB. apply NoDup_cons. split; [|by apply IH].
    intros Hin%list_elem_of_In. apply Hr, list_elem_of_In.
    by destruct (Hright _ _ Hin) as [? _].
Qed.

End outer_rows.

(** ** The merge loop as an outer join *)

Section outer_join.

Variable zc : string.

Lemma classic_key_in (df : DataFrame) (c : string) (k : cell) :
  In k (Pd.keys c df) \/ ~ In k (Pd.keys c df).
Proof. destruct (in_dec cell_eq_dec k (Pd.keys c df)); [by left | by right]. Qed.

Lemma common_eq df chunk :
  Acs.find_zipcode_col (columns chunk) = Some zc ->
  In zc (columns df) ->
  Acs.common_zipcode_col df chunk = Some zc.
Proof.
  unfold Acs.find_zipcode_col, Acs.common_zipcode_col, Pd.has_col.
  intros H Hin%mem_In. cbn [find Acs.zipcode_candidates] in *.
  repeat match type of H with
         | (if ?b then _ else _) = _ =>
             destruct b;
             [injection H as <-; by rewrite Hin | rewrite andb_false_r]
         end.
  done.
Qed.

Lemma NoDup_count_one (c : string) cols :
  NoDup cols -> In c cols ->
  length (List.filter (String.eqb c) cols) = 1.
Proof.
  intros Hnd Hin. pose proof (cnt_NoDup c cols Hnd).
  pose proof (cnt_In c cols Hin). lia.
Qed.


Lemma count_one_In (c : string) cols :
  length (List.filter (String.eqb c) cols) = 1 -> In c cols.
Proof.
  intros H. destruct (in_dec string_dec c cols) as [?|Hn]; [done|].
  rewrite cnt_not_In in H by done. lia.
Qed.

(** A label that is not renamed and does not end in [_dup] stands where
    it stood before the renaming. *)
Lemma get_renamed tr R x v :
  PyStr.mem v tr = false -> Acs.is_dup v = false ->
  Pd.get (map (Pd.renamer tr "_dup") R) x v = Pd.get R x v.
Proof.
  intros Hv Hvd. revert x. induction R as [|y R IH]; intros x; [done|].
  destruct x as [|c x]; [by rewrite !get_short|].
  cbn [map]. rewrite !get_cons, IH.
  assert (String.eqb (Pd.renamer tr "_dup" y) v = String.eqb y v) as ->;
    [|done].
  unfold Pd.renamer. destruct (PyStr.mem y tr) eqn:Hy; [|done].
  destruct (String.eqb_spec (y +:+ "_dup") v) as [<-|_].
  { unfold Acs.is_dup in Hvd. by rewrite endswith_app in Hvd. }
  destruct (String.eqb_spec y v) as [->|_]; [congruence | done].
Qed.

Lemma app_snoc_split {X} (seen pre post : list X) (c t : X) :
  seen ++ [c] = pre ++ t :: post ->
  (exists post', seen = pre ++ t :: post' /\ post = post' ++ [c])
  \/ (pre = seen /\ t = c /\ post = []).
Proof.
  destruct post as [|p post' _] using rev_ind; intros H.
  - right. change (pre ++ [t]) with (pre ++ [t]) in H.
    apply app_inj_tail in H as [-> ->]. done.
  - left. exists post'.
    replace (pre ++ t :: post' ++ [p]) with ((pre ++ t :: post') ++ [p]) in H
      by (by rewrite <- app_assoc).
    apply app_inj_tail in H as [-> ->]. done.
Qed.

(** One chunk more: the invariant of the merge loop is kept. *)
Lemma merge_chunk_inv seen df chunk :
  Acs.merged_inv zc seen df ->
  rectangular chunk ->
  NoDup (columns chunk) ->
  Acs.find_zipcode_col (columns chunk) = Some zc ->
  Forall (fun c => Acs.is_dup c = false) (columns chunk) ->
  exists df',
    Acs.merge_chunk df chunk = Ok df'
    /\ Acs.merged_inv zc (seen ++ [chunk]) df'.
Proof.
  intros [Irect Ikey1 Ilab Ifrom Ikept Ikeys Imiss Ival Icomp Iuniq]
    Hrc Hndc Hfz Hdupc.
  apply find_zipcode_col_In in Hfz as Hz. destruct Hz as [Hzc Hcand].
  pose proof (candidate_not_dup zc Hcand) as Hzd.
  pose proof (count_one_In zc _ Ikey1) as Ikey.
  rewrite Forall_forall in Ilab, Hdupc.
  set (A := columns df).
  set (R := List.filter (Pd.not_label zc) (columns chunk)).
  set (tr := List.filter (fun x => PyStr.mem x R) A).
  set (B := map (Pd.renamer tr "_dup") R).
  assert (forall x, In x R <-> In x (columns chunk) /\ x <> zc) as HR.
  { intros x. unfold R. rewrite filter_In. unfold Pd.not_label.
    by destruct (String.eqb_spec x zc); split; intros [? ?]. }
  assert (forall x, ~ In x A -> PyStr.mem x tr = false) as Htr.
  { intros x Hx. apply mem_false. by intros [? _]%filter_In. }
  eexists. split.
  { apply merge_chunk_Ok; [by apply common_eq | done | | ].
    - by apply NoDup_count_one.
    - by apply Forall_forall. }
  fold A R tr B.
  set (M := Pd.merge_rows Pd.Outer zc df chunk).
  set (nd := fun c => negb (Acs.is_dup c)).
  assert (length B = length R) as HlenB by (unfold B; by rewrite length_map).
  assert (forall l, In l (rows df) -> length l = length A) as HlenL.
  { intros l Hl. unfold rectangular in Irect.
    rewrite Forall_forall in Irect. by apply Irect, list_elem_of_In. }
  assert (forall m v, Acs.is_dup v = false ->
            Pd.get (List.filter nd (A ++ B))
              (Pd.select_row nd (A ++ B) m) v
            = Pd.get (A ++ B) m v) as Hsel.
  { intros m v Hv. apply get_select_row. unfold nd. by rewrite Hv. }
  assert (forall k v, In v A ->
            Pd.get A (map (fun c => if String.eqb c zc then k else NaN) A) v
            = Some (if String.eqb v zc then k else NaN)) as Hblank.
  { intros k v Hv. pose proof (get_blank zc df k v) as Hb. fold A in Hb.
    by rewrite Hb, (proj2 (mem_In v A) Hv). }
  (* the identifier of a row of the join *)
  assert (forall m, In m M ->
            (exists l, In l (rows df)
                       /\ Pd.get (A ++ B) m zc = Pd.get A l zc)
            \/ (exists r, In r (rows chunk)
                          /\ ~ In (Pd.key_of (columns chunk) zc r)
                               (Pd.keys zc df)
                          /\ Pd.get (A ++ B) m zc
                             = Some (Pd.key_of (columns chunk) zc r)))
    as HkeyM.
  { intros m Hm. apply merge_rows_outer_In in Hm
      as [(l & r & Hl & Hr & Hk & ->)|[(l & Hl & Hn & ->)
                                      |(r & Hr & Hn & ->)]].
    - left. exists l. split; [done|].
      rewrite get_app by (by apply HlenL).
      by rewrite (proj2 (mem_In zc A) Ikey).
    - left. exists l. split; [done|].
      rewrite get_app by (by apply HlenL).
      by rewrite (proj2 (mem_In zc A) Ikey).
    - right. exists r. split; [done|]. split; [done|].
      rewrite get_app by apply blank_length. fold A.
      rewrite (proj2 (mem_In zc A) Ikey), Hblank by done.
      by rewrite String.eqb_refl. }
  (* cells of a joined row: under a label of the table so far, and
     under a label that the chunk brings in *)
  assert (forall l x v, In l (rows df) -> In v A ->
            Pd.get (A ++ B) (l ++ x) v = Pd.get A l v) as HgetL.
  { intros l x v Hl Hv. rewrite get_app by (by apply HlenL).
    by rewrite (proj2 (mem_In v A) Hv). }
  assert (forall k x,
            Pd.get (A ++ B)
              (map (fun c => if String.eqb c zc then k else NaN) A ++ x) zc
            = Some k) as HgetK.
  { intros k x. rewrite get_app by (by rewrite length_map).
    rewrite (proj2 (mem_In zc A) Ikey), Hblank by done.
    by rewrite String.eqb_refl. }
  assert (forall (p : list cell) r v,
            length p = length A -> Acs.brings_in zc seen chunk v ->
            Pd.get (A ++ B)
              (p ++ Pd.select_row (Pd.not_label zc) (columns chunk) r) v
            = Pd.get (columns chunk) r v) as HgetR.
  { intros p r v Hp (Hv & Hne & Hfirst).
    assert (~ In v A) as HvA.
    { intros HvA. destruct (Ifrom v HvA) as (t' & Ht' & Hvt').
      by apply (Hfirst t'). }
    rewrite get_app by done. rewrite (proj2 (mem_false v A) HvA).
    unfold B. rewrite get_renamed;
      [| by apply Htr | by apply Hdupc, list_elem_of_In].
    by apply get_rest. }
  assert (forall pre t post,
            seen ++ [chunk] = pre ++ t :: post ->
            forall v, In v (columns t) -> Acs.is_dup v = false) as Hnodup.
  { intros pre t post Hsplit v Hv.
    apply app_snoc_split in Hsplit as [(post' & -> & _)|(_ & -> & _)].
    - apply Ilab, list_elem_of_In. eapply Ikept; [|exact Hv].
      apply in_or_app. right. by left.
    - by apply Hdupc, list_elem_of_In. }
  assert (forall pre t post v,
            seen = pre ++ t :: post -> In v (columns t) -> In v A)
    as HkeptA.
  { intros pre t post v Hseen Hv. eapply Ikept; [|exact Hv].
    rewrite Hseen. apply in_or_app. right. by left. }
  constructor.
  - (* rectangular *)
    apply select_rectangular. unfold rectangular. simpl.
    pose proof (merge_rows_rectangular zc df chunk Irect Hrc) as Hm.
    eapply Forall_impl; [exact Hm|]. intros m ->.
    fold A R. by rewrite !length_app, HlenB.
  - (* the identifier labels one column *)
    simpl. rewrite cnt_filter_keep by (unfold nd; by rewrite Hzd).
    rewrite cnt_app. fold A in Ikey1. rewrite Ikey1.
    pose proof (cnt_renamed zc tr R Hzd) as Hb. fold B in Hb.
    rewrite (cnt_not_In zc R) in Hb by (intros [_ ?]%HR; done).
    destruct (PyStr.mem zc tr); lia.
  - (* no label ends in _dup *)
    apply select_no_dup.
  - (* labels come from the chunks *)
    simpl. intros c [Hc Hcd]%filter_In.
    apply in_app_or in Hc as [Hc|Hc].
    + destruct (Ifrom c Hc) as (t & Ht & Hct). exists t.
      split; [apply in_or_app; by left | done].
    + exists chunk. split; [apply in_or_app; right; by left|].
      apply in_map_iff in Hc as (x & Hx & [HxR _]%HR).
      unfold Pd.renamer in Hx. destruct (PyStr.mem x tr); [|by subst].
      subst c. unfold nd, Acs.is_dup in Hcd.
      by rewrite endswith_app in Hcd.
  - (* labels of the chunks are kept *)
    simpl. intros t v Ht Hv. apply filter_In.
    apply in_app_or in Ht as [Ht|[<-|[]]].
    + pose proof (Ikept t v Ht Hv) as HvA. split.
      * apply in_or_app. by left.
      * unfold nd. by rewrite (Ilab v (proj2 (list_elem_of_In _ _) HvA)).
    + pose proof (Hdupc v (proj2 (list_elem_of_In _ _) Hv)) as Hvd.
      split; [|unfold nd; by rewrite Hvd].
      apply in_or_app.
      destruct (in_dec string_dec v A) as [HvA|HvA]; [by left|]. right.
      apply in_map_iff. exists v. split.
      * unfold Pd.renamer. by rewrite (Htr v HvA).
      * apply HR. split; [done|]. by intros ->.
  - (* identifiers *)
    intros id. rewrite keys_In. simpl. split.
    + intros (row & Hrow & Hk). apply in_map_iff in Hrow as (m & <- & Hm).
      unfold Pd.key_of in Hk. rewrite Hsel in Hk by done.
      destruct (HkeyM m Hm) as [(l & Hl & Hg)|(r & Hr & _ & Hg)].
      * rewrite Hg in Hk.
        destruct (proj1 (Ikeys id)) as (t & Ht & Hid).
        { apply keys_In. by exists l. }
        exists t. split; [apply in_or_app; by left | done].
      * rewrite Hg in Hk. simpl in Hk. subst id. exists chunk.
        split; [apply in_or_app; right; by left|].
        apply keys_In. by exists r.
    + intros (t & Ht & Hid).
      assert (forall m, In m M -> Pd.get (A ++ B) m zc = Some id ->
                exists r0,
                  In r0 (map (Pd.select_row nd (A ++ B)) M)
                  /\ Pd.key_of (List.filter nd (A ++ B)) zc r0 = id)
        as Hfound.
      { intros m Hm Hg. exists (Pd.select_row nd (A ++ B) m).
        split; [by apply in_map|]. unfold Pd.key_of.
        by rewrite Hsel, Hg. }
      assert (forall l, In l (rows df) -> Pd.key_of A zc l = id ->
                exists r0,
                  In r0 (map (Pd.select_row nd (A ++ B)) M)
                  /\ Pd.key_of (List.filter nd (A ++ B)) zc r0 = id)
        as HfromL.
      { intros l Hl Hk.
        destruct (get_is_Some A l zc Ikey (HlenL l Hl)) as [x Hx].
        assert (x = id) as -> by (unfold Pd.key_of in Hk; by rewrite Hx in Hk).
        destruct (classic_key_in chunk zc (Pd.key_of A zc l))
          as [(r & Hr & Hkr)%keys_In|Hn].
        - apply (Hfound (l ++ Pd.select_row (Pd.not_label zc)
                                (columns chunk) r)).
          + apply merge_rows_outer_In. left. by exists l, r.
          + rewrite get_app by (by apply HlenL).
            by rewrite (proj2 (mem_In zc A) Ikey).
        - apply (Hfound (l ++ replicate (length R) NaN)).
          + apply merge_rows_outer_In. right. left. by exists l.
          + rewrite get_app by (by apply HlenL).
            by rewrite (proj2 (mem_In zc A) Ikey). }
      apply in_app_or in Ht as [Ht|[<-|[]]].
      * assert (In id (Pd.keys zc df)) as (l & Hl & Hk)%keys_In
          by (apply Ikeys; by exists t).
        by apply (HfromL l).
      * apply keys_In in Hid as (r & Hr & Hk).
        destruct (classic_key_in df zc id) as [(l & Hl & Hkl)%keys_In|Hn].
        -- by apply (HfromL l).
        -- apply (Hfound
                    (map (fun c => if String.eqb c zc then id else NaN) A
                     ++ Pd.select_row (Pd.not_label zc) (columns chunk) r)).
           ++ apply merge_rows_outer_In. right. right. exists r.
              rewrite Hk. done.
           ++ rewrite get_app by (by rewrite length_map).
              rewrite (proj2 (mem_In zc A) Ikey), Hblank by done.
              by rewrite String.eqb_refl.
  - (* missing values *)
    simpl. intros pre t post row v Hsplit Hrow Hkn Hv Hne Hfirst.
    apply in_map_iff in Hrow as (m & <- & Hm).
    assert (Acs.is_dup v = false) as Hvd.
    { apply app_snoc_split in Hsplit
        as [(post' & -> & _)|(_ & -> & _)].
      - apply Ilab, list_elem_of_In. eapply Ikept; [|exact Hv].
        apply in_or_app. right. by left.
      - by apply Hdupc, list_elem_of_In. }
    rewrite Hsel by done.
    unfold Pd.key_of in Hkn. rewrite Hsel in Hkn by done.
    apply app_snoc_split in Hsplit as [(post' & Hseen & _)|(-> & -> & _)].
    + (* a chunk merged earlier: the cell stands in the left part *)
      assert (In v A) as HvA.
      { eapply Ikept; [|exact Hv]. rewrite Hseen.
        apply in_or_app. right. by left. }
      apply merge_rows_outer_In in Hm
        as [(l & r & Hl & Hr & Hk & ->)|[(l & Hl & Hn & ->)
                                        |(r & Hr & Hn & ->)]].
      * rewrite get_app in Hkn |- * by (by apply HlenL).
        rewrite (proj2 (mem_In zc A) Ikey) in Hkn.
        rewrite (proj2 (mem_In v A) HvA).
        by apply (Imiss pre t post').
      * rewrite get_app in Hkn |- * by (by apply HlenL).
        rewrite (proj2 (mem_In zc A) Ikey) in Hkn.
        rewrite (proj2 (mem_In v A) HvA).
        by apply (Imiss pre t post').
      * rewrite get_app by apply blank_length. fold A.
        rewrite (proj2 (mem_In v A) HvA), Hblank by done.
        by destruct (String.eqb_spec v zc).
    + (* the new chunk: the cell stands in the right part *)
      assert (~ In v A) as HvA.
      { intros HvA. destruct (Ifrom v HvA) as (t' & Ht' & Hvt').
        by apply (Hfirst t'). }
      assert (In v R) as HvR by (by apply HR).
      pose proof (proj2 (mem_false v A) HvA) as HvA'.
      apply merge_rows_outer_In in Hm
        as [(l & r & Hl & Hr & Hk & ->)|[(l & Hl & Hn & ->)
                                        |(r & Hr & Hn & ->)]].
      * destruct Hkn. rewrite get_app by (by apply HlenL).
        rewrite (proj2 (mem_In zc A) Ikey). apply keys_In.
        exists r. split; [done|]. by rewrite Hk.
      * rewrite get_app by (by apply HlenL). rewrite HvA'.
        unfold B. rewrite get_renamed by (by auto).
        pose proof (get_replicate_NaN R v) as Hrep.
        rewrite (proj2 (mem_In v R) HvR) in Hrep. exact Hrep.
      * destruct Hkn. rewrite get_app by apply blank_length. fold A.
        rewrite (proj2 (mem_In zc A) Ikey), Hblank by done.
        rewrite String.eqb_refl. simpl.
        apply keys_In. by exists r.
  - (* the values of a row come from the chunks *)
    cbn [Pd.select columns rows]. intros pre t post row Hsplit Hrow Hkin.
    apply in_map_iff in Hrow as (m & <- & Hm).
    unfold Pd.key_of in Hkin. rewrite Hsel in Hkin by done.
    pose proof (Hnodup pre t post Hsplit) as Hvd.
    assert (forall rt,
              In rt (rows t) ->
              default NaN (Pd.get (columns t) rt zc)
              = default NaN (Pd.get (A ++ B) m zc) ->
              (forall v, Acs.brings_in zc pre t v ->
                 Pd.get (A ++ B) m v = Pd.get (columns t) rt v) ->
              exists rt,
                In rt (rows t)
                /\ Pd.key_of (columns t) zc rt
                   = Pd.key_of (List.filter nd (A ++ B)) zc
                       (Pd.select_row nd (A ++ B) m)
                /\ forall v, Acs.brings_in zc pre t v ->
                     Pd.get (List.filter nd (A ++ B))
                       (Pd.select_row nd (A ++ B) m) v
                     = Pd.get (columns t) rt v) as Hfin.
    { intros rt Hrt Hk Hv. exists rt. split; [done|]. split.
      - unfold Pd.key_of. by rewrite Hsel by done.
      - intros v Hb. rewrite Hsel by (apply Hvd; by destruct Hb).
        by apply Hv. }
    apply app_snoc_split in Hsplit as [(post' & Hseen & _)|(-> & -> & _)].
    + (* a chunk merged earlier *)
      apply merge_rows_outer_In in Hm
        as [(l & r & Hl & Hr & Hk & ->)|[(l & Hl & Hn & ->)
                                        |(r & Hr & Hn & ->)]].
      * rewrite HgetL in Hkin by done.
        destruct (Ival pre t post' l Hseen Hl Hkin) as (rt & Hrt & Hkt & Hvt).
        apply (Hfin rt Hrt).
        -- by rewrite HgetL by done.
        -- intros v Hb. rewrite HgetL; [by apply Hvt | done |].
           destruct Hb as [Hv _]. by apply (HkeptA pre t post').
      * rewrite HgetL in Hkin by done.
        destruct (Ival pre t post' l Hseen Hl Hkin) as (rt & Hrt & Hkt & Hvt).
        apply (Hfin rt Hrt).
        -- by rewrite HgetL by done.
        -- intros v Hb. rewrite HgetL; [by apply Hvt | done |].
           destruct Hb as [Hv _]. by apply (HkeptA pre t post').
      * rewrite HgetK in Hkin. simpl in Hkin. destruct Hn.
        apply Ikeys. exists t. split; [|done]. rewrite Hseen.
        apply in_or_app. right. by left.
    + (* the new chunk *)
      apply merge_rows_outer_In in Hm
        as [(l & r & Hl & Hr & Hk & ->)|[(l & Hl & Hn & ->)
                                        |(r & Hr & Hn & ->)]].
      * apply (Hfin r Hr).
        -- rewrite HgetL by done. exact Hk.
        -- intros v Hb. apply HgetR; [by apply HlenL | done].
      * rewrite HgetL in Hkin by done. by destruct Hn.
      * apply (Hfin r Hr).
        -- by rewrite HgetK.
        -- intros v Hb. apply HgetR; [by rewrite length_map | done].
  - (* every row of a chunk is found in the result *)
    cbn [Pd.select columns rows]. intros pre t post rt Hsplit Hrt.
    pose proof (Hnodup pre t post Hsplit) as Hvd.
    assert (forall m,
              In m M ->
              default NaN (Pd.get (A ++ B) m zc)
              = default NaN (Pd.get (columns t) rt zc) ->
              (forall v, Acs.brings_in zc pre t v ->
                 Pd.get (A ++ B) m v = Pd.get (columns t) rt v) ->
              exists row,
                In row (map (Pd.select_row nd (A ++ B)) M)
                /\ Pd.key_of (List.filter nd (A ++ B)) zc row
                   = Pd.key_of (columns t) zc rt
                /\ forall v, Acs.brings_in zc pre t v ->
                     Pd.get (List.filter nd (A ++ B)) row v
                     = Pd.get (columns t) rt v) as Hfin.
    { intros m Hm Hk Hv. exists (Pd.select_row nd (A ++ B) m).
      split; [by apply in_map|]. split.
      - unfold Pd.key_of. by rewrite Hsel by done.
      - intros v Hb. rewrite Hsel by (apply Hvd; by destruct Hb).
        by apply Hv. }
    apply app_snoc_split in Hsplit as [(post' & Hseen & _)|(-> & -> & _)].
    + (* a chunk merged earlier: its row stands in a row of the table
         so far, which the join extends *)
      destruct (Icomp pre t post' rt Hseen Hrt) as (l & Hl & Hkl & Hvl).
      assert (forall x, In (l ++ x) M ->
                exists row,
                  In row (map (Pd.select_row nd (A ++ B)) M)
                  /\ Pd.key_of (List.filter nd (A ++ B)) zc row
                     = Pd.key_of (columns t) zc rt
                  /\ forall v, Acs.brings_in zc pre t v ->
                       Pd.get (List.filter nd (A ++ B)) row v
                       = Pd.get (columns t) rt v) as Hext.
      { intros x Hx. apply (Hfin _ Hx).
        - rewrite HgetL by done. exact Hkl.
        - intros v Hb. rewrite HgetL; [by apply Hvl | done |].
          destruct Hb as [Hv _]. by apply (HkeptA pre t post'). }
      destruct (classic_key_in chunk zc (Pd.key_of A zc l))
        as [(r & Hr & Hkr)%keys_In|Hn].
      * apply (Hext (Pd.select_row (Pd.not_label zc) (columns chunk) r)).
        apply merge_rows_outer_In. left. by exists l, r.
      * apply (Hext (replicate (length R) NaN)).
        apply merge_rows_outer_In. right. left. by exists l.
    + (* the new chunk *)
      destruct (classic_key_in df zc (Pd.key_of (columns chunk) zc rt))
        as [(l & Hl & Hkl)%keys_In|Hn].
      * apply (Hfin (l ++ Pd.select_row (Pd.not_label zc)
                            (columns chunk) rt)).
        -- apply merge_rows_outer_In. left. by exists l, rt.
        -- rewrite HgetL by done. exact Hkl.
        -- intros v Hb. apply HgetR; [by apply HlenL | done].
      * apply (Hfin (map (fun c => if String.eqb c zc
                                   then Pd.key_of (columns chunk) zc rt
                                   else NaN) A
                     ++ Pd.select_row (Pd.not_label zc) (columns chunk) rt)).
        -- apply merge_rows_outer_In. right. right. by exists rt.
        -- by rewrite HgetK.
        -- intros v Hb. apply HgetR; [by rewrite length_map | done].
  - (* one row per identifier *)
    intros Hall. apply Forall_app in Hall as [Hseen Hchunk].
    apply Forall_cons in Hchunk as [Hchunk _].
    unfold Pd.keys, Pd.select. cbn [columns rows]. rewrite map_map.
    apply (merge_rows_keys_NoDup zc df chunk
             (fun m => Pd.key_of (List.filter nd (A ++ B)) zc
                         (Pd.select_row nd (A ++ B) m))).
    + intros l x Hl. unfold Pd.key_of. rewrite Hsel by done.
      by rewrite HgetL by done.
    + intros k x. unfold Pd.key_of. rewrite Hsel by done.
      by rewrite HgetK.
    + by apply Iuniq.
    + done.
Qed.

End outer_join.

Section outer_join_loop.

Variable zc : string.

Lemma merged_inv_first d0 :
  rectangular d0 -> NoDup (columns d0) ->
  Acs.find_zipcode_col (columns d0) = Some zc ->
  Forall (fun c => Acs.is_dup c = false) (columns d0) ->
  Acs.merged_inv zc [d0] d0.
Proof.
  intros Hrect Hnd Hfz Hdup. apply find_zipcode_col_In in Hfz as [Hzc _].
  constructor; try done.
  - by apply NoDup_count_one.
  - intros c Hc. exists d0. split; [by left | done].
  - by intros t v [<-|[]].
  - intros id. split.
    + intros Hid. exists d0. split; [by left | done].
    + by intros (t & [<-|[]] & Hid).
  - intros pre t post row v Hsplit Hrow Hn. destruct Hn.
    destruct pre as [|p pre].
    + injection Hsplit as <- _. apply keys_In. by exists row.
    + injection Hsplit as _ Hsplit. by destruct pre.
  - intros pre t post row Hsplit Hrow _.
    destruct pre as [|p pre].
    + injection Hsplit as <- _. by exists row.
    + injection Hsplit as _ Hsplit. by destruct pre.
  - intros pre t post rt Hsplit Hrt.
    destruct pre as [|p pre].
    + injection Hsplit as <- _. by exists rt.
    + injection Hsplit as _ Hsplit. by destruct pre.
  - intros Hall. by apply Forall_cons in Hall as [? _].
Qed.

Lemma merge_chunks_inv rest seen df :
  Acs.merged_inv zc seen df ->
  Forall (fun t => rectangular t /\ NoDup (columns t)
                   /\ Acs.find_zipcode_col (columns t) = Some zc
                   /\ Forall (fun c => Acs.is_dup c = false) (columns t))
    rest ->
  exists out,
    Acs.merge_chunks df rest = Ok out
    /\ Acs.merged_inv zc (seen ++ rest) out.
Proof.
  revert seen df.
  induction rest as [|chunk rest IH]; intros seen df Hinv Hall.
  - exists df. by rewrite app_nil_r.
  - apply Forall_cons in Hall as [(Hrc & Hnd & Hfz & Hdup) Hall].
    destruct (merge_chunk_inv zc seen df chunk Hinv Hrc Hnd Hfz Hdup)
      as (df' & Hm & Hinv').
    destruct (IH (seen ++ [chunk]) df' Hinv' Hall) as (out & Hout & Hinv'').
    exists out. cbn [Acs.merge_chunks]. rewrite Hm. simpl.
    split; [done|]. by rewrite <- app_assoc in Hinv''.
Qed.

End outer_join_loop.

(** C10.  For chunk tables with distinct labels that all carry the
    identifier column, the merge loop returns the outer join of the
    chunks on that column.  An identifier appears in the result exactly
    when it appears in one of the chunks.  Under the labels a chunk
    brings in, a row of the result holds the values of one row of that
    chunk with the same identifier, and missing values when the chunk
    lacks the identifier; every row of every chunk is found in this way
    in some row of the result.  The result has one row per identifier
    when no chunk repeats an identifier; it is rectangular and its
    labels are those of the chunks.  (A label is brought in by the
    first chunk that carries it; the chunks of a variable list without
    repetition each bring in their own variable labels.) *)
Theorem merge_chunks_outer_join (zc : string) (d0 : DataFrame)
    (rest : list DataFrame) :
  Forall (fun t => rectangular t /\ NoDup (columns t)
                   /\ Acs.find_zipcode_col (columns t) = Some zc
                   /\ Forall (fun c => PyStr.endswith c "_dup" = false)
                        (columns t))
    (d0 :: rest) ->
  exists df,
    Acs.merge_chunks d0 rest = Ok df
    /\ (forall id,
          In id (Pd.keys zc df)
          <-> exists t, In t (d0 :: rest) /\ In id (Pd.keys zc t))
    /\ (forall pre t post row v,
          d0 :: rest = pre ++ t :: post ->
          In row (rows df) ->
          ~ In (Pd.key_of (columns df) zc row) (Pd.keys zc t) ->
          In v (columns t) -> v <> zc ->
          (forall t', In t' pre -> ~ In v (columns t')) ->
          Pd.get (columns df) row v = Some NaN)
    /\ (forall pre t post row,
          d0 :: rest = pre ++ t :: post ->
          In row (rows df) ->
          In (Pd.key_of (columns df) zc row) (Pd.keys zc t) ->
          exists rt,
            In rt (rows t)
            /\ Pd.key_of (columns t) zc rt = Pd.key_of (columns df) zc row
            /\ forall v, Acs.brings_in zc pre t v ->
                 Pd.get (columns df) row v = Pd.get (columns t) rt v)
    /\ (forall pre t post rt,
          d0 :: rest = pre ++ t :: post ->
          In rt (rows t) ->
          exists row,
            In row (rows df)
            /\ Pd.key_of (columns df) zc row = Pd.key_of (columns t) zc rt
            /\ forall v, Acs.brings_in zc pre t v ->
                 Pd.get (columns df) row v = Pd.get (columns t) rt v)
    /\ (Forall (fun t => NoDup (Pd.keys zc t)) (d0 :: rest) ->
        NoDup (Pd.keys zc df))
    /\ rectangular df
    /\ (forall c,
          In c (columns df)
          <-> exists t, In t (d0 :: rest) /\ In c (columns t)).
Proof.
  intros Hall.
  apply Forall_cons in Hall as [(Hrect & Hnd & Hfz & Hdup) Hall].
  destruct (merge_chunks_inv zc rest [d0] d0) as (out & Hout & Hinv);
    [by apply merged_inv_first | done |].
  exists out. split; [done|].
  destruct Hinv as [Hr _ _ Hfrom Hkept Hkeys Hmiss Hval Hcomp Huniq].
  split; [done|]. split; [intros pre t post row v; apply Hmiss|].
  split; [intros pre t post row; apply Hval|].
  split; [intros pre t post rt; apply Hcomp|].
  split; [done|]. split; [done|].
  intros c. split; [apply Hfrom|].
  intros (t & Ht & Hc). by apply (Hkept t).
Qed.

Lemma merge_chunks_outer_join_witness :
  exists df,
    Acs.merge_chunks
      (mkDF ["B01001_001E"; "zip code tabulation area"]
         [[Str "12"; Str "64101"]; [Str "40"; Str "64102"]])
      [mkDF ["B01002_001E"; "zip code tabulation area"]
         [[Str "35.2"; Str "64102"]; [Str "29.9"; Str "64103"]]]
    = Ok df
    /\ In (Str "64103") (Pd.keys "zip code tabulation area" df)
    /\ In (Str "64101") (Pd.keys "zip code tabulation area" df)
    /\ (forall row,
          In row (rows df) ->
          Pd.key_of (columns df) "zip code tabulation area" row = Str "64103" ->
          Pd.get (columns df) row "B01001_001E" = Some NaN)
    /\ (forall row,
          In row (rows df) ->
          Pd.key_of (columns df) "zip code tabulation area" row = Str "64102" ->
          Pd.get (columns df) row "B01002_001E" = Some (Str "35.2")).
Proof.
  destruct (merge_chunks_outer_join "zip code tabulation area"
    (mkDF ["B01001_001E"; "zip code tabulation area"]
       [[Str "12"; Str "64101"]; [Str "40"; Str "64102"]])
    [mkDF ["B01002_001E"; "zip code tabulation area"]
       [[Str "35.2"; Str "64102"]; [Str "29.9"; Str "64103"]]])
    as (df & Hdf & Hkeys & Hmiss & Hval & _).
  - apply Forall_cons. split; [|apply Forall_cons; split; [|done]].
    all: split; [repeat constructor | split; [|split; [reflexivity|]]].
    all: try (apply NoDup_ListNoDup; repeat constructor; simpl;
              intuition discriminate).
    all: repeat constructor.
  - exists df. split; [done|]. split; [|split; [|split]].
    + apply Hkeys. eexists. split; [right; by left|]. right. by left.
    + apply Hkeys. eexists. split; [by left|]. by left.
    + intros row Hrow Hk.
      apply (Hmiss [] _ _ row "B01001_001E" eq_refl Hrow).
      * rewrite Hk. simpl. intuition discriminate.
      * by left.
      * discriminate.
      * intros t' [].
    + intros row Hrow Hk.
      destruct (Hval
        [mkDF ["B01001_001E"; "zip code tabulation area"]
           [[Str "12"; Str "64101"]; [Str "40"; Str "64102"]]]
        (mkDF ["B01002_001E"; "zip code tabulation area"]
           [[Str "35.2"; Str "64102"]; [Str "29.9"; Str "64103"]])
        [] row eq_refl Hrow) as (rt & Hrt & Hkt & Hv).
      * rewrite Hk. left. reflexivity.
      * rewrite (Hv "B01002_001E").
        -- rewrite Hk in Hkt.
           destruct Hrt as [<-|[<-|[]]]; [reflexivity | discriminate Hkt].
        -- split; [by left|]. split; [discriminate|].
           intros t' [<-|[]] [H|[H|[]]]; discriminate H.
Defined.

(** * Further properties of the loaders and exporters *)

(** ** Shape of the chunks *)

Lemma range_up_In fuel start stop c i :
  In i (range_up fuel start stop c) ->
  start <= i < stop /\ exists k, i = start + k * c.
Proof.
  revert start. induction fuel as [|fuel IH]; intros start; simpl; [done|].
  destruct (Nat.ltb_spec start stop) as [Hlt|Hge]; [|done].
  intros [<-|Hin].
  - split; [lia|]. exists 0. lia.
  - apply IH in Hin as [Hb (k & ->)]. split; [lia|]. exists (S k). lia.
Qed.

(** X1.  Every request carries at least one variable: a chunk starts at a
    multiple of the chunk size inside the list and holds the next
    [min C (N - i)] variables. *)
Theorem chunk_shape (variables : list string) (C i : nat)
    (chunk : list string) :
  0 < C ->
  In (i, chunk) (chunks variables C) ->
  i < length variables
  /\ i mod C = 0
  /\ chunk = take C (drop i variables)
  /\ length chunk = Nat.min C (length variables - i)
  /\ chunk <> [].
Proof.
  intros HC Hin. unfold chunks in Hin.
  apply in_map_iff in Hin as (j & Heq & Hj). injection Heq as -> <-.
  apply range_up_In in Hj as [Hb (k & Hk)]. simpl in Hk.
  assert (slice variables i (i + C) = take C (drop i variables)) as Hs.
  { unfold slice. by replace (i + C - i) with C by lia. }
  assert (length (slice variables i (i + C))
          = Nat.min C (length variables - i)) as Hlen.
  { rewrite Hs, length_take, length_drop. lia. }
  split; [lia|]. split.
  { subst i. by apply Nat.Div0.mod_mul. }
  split; [done|]. split; [done|].
  intros Hnil. rewrite Hnil in Hlen. simpl in Hlen. lia.
Qed.

Lemma chunk_shape_witness :
  take 2 (drop 2 ["B01001_001E"; "B01001_002E"; "B01002_001E"])
  = ["B01002_001E"].
Proof.
  symmetry.
  apply (chunk_shape ["B01001_001E"; "B01001_002E"; "B01002_001E"] 2 2
           ["B01002_001E"]); [lia|].
  right. by left.
Defined.

Lemma NoDup_concat_disjoint {X} (ls : list (list X)) j k a b :
  NoDup (concat ls) ->
  ls !! j = Some a -> ls !! k = Some b -> j <> k ->
  forall v, In v a -> ~ In v b.
Proof.
  revert j k. induction ls as [|x ls IH]; intros j k Hnd Hj Hk Hne v Ha Hb;
    [done|].
  simpl in Hnd. apply NoDup_app in Hnd as (Hx & Hdis & Hrest).
  assert (forall n c, ls !! n = Some c -> forall u, In u c ->
                      In u (concat ls)) as Hsub.
  { intros n c Hn u Hu. apply in_concat. exists c. split; [|done].
    apply list_elem_of_In. by eapply list_elem_of_lookup_2. }
  destruct j as [|j], k as [|k]; simpl in Hj, Hk; [done| | |].
  - injection Hj as ->. apply (Hdis v); [by apply list_elem_of_In|].
    apply list_elem_of_In. by eapply Hsub.
  - injection Hk as ->. apply (Hdis v); [by apply list_elem_of_In|].
    apply list_elem_of_In. by eapply Hsub.
  - eapply (IH j k); eauto.
Qed.

(** X2.  The chunks of a variable list without repetition share no
    variable. *)
Theorem chunks_disjoint (variables : list string) (C j k : nat)
    (cj ck : nat * list string) :
  0 < C -> NoDup variables ->
  chunks variables C !! j = Some cj ->
  chunks variables C !! k = Some ck ->
  j <> k ->
  forall v, In v cj.2 -> ~ In v ck.2.
Proof.
  intros HC Hnd Hj Hk Hne.
  apply (NoDup_concat_disjoint (map snd (chunks variables C)) j k).
  - unfold chunks, py_range. rewrite map_map. simpl.
    by rewrite range_up_cover by lia.
  - by rewrite list_lookup_fmap, Hj.
  - by rewrite list_lookup_fmap, Hk.
  - done.
Qed.

Lemma chunks_disjoint_witness :
  ~ In "B01001_001E" ["B01002_001E"].
Proof.
  apply (chunks_disjoint ["B01001_001E"; "B01001_002E"; "B01002_001E"] 2
           0 1 (0, ["B01001_001E"; "B01001_002E"]) (2, ["B01002_001E"]));
    [lia | | reflexivity | reflexivity | lia | by left].
  apply NoDup_ListNoDup. repeat constructor; simpl; intuition discriminate.
Defined.

(** ** The variable catalog *)

(** X3.  The flattened catalog holds every variable of every category, each
    one once, and nothing else. *)
Theorem flatten_catalog (categories : list (string * Catalog.category)) :
  NoDup (Catalog.flatten categories)
  /\ (forall v,
        In v (Catalog.flatten categories)
        <-> exists kv, In kv categories /\ In v (Catalog.variables kv.2))
  /\ length (Catalog.flatten categories)
     <= length (Catalog.all_vars categories).
Proof.
  unfold Catalog.flatten. split; [apply NoDup_elements|]. split.
  - intros v. rewrite <- list_elem_of_In, elem_of_elements,
      elem_of_list_to_set, list_elem_of_In.
    unfold Catalog.all_vars. by rewrite in_flat_map.
  - apply submseteq_length, NoDup_submseteq; [apply NoDup_elements|].
    intros v. by rewrite elem_of_elements, elem_of_list_to_set.
Qed.

Lemma flatten_In categories v :
  In v (Catalog.flatten categories) <-> In v (Catalog.all_vars categories).
Proof.
  unfold Catalog.flatten.
  by rewrite <- !list_elem_of_In, elem_of_elements, elem_of_list_to_set.
Qed.

Lemma flatten_length categories :
  NoDup (Catalog.all_vars categories) ->
  length (Catalog.flatten categories)
  = length (Catalog.all_vars categories).
Proof.
  intros Hnd. unfold Catalog.flatten.
  by apply (size_list_to_set (C := gset string)).
Qed.

Lemma shipped_catalog_NoDup : NoDup (Catalog.all_vars Catalog.ACS_CATEGORIES).
Proof.
  apply (bool_decide_unpack (NoDup (Catalog.all_vars Catalog.ACS_CATEGORIES))).
  vm_compute. exact I.
Qed.

(** X4.  The catalog that ships with the loader lists 51 variable codes, no
    code twice.  With the chunk size of 50 a run therefore sends two
    requests, of 50 variables and of one, and has to merge their
    answers.  Every code is taken for a variable column by the cleaning
    step, and none is taken for a geography column. *)
Theorem shipped_catalog_requests :
  NoDup (Catalog.all_vars Catalog.ACS_CATEGORIES)
  /\ length Catalog.get_all_acs_variables = 51
  /\ map (fun c => length c.2) (chunks Catalog.get_all_acs_variables 50)
     = [50; 1]
  /\ forall v,
       In v Catalog.get_all_acs_variables ->
       Acs.is_variable_col v = true
       /\ PyStr.mem (PyStr.lower v) Acs.geography_names = false.
Proof.
  pose proof shipped_catalog_NoDup as Hnd.
  assert (Hlen : length Catalog.get_all_acs_variables = 51).
  { unfold Catalog.get_all_acs_variables. by rewrite flatten_length. }
  split; [done|]. split; [done|]. split.
  - unfold chunks. rewrite Hlen.
    change (py_range 0 51 50) with [0; 50]. cbn [map snd].
    unfold slice. rewrite !length_take, !length_drop, Hlen. reflexivity.
  - intros v Hv. unfold Catalog.get_all_acs_variables in Hv.
    rewrite (flatten_In Catalog.ACS_CATEGORIES v) in Hv.
    assert (Hall : forallb
              (fun v => Acs.is_variable_col v
                        && negb (PyStr.mem (PyStr.lower v)
                                   Acs.geography_names))
              (Catalog.all_vars Catalog.ACS_CATEGORIES) = true)
      by (vm_compute; reflexivity).
    rewrite forallb_forall in Hall. specialize (Hall v Hv).
    apply andb_true_iff in Hall as [H1 H2].
    apply negb_true_iff in H2. split; assumption.
Qed.

(** ** The fetch: edge cases and shape of the result *)

(** X5.  A chunk size of zero makes [range] raise; with a negative chunk
    size or an empty variable list the loop body never runs and the
    fetch raises its "no data" exception.  No case returns a table. *)
Theorem fetch_acs_data_degenerate (w : world) (variables : list string)
    (C : Z) :
  (C <= 0)%Z \/ variables = [] ->
  exists e,
    Acs.fetch_acs_data w variables C = Raise e
    /\ (C = 0%Z -> e = ValueError "range() arg 3 must not be zero")
    /\ (C <> 0%Z -> e = Acs.no_data).
Proof.
  intros H. unfold Acs.fetch_acs_data.
  destruct (Z.eqb_spec C 0) as [->|Hne].
  { eexists. split; [done|]. split; [done|]. by intros []. }
  exists Acs.no_data.
  assert ((if (C <? 0)%Z then [] else chunks variables (Z.to_nat C)) = [])
    as ->.
  { destruct (Z.ltb_spec C 0); [done|].
    destruct H as [Hle|Hnil]; [lia|]. by rewrite Hnil. }
  split; [done|]. split; [by intros ? | done].
Qed.

Lemma fetch_acs_data_degenerate_witness :
  Acs.fetch_acs_data
    (mkWorld "key" (fun _ _ _ => Json (JTable ["ZCTA5"] [[Str "64101"]])) None)
    ["B01001_001E"] (-5)
  = Raise Acs.no_data.
Proof.
  destruct (fetch_acs_data_degenerate
              (mkWorld "key"
                 (fun _ _ _ => Json (JTable ["ZCTA5"] [[Str "64101"]])) None)
              ["B01001_001E"] (-5)) as (e & -> & _ & He); [left; lia|].
  by rewrite He.
Defined.

Section shapes.

Lemma width_ge (data : list (list cell)) r :
  In r data -> length r <= Pd.width data.
Proof.
  induction data as [|x data IH]; [intros []|]. simpl.
  intros [->|Hin]; [lia|]. specialize (IH Hin). lia.
Qed.

Lemma DataFrame_of_spec data header df :
  Pd.DataFrame_of data header = Ok df ->
  rectangular df /\ columns df = header
  /\ length (rows df) = length data.
Proof.
  unfold Pd.DataFrame_of. destruct data as [|x xs].
  { intros H. injection H as <-. split; [by constructor | done]. }
  set (data := x :: xs). clearbody data.
  destruct (Nat.eqb_spec (Pd.width data) (length header)) as [Hw|];
    [|done].
  intros H. injection H as <-. split; [|split; [done|]].
  - unfold rectangular. cbn [columns rows].
    apply Forall_forall. intros r Hr%list_elem_of_In.
    apply in_map_iff in Hr as (r0 & <- & Hr0).
    unfold Pd.pad. rewrite length_app, length_replicate.
    pose proof (width_ge _ _ Hr0). lia.
  - cbn [rows]. by rewrite length_map.
Qed.

Lemma fetch_chunks_rectangular w cs n acc out :
  Forall rectangular acc ->
  Acs.fetch_chunks w n cs acc = Ok out ->
  Forall rectangular out.
Proof.
  revert n acc. induction cs as [|[i chunk] cs IH]; intros n acc Hacc H.
  - by injection H as <-.
  - cbn [Acs.fetch_chunks] in H.
    destruct (Acs.build_census_api_url _ _ _) as [url params].
    destruct (http_get w n url params) as [|[|h [|x xs]]];
      try by eapply IH.
    destruct (Pd.DataFrame_of (x :: xs) h) as [df|] eqn:Hdf; [|done].
    simpl in H. eapply IH; [|exact H].
    apply Forall_app. split; [done|].
    apply Forall_cons. split; [|done].
    by apply DataFrame_of_spec in Hdf as [? _].
Qed.

Lemma row_length (df : DataFrame) r :
  rectangular df -> In r (rows df) -> length r = length (columns df).
Proof.
  unfold rectangular. rewrite Forall_forall. intros H Hr.
  by apply H, list_elem_of_In.
Qed.

(** A merge keeps tables rectangular, whatever the kind of join and the
    suffixes. *)
Lemma merge_rectangular h on sfx left right out :
  Pd.merge h on sfx left right = Ok out ->
  rectangular left -> rectangular right -> rectangular out.
Proof.
  intros Hm Hl Hr. apply merge_unfold in Hm as (Hrows & Hcols & _ & _).
  unfold rectangular. rewrite Hrows, Hcols.
  pose proof (merge_rows_rectangular on left right Hl Hr) as Hout.
  rewrite Forall_forall in Hout. apply Forall_forall.
  intros m Hm%list_elem_of_In. rewrite <- length_app.
  apply Hout, list_elem_of_In.
  unfold Pd.merge_rows in *. destruct h; [|done].
  rewrite app_nil_r in Hm. apply in_or_app. by left.
Qed.

Lemma concat_columns_rectangular a b :
  rectangular a -> rectangular b -> rectangular (Pd.concat_columns a b).
Proof.
  intros Ha Hb. unfold rectangular, Pd.concat_columns. cbn [rows columns].
  apply Forall_forall. intros r Hr%list_elem_of_In.
  apply in_map_iff in Hr as (i & <- & _).
  assert (forall d, rectangular d ->
            length (Pd.row_or_nan d i) = length (columns d)) as Hrow.
  { intros d Hd. unfold Pd.row_or_nan.
    destruct (rows d !! i) as [r|] eqn:Hi; simpl.
    - apply row_length; [done|].
      apply list_elem_of_In. by eapply list_elem_of_lookup_2.
    - by rewrite length_replicate. }
  by rewrite !length_app, !Hrow.
Qed.

Lemma merge_chunk_rectangular df chunk out :
  Acs.merge_chunk df chunk = Ok out ->
  rectangular df -> rectangular chunk -> rectangular out.
Proof.
  unfold Acs.merge_chunk. intros H Hd Hc.
  destruct (Acs.common_zipcode_col df chunk).
  - destruct (Pd.merge _ _ _ _ _) as [m|] eqn:Hm; [|done].
    simpl in H. injection H as <-. apply select_rectangular.
    by eapply merge_rectangular.
  - injection H as <-. by apply concat_columns_rectangular.
Qed.

Lemma merge_chunks_rectangular rest df out :
  Acs.merge_chunks df rest = Ok out ->
  rectangular df -> Forall rectangular rest -> rectangular out.
Proof.
  revert df. induction rest as [|chunk rest IH]; intros df H Hd Hrest.
  - by injection H as <-.
  - cbn [Acs.merge_chunks] in H.
    apply Forall_cons in Hrest as [Hc Hrest].
    destruct (Acs.merge_chunk df chunk) as [df'|] eqn:Hm; [|done].
    simpl in H. eapply IH; [exact H | | done].
    by eapply merge_chunk_rectangular.
Qed.

End shapes.

Lemma fetch_acs_data_rect (w : world) (variables : list string)
    (C : Z) (df : DataFrame) :
  Acs.fetch_acs_data w variables C = Ok df -> rectangular df.
Proof.
  unfold Acs.fetch_acs_data. destruct (C =? 0)%Z; [done|].
  destruct (Acs.fetch_chunks w 0 _ []) as [all_data|] eqn:Hf; [|done].
  simpl. apply fetch_chunks_rectangular in Hf; [|done].
  destruct all_data as [|d0 rest]; [done|].
  apply Forall_cons in Hf as [Hd Hrest]. intros H.
  by eapply merge_chunks_rectangular.
Qed.

(** X6.  Whatever the responses, a table that the fetch returns is
    rectangular: every row has one cell per column label, short rows of
    a body having been filled with missing values. *)
Theorem fetch_acs_data_rectangular (w : world) (variables : list string)
    (C : Z) (df : DataFrame) :
  Acs.fetch_acs_data w variables C = Ok df -> rectangular df.
Proof. apply fetch_acs_data_rect. Qed.

Lemma fetch_acs_data_rectangular_witness :
  rectangular
    (mkDF ["B01001_001E"; "zip code tabulation area"]
       [[Str "12"; Str "64101"]; [Str "40"; NaN]]).
Proof.
  apply (fetch_acs_data_rectangular
           (mkWorld "key"
              (fun _ _ _ =>
                 Json (JTable ["B01001_001E"; "zip code tabulation area"]
                         [[Str "12"; Str "64101"]; [Str "40"]]))
              None)
           ["B01001_001E"] 50).
  reflexivity.
Defined.

(** ** The cleaning step: errors, labels and identifiers *)

Section cleaning_more.

Variable to_numeric : cell -> cell.

(** The frame handed to the coercion loop. *)
Lemma clean_acs_data_unfold df out :
  Acs.clean_acs_data to_numeric df = Ok out ->
  exists zc df3,
    Acs.find_zipcode_col (columns df) = Some zc
    /\ Acs.coerce_columns to_numeric
         (columns (Acs.drop_geography
                     (List.filter
                        (fun col => PyStr.mem (PyStr.lower col)
                                      Acs.geography_names)
                        (columns (Pd.rename zc "ZIPCODE" df)))
                     (Pd.rename zc "ZIPCODE" df)))
         (Acs.drop_geography
            (List.filter
               (fun col => PyStr.mem (PyStr.lower col) Acs.geography_names)
               (columns (Pd.rename zc "ZIPCODE" df)))
            (Pd.rename zc "ZIPCODE" df))
       = Ok df3
    /\ length (List.filter (String.eqb "ZIPCODE") (columns df3)) = 1
    /\ out = Pd.assign "ZIPCODE" canonical_zip (Pd.dropna "ZIPCODE" df3).
Proof.
  intros Hrun. unfold Acs.clean_acs_data in Hrun.
  destruct (Acs.find_zipcode_col (columns df)) as [zc|] eqn:Hzc; [|done].
  exists zc.
  set (df1 := if negb (String.eqb zc "ZIPCODE")
              then Pd.rename zc "ZIPCODE" df else df) in Hrun.
  assert (df1 = Pd.rename zc "ZIPCODE" df) as Hdf1.
  { unfold df1. destruct (String.eqb_spec zc "ZIPCODE") as [Heq|]; simpl;
      [by rewrite Heq, rename_same | done]. }
  clearbody df1. subst df1.
  destruct (Acs.coerce_columns to_numeric _ _) as [df3|] eqn:Hco; [|done].
  exists df3. simpl in Hrun.
  destruct (Pd.the_column "ZIPCODE" (columns df3) _) as [[]|] eqn:Hu;
    [|done].
  simpl in Hrun. injection Hrun as <-.
  apply the_column_Ok in Hu. done.
Qed.

Lemma coerce_columns_raise cs df e :
  Acs.coerce_columns to_numeric cs df = Raise e ->
  (exists c, e = KeyError c) \/ (exists m, e = TypeError m).
Proof.
  revert df. induction cs as [|col cs IH]; intros df H; [done|].
  cbn [Acs.coerce_columns] in H.
  destruct (Acs.is_variable_col col); [|by eapply IH].
  unfold Pd.the_column in H.
  destruct (List.filter (String.eqb col) (columns df)) as [|x [|y l]];
    simpl in H.
  - injection H as <-. left. by eexists.
  - by eapply IH.
  - injection H as <-. right. by eexists.
Qed.

End cleaning_more.

(** X7.  [clean_acs_data] reports a missing identifier column exactly when
    the table carries none of the three candidate labels. *)
Theorem clean_acs_data_no_zipcode_column (to_numeric : cell -> cell)
    (df : DataFrame) :
  Acs.clean_acs_data to_numeric df
  = Raise (Exception "Could not find zipcode column in ACS data")
  <-> Forall (fun c => ~ In c (columns df)) Acs.zipcode_candidates.
Proof.
  split.
  - intros Hrun.
    destruct (Acs.find_zipcode_col (columns df)) as [zc|] eqn:Hzc.
    + exfalso. unfold Acs.clean_acs_data in Hrun. rewrite Hzc in Hrun.
      destruct (Acs.coerce_columns to_numeric _ _) as [df3|e] eqn:Hco.
      * simpl in Hrun. unfold Pd.the_column in Hrun.
        destruct (List.filter (String.eqb "ZIPCODE") (columns df3))
          as [|x [|y l]]; simpl in Hrun; done.
      * simpl in Hrun. injection Hrun as ->.
        by apply coerce_columns_raise in Hco as [[? ?]|[? ?]].
    + apply Forall_forall. intros c Hc%list_elem_of_In.
      apply mem_false. by apply (find_none _ _ Hzc c).
  - intros Hnone. unfold Acs.clean_acs_data.
    assert (Acs.find_zipcode_col (columns df) = None) as ->; [|done].
    unfold Acs.find_zipcode_col.
    destruct (find _ Acs.zipcode_candidates) as [c|] eqn:Hf; [|done].
    apply find_some in Hf as [Hc Hm]. apply mem_In in Hm.
    rewrite Forall_forall in Hnone.
    by destruct (Hnone c (proj2 (list_elem_of_In _ _) Hc)).
Qed.

Section cleaning_labels.

Variable to_numeric : cell -> cell.

Lemma drop_geography_columns cs df :
  columns (Acs.drop_geography cs df)
  = List.filter (fun c => negb (PyStr.mem c cs) || String.eqb c "ZIPCODE")
      (columns df).
Proof.
  revert df. induction cs as [|col cs IH]; intros df;
    cbn [Acs.drop_geography].
  - symmetry. apply forallb_filter_id, forallb_forall. by intros c _.
  - destruct (String.eqb_spec col "ZIPCODE") as [->|Hne]; cbn [negb];
      rewrite IH.
    + apply List.filter_ext. intros c. rewrite mem_cons.
      by destruct (String.eqb_spec c "ZIPCODE"), (PyStr.mem c cs).
    + unfold Pd.drop_column. cbn [Pd.select columns].
      induction (columns df) as [|x l IHl]; [done|].
      cbn [List.filter]. rewrite mem_cons.
      destruct (String.eqb_spec x col) as [->|Hx]; cbn [negb orb].
      * destruct (String.eqb_spec col "ZIPCODE"); [done|]. apply IHl.
      * cbn [List.filter]. by rewrite IHl.
Qed.

Lemma geography_not_zipcode :
  PyStr.mem (PyStr.lower "ZIPCODE") Acs.geography_names = false.
Proof. reflexivity. Qed.

End cleaning_labels.

(** X8.  The labels of a cleaned table: [ZIPCODE], naming exactly one
    column, and the labels of the input other than the identifier
    column found and the geography names ([state], [county], [tract],
    [block group], [name] in any letter case). *)
Theorem clean_acs_data_labels (to_numeric : cell -> cell)
    (df out : DataFrame) (zc : string) :
  Acs.clean_acs_data to_numeric df = Ok out ->
  Acs.find_zipcode_col (columns df) = Some zc ->
  length (List.filter (String.eqb "ZIPCODE") (columns out)) = 1
  /\ (forall c,
        In c (columns out)
        <-> c = "ZIPCODE"
            \/ (In c (columns df) /\ c <> zc
                /\ PyStr.mem (PyStr.lower c) Acs.geography_names = false)).
Proof.
  intros Hrun Hzc.
  apply clean_acs_data_unfold in Hrun as (zc' & df3 & Hzc' & Hco & Hone & ->).
  rewrite Hzc in Hzc'. injection Hzc' as <-.
  apply find_zipcode_col_In in Hzc as [Hin _].
  assert (columns df3
          = columns (Acs.drop_geography
                       (List.filter
                          (fun col => PyStr.mem (PyStr.lower col)
                                        Acs.geography_names)
                          (columns (Pd.rename zc "ZIPCODE" df)))
                       (Pd.rename zc "ZIPCODE" df))) as Hcols.
  { revert Hco. generalize (Acs.drop_geography
                       (List.filter
                          (fun col => PyStr.mem (PyStr.lower col)
                                        Acs.geography_names)
                          (columns (Pd.rename zc "ZIPCODE" df)))
                       (Pd.rename zc "ZIPCODE" df)).
    intros d. generalize (columns d) at 1. intros cs. revert d.
    induction cs as [|col cs IH]; intros d H; cbn [Acs.coerce_columns] in H.
    - by injection H as <-.
    - destruct (Acs.is_variable_col col); [|by apply IH].
      destruct (Pd.the_column col (columns d) _); [|done].
      simpl in H. by apply IH in H. }
  cbn [Pd.assign Pd.dropna columns]. split; [done|].
  rewrite Hcols, drop_geography_columns in Hone |- *.
  cbn [Pd.rename columns] in Hone |- *.
  set (ren := fun c => if String.eqb c zc then "ZIPCODE" else c) in *.
  set (geo := fun col => PyStr.mem (PyStr.lower col) Acs.geography_names)
    in *.
  assert (forall c, In c (List.filter
             (fun c => negb (PyStr.mem c (List.filter geo
                                            (map ren (columns df))))
                       || String.eqb c "ZIPCODE")
             (map ren (columns df)))
           <-> In c (map ren (columns df))
               /\ (geo c = false \/ c = "ZIPCODE")) as Hchar.
  { intros c. rewrite filter_In. split; intros [Hc Hk]; (split; [done|]).
    - apply orb_prop in Hk as [Hk|Hk%String.eqb_eq]; [|by right].
      left. destruct (geo c) eqn:Hg; [|done].
      apply negb_true_iff, mem_false in Hk. destruct Hk.
      by apply filter_In.
    - destruct Hk as [Hg| ->]; [|by rewrite String.eqb_refl, orb_true_r].
      apply orb_true_intro. left. apply negb_true_iff, mem_false.
      intros [_ Hg']%filter_In. congruence. }
  intros c. rewrite Hchar, in_map_iff. split.
  - intros [(x & Hx & Hxin) Hg]. unfold ren in Hx.
    destruct (String.eqb_spec x zc) as [Heq|Hne]; [by left|].
    destruct Hg as [Hg|?]; [|by left]. right. by rewrite <- Hx in *.
  - intros [->|(Hc & Hne & Hg)].
    + split; [|by right]. exists zc. split; [|done].
      unfold ren. by rewrite String.eqb_refl.
    + split; [|by left]. exists c. split; [|done].
      unfold ren. by destruct (String.eqb_spec c zc).
Qed.

Lemma clean_acs_data_labels_witness :
  In "B01001_001E"
    (columns (mkDF ["B01001_001E"; "ZIPCODE"] [[Str "12"; Str "64101"]])).
Proof.
  apply (clean_acs_data_labels (fun c => c)
           (mkDF ["B01001_001E"; "NAME"; "state"; "zip code tabulation area"]
              [[Str "12"; Str "ZCTA5 64101"; Str "29"; Str "64101"]])
           _ "zip code tabulation area" eq_refl eq_refl).
  right. split; [by left|]. split; [discriminate | reflexivity].
Defined.

Lemma clean_acs_data_rect to_numeric df out :
  Acs.clean_acs_data to_numeric df = Ok out ->
  rectangular df -> rectangular out.
Proof.
  intros Hrun Hrect.
  apply clean_acs_data_unfold in Hrun as (zc' & df3 & _ & Hco & _ & ->).
  apply assign_rectangular, dropna_rectangular.
  apply coerce_columns_spec in Hco as [? _]; [done|].
  apply drop_loop_spec. by apply rename_rectangular.
Qed.

Lemma canonical_zip_length c :
  exists s, canonical_zip c = Str s /\ 5 <= String.length s.
Proof.
  eexists. split; [reflexivity|].
  pose proof (zfill_length 5 (astype_str c)). lia.
Qed.

(** X9.  A cleaned table is rectangular, holds one row per input row with a
    present identifier, and each of its identifiers is a string of at
    least five characters. *)
Theorem clean_acs_data_identifiers (to_numeric : cell -> cell)
    (df out : DataFrame) (zc : string) :
  Acs.clean_acs_data to_numeric df = Ok out ->
  rectangular df ->
  Acs.find_zipcode_col (columns df) = Some zc ->
  rectangular out
  /\ length (rows out)
     = length (List.filter (fun x => negb (isna x)) (Pd.keys zc df))
  /\ Forall (fun k => exists s, k = Str s /\ 5 <= String.length s)
       (Pd.keys "ZIPCODE" out).
Proof.
  intros Hrun Hrect Hzc.
  pose proof (clean_acs_data_keys to_numeric df out zc Hrun Hrect Hzc)
    as Hkeys.
  split; [|split].
  - by eapply clean_acs_data_rect.
  - apply (f_equal (@length cell)) in Hkeys.
    unfold Pd.keys at 1 in Hkeys. by rewrite !length_map in Hkeys.
  - rewrite Hkeys. apply Forall_forall. intros k Hk%list_elem_of_In.
    apply in_map_iff in Hk as (c & <- & _). apply canonical_zip_length.
Qed.

Lemma clean_acs_data_identifiers_witness :
  length (rows (mkDF ["B01001_001E"; "ZIPCODE"]
                  [[Str "12"; Str "06410"]])) = 1.
Proof.
  apply (clean_acs_data_identifiers (fun c => c)
           (mkDF ["B01001_001E"; "ZCTA5"]
              [[Str "12"; Str "6410"]; [Str "7"; NaN]])
           _ "ZCTA5" eq_refl ltac:(repeat constructor) eq_refl).
Defined.

Lemma map_row_at_idem f c cols r :
  (forall x, f (f x) = f x) ->
  Pd.map_row_at f c cols (Pd.map_row_at f c cols r)
  = Pd.map_row_at f c cols r.
Proof.
  intros Hf. revert r. induction cols as [|k cols IH]; intros [|x r];
    simpl; try done.
  rewrite IH. by destruct (String.eqb k c); rewrite ?Hf.
Qed.

Lemma canonical_zip_idem c : canonical_zip (canonical_zip c) = canonical_zip c.
Proof.
  unfold canonical_zip. simpl. f_equal. apply zfill_long.
  pose proof (zfill_length 5 (astype_str c)). lia.
Qed.

(** X10.  Canonicalising twice is canonicalising once: the second
    canonicalisation, which [merge_with_boundaries] applies to the
    table it is given, leaves a cleaned table as it is. *)
Theorem canonicalize_cleaned (to_numeric : cell -> cell)
    (df out : DataFrame) :
  Acs.clean_acs_data to_numeric df = Ok out ->
  Acs.canonicalize out = Ok out.
Proof.
  intros Hrun.
  apply clean_acs_data_unfold in Hrun as (zc & df3 & _ & _ & Hone & ->).
  unfold Acs.canonicalize. cbn [Pd.assign Pd.dropna columns].
  rewrite (proj2 (the_column_Ok "ZIPCODE" (columns df3) _) Hone). simpl.
  f_equal. unfold Pd.assign. cbn [columns rows]. f_equal.
  rewrite map_map. apply map_ext. intros r.
  apply map_row_at_idem, canonical_zip_idem.
Qed.

Lemma canonicalize_cleaned_witness :
  Acs.canonicalize
    (mkDF ["B01001_001E"; "ZIPCODE"] [[Str "12"; Str "06410"]])
  = Ok (mkDF ["B01001_001E"; "ZIPCODE"] [[Str "12"; Str "06410"]]).
Proof.
  apply (canonicalize_cleaned (fun c => c)
           (mkDF ["B01001_001E"; "ZCTA5"] [[Str "12"; Str "6410"]])).
  reflexivity.
Defined.

(** ** The join with the boundaries and the run of the loader *)

Section loader_run.

Lemma count_not_label c cols :
  length (List.filter (Pd.not_label c) cols)
  + length (List.filter (String.eqb c) cols)
  = length cols.
Proof.
  induction cols as [|x l IH]; [done|]. simpl. unfold Pd.not_label at 1.
  rewrite (String.eqb_sym c x). destruct (String.eqb x c); simpl; lia.
Qed.

Lemma list_sum_ge_length {X} (f : X -> nat) (l : list X) :
  (forall x, 1 <= f x) -> length l <= list_sum (map f l).
Proof.
  intros Hf. induction l as [|x l IH]; [done|]. simpl.
  specialize (Hf x). lia.
Qed.

Lemma left_merge_rows_ge on sfx left right out :
  Pd.merge Pd.Left on sfx left right = Ok out ->
  length (rows left) <= length (rows out).
Proof.
  intros Hm. apply merge_unfold in Hm as (-> & _).
  unfold Pd.merge_rows. rewrite app_nil_r, flat_map_length_sum.
  apply list_sum_ge_length. intros l. rewrite join_left_row_length. lia.
Qed.

(** What a successful [merge_with_boundaries] presupposes and returns. *)
Lemma merge_with_boundaries_inv g acs_df merged :
  Acs.merge_with_boundaries g acs_df = Ok merged ->
  exists layers b,
    g = Some layers /\ layers !! "zipcodes" = Some b
    /\ length (List.filter (String.eqb "ZIPCODE") (columns b)) = 1
    /\ length (List.filter (String.eqb "ZIPCODE") (columns acs_df)) = 1
    /\ length (columns merged) + 1
       = length (columns b) + length (columns acs_df)
    /\ length (rows b) <= length (rows merged)
    /\ (rectangular b -> rectangular acs_df -> rectangular merged).
Proof.
  intros Hrun. destruct g as [layers|]; [|done].
  destruct (layers !! "zipcodes") as [b|] eqn:Hb;
    [|by unfold Acs.merge_with_boundaries, read_file in Hrun;
         rewrite Hb in Hrun].
  destruct (merge_with_boundaries_unfold _ _ _ _ Hb Hrun)
    as (b' & a' & Hcb & Hca & Hm).
  unfold Acs.canonicalize in Hcb, Hca.
  destruct (Pd.the_column "ZIPCODE" (columns b) _) as [[]|] eqn:Hub;
    [|done].
  destruct (Pd.the_column "ZIPCODE" (columns acs_df) _) as [[]|] eqn:Hua;
    [|done].
  simpl in Hcb, Hca. injection Hcb as <-. injection Hca as <-.
  apply the_column_Ok in Hub, Hua.
  exists layers, b. split; [done|]. split; [done|]. split; [done|].
  split; [done|].
  pose proof (left_merge_rows_ge _ _ _ _ _ Hm) as Hrows.
  pose proof (merge_rectangular _ _ _ _ _ _ Hm) as Hrect.
  apply merge_unfold in Hm as (_ & Hcols & _ & _).
  cbn [Pd.assign columns rows] in Hcols, Hrows.
  rewrite length_map in Hrows.
  pose proof (count_not_label "ZIPCODE" (columns acs_df)).
  split; [lia|]. split; [done|].
  intros Hrb Hra. apply Hrect; by apply assign_rectangular.
Qed.

End loader_run.

(** X11.  [merge_with_boundaries] returns only when the container exists and
    holds a [zipcodes] layer, and [ZIPCODE] labels exactly one column of
    that layer and of the statistical table.  The result then has the
    columns of both tables, the identifier once, at least as many rows
    as the boundary layer, and is rectangular when both tables are. *)
Theorem merge_with_boundaries_requirements (g : container)
    (acs_df merged : DataFrame) :
  Acs.merge_with_boundaries g acs_df = Ok merged ->
  exists layers b,
    g = Some layers /\ layers !! "zipcodes" = Some b
    /\ length (List.filter (String.eqb "ZIPCODE") (columns b)) = 1
    /\ length (List.filter (String.eqb "ZIPCODE") (columns acs_df)) = 1
    /\ length (columns merged) + 1
       = length (columns b) + length (columns acs_df)
    /\ length (rows b) <= length (rows merged)
    /\ (rectangular b -> rectangular acs_df -> rectangular merged).
Proof. apply merge_with_boundaries_inv. Qed.

Lemma merge_with_boundaries_requirements_witness :
  exists merged,
    Acs.merge_with_boundaries
      (Some {["zipcodes" := mkDF ["ZIPCODE"; "geometry"]
                              [[Str "64101"; Geom "POLYGON A"]]]})
      (mkDF ["ZIPCODE"; "B01001_001E"] [[Str "64101"; Num 12]])
    = Ok merged
    /\ length (columns merged) + 1 = 2 + 2
    /\ 1 <= length (rows merged).
Proof.
  eexists. split; [vm_compute; reflexivity|].
  lazymatch goal with
  | |- length (columns ?m) + 1 = _ /\ _ =>
      assert (Hrun :
        Acs.merge_with_boundaries
          (Some {["zipcodes" := mkDF ["ZIPCODE"; "geometry"]
                                  [[Str "64101"; Geom "POLYGON A"]]]})
          (mkDF ["ZIPCODE"; "B01001_001E"] [[Str "64101"; Num 12]])
        = Ok m) by (vm_compute; reflexivity)
  end.
  destruct (merge_with_boundaries_requirements _ _ _ Hrun)
    as (layers & b & H1 & H2 & _ & _ & H5 & H6 & _).
  injection H1 as <-. vm_compute in H2. injection H2 as <-.
  split; [exact H5 | exact H6].
Defined.

Section loader_main.

Variable to_numeric : cell -> cell.

Lemma set_column_rectangular c f df :
  rectangular df -> rectangular (Pd.set_column c f df).
Proof.
  unfold rectangular, Pd.set_column. intros Hrect.
  destruct (Pd.has_col c df); simpl; apply List.Forall_map;
    eapply List.Forall_impl; [| exact Hrect | | exact Hrect]; simpl.
  - intros r Hr. by rewrite map_row_at_length.
  - intros r Hr. rewrite !length_app. simpl. lia.
Qed.

Lemma keys_set_column_other c k f df :
  rectangular df -> In c (columns df) -> k <> c ->
  Pd.keys c (Pd.set_column k f df) = Pd.keys c df.
Proof.
  intros Hrect Hin Hne. unfold Pd.keys, Pd.set_column.
  destruct (Pd.has_col k df); simpl; rewrite map_map;
    apply map_ext_in; intros r Hr; unfold Pd.key_of.
  - rewrite get_map_row_at. by destruct (String.eqb_spec c k).
  - unfold rectangular in Hrect. rewrite List.Forall_forall in Hrect.
    rewrite get_app by by apply Hrect.
    by apply mem_In in Hin as ->.
Qed.

Lemma set_column_has_col c f df :
  In c (columns (Pd.set_column c f df)).
Proof.
  unfold Pd.set_column. destruct (Pd.has_col c df) eqn:Hc; simpl.
  - by apply mem_In.
  - apply in_or_app. right. by left.
Qed.

Lemma Acs_filtered_columns existing acs_df :
  columns (Acs_filtered existing acs_df) = columns acs_df.
Proof. by destruct existing as [[|z zs]|]. Qed.

Lemma Acs_filtered_rectangular existing acs_df :
  rectangular acs_df -> rectangular (Acs_filtered existing acs_df).
Proof.
  intros Hrect. destruct existing as [[|z zs]|]; try done.
  unfold rectangular, Acs_filtered. simpl.
  apply List.Forall_forall. intros r Hr. apply filter_In in Hr as [Hr _].
  unfold rectangular in Hrect. rewrite List.Forall_forall in Hrect.
  by apply Hrect.
Qed.

Lemma Acs_filtered_keys z zs acs_df k :
  In k (Pd.keys "ZIPCODE" (Acs_filtered (Some (z :: zs)) acs_df)) ->
  In k (z :: zs).
Proof.
  unfold Pd.keys, Acs_filtered. simpl. intros Hk.
  apply in_map_iff in Hk as (r & <- & Hr).
  apply filter_In in Hr as [_ Hr]. apply bool_decide_eq_true in Hr.
  by apply list_elem_of_In in Hr.
Qed.

Lemma main_inv w all_variables g' :
  Acs.main w to_numeric all_variables = Ok g' ->
  CENSUS_API_KEY w <> ""
  /\ exists raw cleaned merged,
       Acs.fetch_acs_data w all_variables 50 = Ok raw
       /\ Acs.clean_acs_data to_numeric raw = Ok cleaned
       /\ Acs.merge_with_boundaries (gpkg w)
            (Acs_filtered (Acs.load_existing_zipcodes (gpkg w)) cleaned)
          = Ok merged
       /\ g' = Acs.save_acs_data (gpkg w)
                 (Acs_filtered (Acs.load_existing_zipcodes (gpkg w)) cleaned)
                 merged.
Proof.
  unfold Acs.main. destruct (String.eqb_spec (CENSUS_API_KEY w) "");
    [done|].
  destruct (Acs.fetch_acs_data w all_variables 50) as [raw|] eqn:Hf;
    [|done].
  cbn [mbind result_bind].
  destruct (Acs.clean_acs_data to_numeric raw) as [cleaned|] eqn:Hc;
    [|done].
  cbn [mbind result_bind].
  fold (Acs_filtered (Acs.load_existing_zipcodes (gpkg w)) cleaned).
  destruct (Acs.merge_with_boundaries _ _) as [merged|] eqn:Hm; [|done].
  cbn [mbind result_bind]. intros [= <-]. split; [done|].
  by exists raw, cleaned, merged.
Qed.

Lemma load_existing_zipcodes_Some layers b :
  layers !! "zipcodes" = Some b ->
  length (List.filter (String.eqb "ZIPCODE") (columns b)) = 1 ->
  Acs.load_existing_zipcodes (Some layers)
  = Some (map canonical_zip (Pd.keys "ZIPCODE" b)).
Proof.
  intros Hb Hone. unfold Acs.load_existing_zipcodes, read_file.
  rewrite Hb. unfold Pd.has_col.
  assert (Hin : In "ZIPCODE" (columns b)).
  { destruct (List.filter _ _) as [|x l] eqn:Hf; [done|].
    assert (Hx : In x (List.filter (String.eqb "ZIPCODE") (columns b)))
      by (rewrite Hf; by left).
    apply filter_In in Hx as [Hx Heq]. apply String.eqb_eq in Heq.
    by subst. }
  apply mem_In in Hin as ->.
  unfold Pd.the_column.
  destruct (List.filter _ _) as [|x [|y l]]; try done.
  by rewrite <- map_map.
Qed.

End loader_main.

Lemma main_layers to_numeric w all_variables g' :
  Acs.main w to_numeric all_variables = Ok g' ->
  exists layers b cleaned merged,
    gpkg w = Some layers /\ layers !! "zipcodes" = Some b
    /\ length (List.filter (String.eqb "ZIPCODE") (columns b)) = 1
    /\ rectangular cleaned
    /\ In "ZIPCODE" (columns cleaned)
    /\ length (rows b) <= length (rows merged)
    /\ g' = Some (<["acs_data_table" :=
                      Pd.set_column "geometry" (fun _ => Geom "POINT (0 0)")
                        (Acs_filtered
                           (Some (map canonical_zip (Pd.keys "ZIPCODE" b)))
                           cleaned)]>
                    (<["acs_data" := merged]> layers)).
Proof.
  intros Hrun.
  apply main_inv in Hrun as (_ & raw & cleaned & merged & Hf & Hc & Hm & ->).
  pose proof (clean_acs_data_rect _ _ _ Hc (fetch_acs_data_rect _ _ _ _ Hf))
    as Hrect.
  destruct (merge_with_boundaries_inv _ _ _ Hm)
    as (layers & b & Hg & Hb & Hone & Hacs & _ & Hrows & _).
  exists layers, b, cleaned, merged.
  rewrite Hg in *. rewrite (load_existing_zipcodes_Some _ _ Hb Hone) in *.
  repeat split; try done.
  rewrite Acs_filtered_columns in Hacs.
  destruct (List.filter _ (columns cleaned)) as [|x l] eqn:Hx; [done|].
  assert (Hin : In x (List.filter (String.eqb "ZIPCODE") (columns cleaned)))
    by (rewrite Hx; by left).
  apply filter_In in Hin as [Hin Heq]. apply String.eqb_eq in Heq.
  by subst.
Qed.

(** X12.  A run of the loader that succeeds had a non-empty API key and a
    container with a [zipcodes] layer.  Afterwards that layer is
    unchanged, the layers [acs_data] and [acs_data_table] exist, the
    first has at least as many rows as the boundary layer, the second is
    rectangular with a [geometry] column, and every other layer reads
    as before. *)
Theorem main_result (w : world) (to_numeric : cell -> cell)
    (all_variables : list string) (g' : container) :
  Acs.main w to_numeric all_variables = Ok g' ->
  CENSUS_API_KEY w <> ""
  /\ exists layers b merged table,
       gpkg w = Some layers /\ layers !! "zipcodes" = Some b
       /\ read_file g' "zipcodes" = Ok b
       /\ read_file g' "acs_data" = Ok merged
       /\ read_file g' "acs_data_table" = Ok table
       /\ length (rows b) <= length (rows merged)
       /\ In "geometry" (columns table) /\ rectangular table
       /\ forall name, name <> "acs_data" -> name <> "acs_data_table" ->
            read_file g' name = read_file (gpkg w) name.
Proof.
  intros Hrun. split; [by apply main_inv in Hrun as [? _]|].
  apply main_layers in Hrun
    as (layers & b & cleaned & merged & Hg & Hb & _ & Hrect & _ & Hrows & ->).
  exists layers, b, merged. eexists.
  split; [done|]. split; [done|]. unfold read_file. rewrite Hg.
  split; [by rewrite !lookup_insert_ne, Hb|].
  split; [by rewrite lookup_insert_ne, lookup_insert_eq|].
  split; [by rewrite lookup_insert_eq|]. split; [done|].
  split; [apply set_column_has_col|].
  split; [by apply set_column_rectangular, Acs_filtered_rectangular|].
  intros name H1 H2. by rewrite !lookup_insert_ne.
Qed.

Lemma main_result_witness :
  Acs.main
    (mkWorld "key"
       (fun _ _ _ =>
          Json (JTable ["B01001_001E"; "zip code tabulation area"]
                  [[Str "12"; Str "64101"]; [Str "40"; Str "64199"]]))
       (Some {["zipcodes" := mkDF ["ZIPCODE"; "geometry"]
                               [[Str "64101"; Geom "POLYGON A"]]]}))
    (fun c => c) ["B01001_001E"]
  = Ok (Some (<["acs_data_table" :=
                  mkDF ["B01001_001E"; "ZIPCODE"; "geometry"]
                    [[Str "12"; Str "64101"; Geom "POINT (0 0)"]]]>
                (<["acs_data" :=
                     mkDF ["ZIPCODE"; "geometry"; "B01001_001E"]
                       [[Str "64101"; Geom "POLYGON A"; Str "12"]]]>
                   {["zipcodes" := mkDF ["ZIPCODE"; "geometry"]
                                     [[Str "64101"; Geom "POLYGON A"]]]})))
  /\ "key" <> "".
Proof.
  assert (Hrun :
    Acs.main
      (mkWorld "key"
         (fun _ _ _ =>
            Json (JTable ["B01001_001E"; "zip code tabulation area"]
                    [[Str "12"; Str "64101"]; [Str "40"; Str "64199"]]))
         (Some {["zipcodes" := mkDF ["ZIPCODE"; "geometry"]
                                 [[Str "64101"; Geom "POLYGON A"]]]}))
      (fun c => c) ["B01001_001E"]
    = Ok (Some (<["acs_data_table" :=
                    mkDF ["B01001_001E"; "ZIPCODE"; "geometry"]
                      [[Str "12"; Str "64101"; Geom "POINT (0 0)"]]]>
                  (<["acs_data" :=
                       mkDF ["ZIPCODE"; "geometry"; "B01001_001E"]
                         [[Str "64101"; Geom "POLYGON A"; Str "12"]]]>
                     {["zipcodes" := mkDF ["ZIPCODE"; "geometry"]
                                       [[Str "64101"; Geom "POLYGON A"]]]}))))
    by (vm_compute; reflexivity).
  exact (conj Hrun (proj1 (main_result _ _ _ _ Hrun))).
Defined.

(** X13.  When the boundary layer has at least one row, the table layer that
    a successful run stores holds only identifiers of the boundary
    layer, in canonical form. *)
Theorem main_filters_to_boundaries (w : world) (to_numeric : cell -> cell)
    (all_variables : list string) (g' : container)
    (layers : gmap string DataFrame) (b table : DataFrame) (k : cell) :
  Acs.main w to_numeric all_variables = Ok g' ->
  gpkg w = Some layers -> layers !! "zipcodes" = Some b ->
  rows b <> [] ->
  read_file g' "acs_data_table" = Ok table ->
  In k (Pd.keys "ZIPCODE" table) ->
  In k (map canonical_zip (Pd.keys "ZIPCODE" b)).
Proof.
  intros Hrun Hg Hb Hne Ht Hk.
  apply main_layers in Hrun
    as (layers' & b' & cleaned & merged & Hg' & Hb' & _ & Hrect & Hin & _ & ->).
  rewrite Hg in Hg'. injection Hg' as <-. rewrite Hb in Hb'.
  injection Hb' as <-.
  unfold read_file in Ht. rewrite lookup_insert_eq in Ht.
  apply (f_equal (fun r => match r with Ok x => x | Raise _ => table end))
    in Ht.
  cbv beta iota in Ht. subst table.
  rewrite keys_set_column_other in Hk;
    [| by apply Acs_filtered_rectangular
     | by rewrite Acs_filtered_columns | done].
  destruct (map canonical_zip (Pd.keys "ZIPCODE" b)) as [|z zs] eqn:Hzs.
  - unfold Pd.keys in Hzs. destruct (rows b); [done|discriminate].
  - by apply Acs_filtered_keys in Hk.
Qed.

Lemma main_filters_to_boundaries_witness :
  In (Str "64101")
    (map canonical_zip
       (Pd.keys "ZIPCODE"
          (mkDF ["ZIPCODE"; "geometry"] [[Num 64101; Geom "POLYGON A"]]))).
Proof.
  apply (main_filters_to_boundaries
    (mkWorld "key"
       (fun _ _ _ =>
          Json (JTable ["B01001_001E"; "zip code tabulation area"]
                  [[Str "12"; Str "64101"]; [Str "40"; Str "64199"]]))
       (Some {["zipcodes" := mkDF ["ZIPCODE"; "geometry"]
                               [[Num 64101; Geom "POLYGON A"]]]}))
    (fun c => c) ["B01001_001E"]
    (Some (<["acs_data_table" :=
               mkDF ["B01001_001E"; "ZIPCODE"; "geometry"]
                 [[Str "12"; Str "64101"; Geom "POINT (0 0)"]]]>
             (<["acs_data" :=
                  mkDF ["ZIPCODE"; "geometry"; "B01001_001E"]
                    [[Str "64101"; Geom "POLYGON A"; Str "12"]]]>
                {["zipcodes" := mkDF ["ZIPCODE"; "geometry"]
                                  [[Num 64101; Geom "POLYGON A"]]]})))
    {["zipcodes" := mkDF ["ZIPCODE"; "geometry"]
                      [[Num 64101; Geom "POLYGON A"]]]}
    (mkDF ["ZIPCODE"; "geometry"] [[Num 64101; Geom "POLYGON A"]])
    (mkDF ["B01001_001E"; "ZIPCODE"; "geometry"]
       [[Str "12"; Str "64101"; Geom "POINT (0 0)"]])).
  - vm_compute. reflexivity.
  - reflexivity.
  - vm_compute. reflexivity.
  - discriminate.
  - vm_compute. reflexivity.
  - left. reflexivity.
Defined.

(** ** The boundary loader: downloads *)

Section downloads.

Lemma prefix_refl s : String.prefix s s = true.
Proof.
  induction s as [|c s IH]; [done|]. simpl.
  by destruct (ascii_dec c c).
Qed.

Lemma contains_suffix p s : PyStr.contains (p +:+ s) s = true.
Proof.
  induction p as [|c p IH].
  - rewrite append_nil. destruct s as [|a s]; [done|].
    change (PyStr.contains (String a s) (String a s))
      with (String.prefix (String a s) (String a s)
            || PyStr.contains s (String a s)).
    by rewrite prefix_refl.
  - rewrite append_cons.
    change (PyStr.contains (String c (p +:+ s)) s)
      with (String.prefix s (String c (p +:+ s))
            || PyStr.contains (p +:+ s) s).
    rewrite IH. apply orb_true_r.
Qed.

Lemma append_cancel_l p a b : p +:+ a = p +:+ b -> a = b.
Proof.
  induction p as [|c p IH]; [by rewrite !append_nil|].
  rewrite !append_cons. intros [= H]. by apply IH.
Qed.

Lemma append_assoc' a b c : (a +:+ b) +:+ c = a +:+ (b +:+ c).
Proof.
  induction a as [|x a IH]; [by rewrite !append_nil|].
  by rewrite !append_cons, IH.
Qed.

End downloads.

Local Ltac dl_some n t m tm :=
  exists n, t; split; [lia|]; split; [assumption|];
  split; [auto|]; split; [intros; (lia || reflexivity)|];
  intros Ht;
  first [discriminate Ht
        | exists m, tm; split; [lia|assumption] ].

(** X14.  [download_tiger_file] asks at most three times.  A file it returns
    was delivered by one of the attempts 0, 1, 2, asked with a read
    timeout of 300 or 600 seconds; the first attempt uses 300, and 600 is
    used only after an earlier attempt timed out.  When it gives up, none
    of the three attempts delivered a file. *)
Theorem download_tiger_file_attempts (w : Tiger.world) (url : string) :
  match Tiger.download_tiger_file w url with
  | Some f =>
      exists n t,
        n < 3 /\ Tiger.try_download w url n t = Tiger.Downloaded f
        /\ (t = 300%Z \/ t = 600%Z)
        /\ (n = 0 -> t = 300%Z)
        /\ (t = 600%Z ->
            exists m t', m < n
              /\ Tiger.try_download w url m t' = Tiger.Timeout)
  | None =>
      forall n, n < 3 ->
        exists t, (t = 300%Z \/ t = 600%Z)
          /\ forall f, Tiger.try_download w url n t <> Tiger.Downloaded f
  end.
Proof.
  unfold Tiger.download_tiger_file. cbn.
  destruct (Tiger.try_download w url 0 300) as [f0| |] eqn:H0;
    [dl_some 0 300%Z 0 300%Z| |];
    (destruct (Tiger.try_download w url 1 _) as [f1| |] eqn:H1;
     [dl_some 1 300%Z 0 300%Z || dl_some 1 600%Z 0 300%Z| |]);
    (destruct (Tiger.try_download w url 2 _) as [f2| |] eqn:H2;
     [first [dl_some 2 300%Z 0 300%Z | dl_some 2 600%Z 0 300%Z
            | dl_some 2 600%Z 1 300%Z]| |]);
    (intros [|[|[|n]]] Hn; [| | |lia]);
    (first [exists 300%Z; split; [by left|]; intros f; congruence
           |exists 600%Z; split; [by right|]; intros f; congruence]).
Qed.

(** X15.  When the archive of the configured year is on disk, the boundary
    loader makes no request: its result is the same whatever the
    network would answer. *)
Theorem archive_on_disk_no_download (w : Tiger.world) (year : Z)
    (get' : string -> nat -> Z -> Tiger.attempt) (f : Tiger.file) :
  Tiger.fs w !! Tiger.raw_path (Tiger.tiger_file_name year) = Some f ->
  Tiger.extract_zipcode_boundaries
    (Tiger.mkWorld (Tiger.fs w) get' (Tiger.in_bounds w)
       (Tiger.reproject w) (Tiger.gpkg w)) year
  = Tiger.extract_zipcode_boundaries w year.
Proof.
  intros Hfs. unfold Tiger.extract_zipcode_boundaries, Tiger.acquire.
  simpl. by rewrite Hfs.
Qed.

Lemma archive_on_disk_no_download_witness :
  Tiger.extract_zipcode_boundaries
    (Tiger.mkWorld
       {[Tiger.raw_path (Tiger.tiger_file_name 2025) := Tiger.Archive []]}
       (fun _ _ _ => Tiger.Failed) (fun _ => true) (fun _ g => g) None)
    2025
  = Tiger.extract_zipcode_boundaries
      (Tiger.mkWorld
         {[Tiger.raw_path (Tiger.tiger_file_name 2025) := Tiger.Archive []]}
         (fun _ _ _ => Tiger.Timeout) (fun _ => true) (fun _ g => g) None)
      2025.
Proof.
  pose proof (archive_on_disk_no_download
           (Tiger.mkWorld
              {[Tiger.raw_path (Tiger.tiger_file_name 2025)
                  := Tiger.Archive []]}
              (fun _ _ _ => Tiger.Timeout) (fun _ => true) (fun _ g => g)
              None)
           2025 (fun _ _ _ => Tiger.Failed) (Tiger.Archive [])) as H.
  cbn [Tiger.fs Tiger.in_bounds Tiger.reproject Tiger.gpkg] in H.
  apply H. vm_compute. reflexivity.
Defined.

(** X16.  When the archive is not on disk, the download fails and the
    configured year is 2020 or earlier, no other year is tried and the
    exception names the URL that failed. *)
Theorem single_download_fails (w : Tiger.world) (year : Z) :
  Tiger.fs w !! Tiger.raw_path (Tiger.tiger_file_name year) = None ->
  Tiger.download_tiger_file w (Tiger.tiger_url_of year) = None ->
  (year <= 2020)%Z ->
  exists msg,
    Tiger.extract_zipcode_boundaries w year = Raise (Exception msg)
    /\ PyStr.contains msg (Tiger.tiger_url_of year) = true
    /\ forall get',
         get' (Tiger.tiger_url_of year) = Tiger.try_download w
                                            (Tiger.tiger_url_of year) ->
         Tiger.extract_zipcode_boundaries
           (Tiger.mkWorld (Tiger.fs w) get' (Tiger.in_bounds w)
              (Tiger.reproject w) (Tiger.gpkg w)) year
         = Raise (Exception msg).
Proof.
  intros Hfs Hd Hy. eexists. split; [|split].
  - unfold Tiger.extract_zipcode_boundaries, Tiger.acquire.
    rewrite Hfs, Hd. destruct (Z.ltb_spec 2020 year); [lia|]. reflexivity.
  - apply contains_suffix.
  - intros get' Hget.
    unfold Tiger.extract_zipcode_boundaries, Tiger.acquire. simpl.
    rewrite Hfs.
    assert (Tiger.download_tiger_file
              (Tiger.mkWorld (Tiger.fs w) get' (Tiger.in_bounds w)
                 (Tiger.reproject w) (Tiger.gpkg w))
              (Tiger.tiger_url_of year) = None) as ->.
    { rewrite <- Hd. unfold Tiger.download_tiger_file. cbn. rewrite !Hget.
      done. }
    destruct (Z.ltb_spec 2020 year); [lia|]. reflexivity.
Qed.

Lemma single_download_fails_witness :
  exists msg,
    Tiger.extract_zipcode_boundaries
      (Tiger.mkWorld ∅ (fun _ _ _ => Tiger.Timeout) (fun _ => true)
         (fun _ g => g) None) 2020
    = Raise (Exception msg)
    /\ PyStr.contains msg (Tiger.tiger_url_of 2020) = true.
Proof.
  destruct (single_download_fails
              (Tiger.mkWorld ∅ (fun _ _ _ => Tiger.Timeout) (fun _ => true)
                 (fun _ g => g) None) 2020)
    as (msg & H1 & H2 & _); [reflexivity | reflexivity | lia |].
  by exists msg.
Defined.

(** ** The boundary loader: extraction and the stored layer *)

Section extraction.

(** The path under which the shapefile is looked up. *)
Local Abbreviation shp_name year :=
  ("tl_" +:+ @pretty Z _ year +:+ "_us_zcta520.shp").
Local Abbreviation shp_path_of year :=
  (Tiger.extract_dir +:+ "/tl_" +:+ @pretty Z _ year +:+ "_us_zcta520.shp").

Lemma shp_path_member year :
  shp_path_of year = Tiger.extract_dir +:+ "/" +:+ shp_name year.
Proof. done. Qed.

Lemma shp_path_not_archive (year year' : Z) :
  shp_path_of year <> Tiger.raw_path (Tiger.tiger_file_name year').
Proof.
  unfold Tiger.extract_dir, Tiger.raw_path. rewrite !append_assoc'.
  intros H. apply append_cancel_l in H.
  unfold Tiger.tiger_file_name in H. by rewrite !append_cons in H.
Qed.

Lemma extracted_lookup (files : gmap string Tiger.file)
    (members : list (string * Tiger.shapefile)) (name : string) :
  foldr (fun m acc =>
           <[Tiger.extract_dir +:+ "/" +:+ m.1 := Tiger.Shapefile m.2]> acc)
    files members !! (Tiger.extract_dir +:+ "/" +:+ name)
  = match find (fun m => String.eqb m.1 name) members with
    | Some m => Some (Tiger.Shapefile m.2)
    | None => files !! (Tiger.extract_dir +:+ "/" +:+ name)
    end.
Proof.
  induction members as [|m members IH]; [done|]. simpl.
  destruct (String.eqb_spec m.1 name) as [->|Hne].
  - by rewrite lookup_insert_eq.
  - rewrite lookup_insert_ne; [done|].
    intros H. apply append_cancel_l, append_cancel_l in H. done.
Qed.

Lemma extracted_None (files : gmap string Tiger.file)
    (members : list (string * Tiger.shapefile)) (name : string) :
  (forall m, In m members -> m.1 <> name) ->
  foldr (fun m acc =>
           <[Tiger.extract_dir +:+ "/" +:+ m.1 := Tiger.Shapefile m.2]> acc)
    files members !! (Tiger.extract_dir +:+ "/" +:+ name)
  = files !! (Tiger.extract_dir +:+ "/" +:+ name).
Proof.
  intros Hno. rewrite extracted_lookup.
  destruct (find _ members) as [m|] eqn:Hf; [|done].
  apply find_some in Hf as [Hin Heq]. apply String.eqb_eq in Heq.
  by destruct (Hno m Hin).
Qed.

Lemma extracted_Some (files : gmap string Tiger.file)
    (members : list (string * Tiger.shapefile)) (name : string)
    (f : Tiger.file) :
  files !! (Tiger.extract_dir +:+ "/" +:+ name) = None ->
  foldr (fun m acc =>
           <[Tiger.extract_dir +:+ "/" +:+ m.1 := Tiger.Shapefile m.2]> acc)
    files members !! (Tiger.extract_dir +:+ "/" +:+ name) = Some f ->
  exists shp, f = Tiger.Shapefile shp /\ In (name, shp) members.
Proof.
  intros Hnone. rewrite extracted_lookup.
  destruct (find _ members) as [m|] eqn:Hf; [|by rewrite Hnone].
  apply find_some in Hf as [Hin Heq]. apply String.eqb_eq in Heq.
  intros [= <-]. exists m.2. split; [done|]. rewrite <- Heq.
  by destruct m.
Qed.

(** The files after the acquisition differ from the files before it at
    most at the path of an archive. *)
Lemma acquire_files w year files zip_path :
  Tiger.acquire w year = Ok (files, zip_path) ->
  files !! shp_path_of year = Tiger.fs w !! shp_path_of year.
Proof.
  unfold Tiger.acquire.
  destruct (Tiger.fs w !! _) as [f|]; [by intros [= <- <-]|].
  destruct (Tiger.download_tiger_file w (Tiger.tiger_url_of year))
    as [f|]; [intros [= <- <-]|].
  { rewrite lookup_insert_ne; [done|].
    intros H. by apply (shp_path_not_archive year year). }
  destruct (2020 <? year)%Z; [|done].
  destruct (Tiger.download_tiger_file w _) as [f|]; [|done].
  intros [= <- <-]. rewrite lookup_insert_ne; [done|].
  intros H. by apply (shp_path_not_archive year (year - 1)).
Qed.

Lemma acquire_archive w year files zip_path members :
  Tiger.acquire w year = Ok (files, zip_path) ->
  files !! zip_path = Some (Tiger.Archive members) ->
  Tiger.fs w !! Tiger.raw_path (Tiger.tiger_file_name year)
  = Some (Tiger.Archive members)
  \/ Tiger.download_tiger_file w (Tiger.tiger_url_of year)
     = Some (Tiger.Archive members)
  \/ Tiger.download_tiger_file w (Tiger.tiger_url_of (year - 1))
     = Some (Tiger.Archive members).
Proof.
  unfold Tiger.acquire.
  destruct (Tiger.fs w !! _) as [f|] eqn:Hfs.
  { intros [= <- <-] H. left. by rewrite <- H. }
  destruct (Tiger.download_tiger_file w (Tiger.tiger_url_of year))
    as [f|]; [intros [= <- <-]|].
  { rewrite lookup_insert_eq. intros [= ->]. by right; left. }
  destruct (2020 <? year)%Z; [|done].
  destruct (Tiger.download_tiger_file w _) as [f|]; [|done].
  intros [= <- <-]. rewrite lookup_insert_eq. intros [= ->].
  by right; right.
Qed.

Lemma filter_map_length {X Y} (p : Y -> bool) (g : X -> Y) (l : list X) :
  length (List.filter (fun x => p (g x)) l)
  = length (List.filter p (map g l)).
Proof.
  induction l as [|x l IH]; [done|]. simpl.
  destruct (p (g x)); simpl; by rewrite IH.
Qed.

Lemma select_labels_Ok labels df out :
  Pd.select_labels labels df = Ok out ->
  (forall c, In c labels -> In c (columns df))
  /\ (forall c, In c (columns out) <-> In c labels)
  /\ length (rows out) = length (rows df)
  /\ (rectangular df -> rectangular out).
Proof.
  unfold Pd.select_labels.
  destruct (find _ labels) as [c|] eqn:Hf; [done|]. intros [= <-].
  assert (Hall : forall c, In c labels -> In c (columns df)).
  { intros c Hc. pose proof (find_none _ _ Hf c Hc) as H. simpl in H.
    apply negb_false_iff in H. by apply mem_In. }
  split; [done|]. split; [|split].
  - intros c. simpl. rewrite in_flat_map. split.
    + intros (l & Hl & Hc). apply filter_In in Hc as [_ Heq].
      apply String.eqb_eq in Heq. by subst.
    + intros Hc. exists c. split; [done|]. apply filter_In.
      split; [by apply Hall | apply String.eqb_refl].
  - simpl. by rewrite length_map.
  - unfold rectangular. simpl. intros Hrect.
    apply List.Forall_map. eapply List.Forall_impl; [|exact Hrect].
    simpl. intros r Hr. clear Hf Hall.
    induction labels as [|l labels IH]; [done|]. simpl.
    rewrite !length_app, IH. f_equal. by apply select_row_length.
Qed.

Lemma normalize_zipcode_column_Ok gdf out :
  Tiger.normalize_zipcode_column gdf = Ok out ->
  rows out = rows gdf /\ (rectangular gdf -> rectangular out).
Proof.
  rewrite normalize_zipcode_column_resolve.
  destruct (Tiger.resolve_zipcode_col _) as [c|]; [|done].
  intros [= <-]. split; [done|]. apply rename_rectangular.
Qed.

Lemma extract_zipcode_boundaries_inv w year g' :
  Tiger.extract_zipcode_boundaries w year = Ok g' ->
  exists shp out,
    (Tiger.fs w !! shp_path_of year = Some (Tiger.Shapefile shp)
     \/ (Tiger.fs w !! shp_path_of year = None
         /\ exists members,
              In (shp_name year, shp) members
              /\ (Tiger.fs w !! Tiger.raw_path (Tiger.tiger_file_name year)
                  = Some (Tiger.Archive members)
                  \/ Tiger.download_tiger_file w (Tiger.tiger_url_of year)
                     = Some (Tiger.Archive members)
                  \/ Tiger.download_tiger_file w
                       (Tiger.tiger_url_of (year - 1))
                     = Some (Tiger.Archive members))))
    /\ g' = to_file (Tiger.gpkg w) "zipcodes" out
    /\ length (rows out)
       = length (List.filter (Tiger.in_bounds w)
                   (Pd.keys "geometry" (Tiger.shp_table shp)))
    /\ (forall c, In c (columns out) <->
          c = "ZIPCODE" \/ c = "geometry"
          \/ (In c Tiger.metadata_columns
              /\ In c (columns (Tiger.shp_table shp))))
    /\ (rectangular (Tiger.shp_table shp) -> rectangular out).
Proof.
  unfold Tiger.extract_zipcode_boundaries.
  destruct (Tiger.acquire w year) as [[files zip_path]|] eqn:Hacq; [|done].
  cbn [mbind result_bind].
  pose proof (acquire_files _ _ _ _ Hacq) as Hshp.
  set (shp_path := shp_path_of year) in *.
  destruct (match files !! shp_path with
            | Some _ => Ok files
            | None => Tiger.extractall files zip_path
            end) as [files'|] eqn:Hex; [|done].
  cbn [mbind result_bind]. unfold Tiger.read_shapefile.
  destruct (files' !! shp_path) as [[|shp]|] eqn:Hread; try done.
  cbn [mbind result_bind].
  set (tbl := Tiger.shp_table shp).
  set (flt := mkDF (columns tbl) (List.filter _ (rows tbl))).
  set (prj := if negb _ then Pd.assign _ _ flt else flt).
  destruct (Tiger.normalize_zipcode_column prj) as [norm|] eqn:Hnorm;
    [|done].
  cbn [mbind result_bind].
  destruct (Pd.select_labels _ norm) as [out|] eqn:Hsel; [|done].
  cbn [mbind result_bind]. intros [= <-].
  exists shp, out.
  assert (Hprov :
    Tiger.fs w !! shp_path = Some (Tiger.Shapefile shp)
    \/ (Tiger.fs w !! shp_path = None
        /\ exists members,
             In (shp_name year, shp) members
             /\ (Tiger.fs w !! Tiger.raw_path (Tiger.tiger_file_name year)
                 = Some (Tiger.Archive members)
                 \/ Tiger.download_tiger_file w (Tiger.tiger_url_of year)
                    = Some (Tiger.Archive members)
                 \/ Tiger.download_tiger_file w
                      (Tiger.tiger_url_of (year - 1))
                    = Some (Tiger.Archive members)))).
  { rewrite <- Hshp. destruct (files !! shp_path) as [f|] eqn:Hf.
    - injection Hex as <-. left. by rewrite <- Hread, Hf.
    - right. split; [done|]. unfold Tiger.extractall in Hex.
      destruct (files !! zip_path) as [[members|]|] eqn:Hzip; try done.
      injection Hex as <-. exists members.
      split; [|by eapply acquire_archive].
      unfold shp_path in *. rewrite shp_path_member in *.
      apply extracted_Some in Hread as (shp' & [= <-] & Hin); done. }
  pose proof (normalize_zipcode_column_Ok _ _ Hnorm) as [Hrows Hrn].
  pose proof (select_labels_Ok _ _ _ Hsel) as (Hall & Hcols & Hlen & Hrs).
  assert (Hprj_rows : length (rows prj) = length (rows flt)).
  { unfold prj. destruct (negb _); [|done]. simpl. by rewrite length_map. }
  assert (Hprj_rect : rectangular tbl -> rectangular prj).
  { intros Hrect.
    assert (rectangular flt).
    { unfold rectangular, flt. simpl. apply List.Forall_forall.
      intros r Hr. apply filter_In in Hr as [Hr _].
      unfold rectangular in Hrect. rewrite List.Forall_forall in Hrect.
      by apply Hrect. }
    unfold prj. destruct (negb _); [by apply assign_rectangular|done]. }
  assert (Hprj_cols : columns prj = columns (Tiger.shp_table shp)).
  { unfold prj. by destruct (negb _). }
  split; [done|]. split; [done|]. split; [|split].
  - rewrite Hlen, Hrows, Hprj_rows. unfold flt, Pd.keys. simpl.
    apply (filter_map_length (Tiger.in_bounds w)).
  - intros c. rewrite Hcols, in_app_iff, filter_In.
    unfold Pd.has_col. rewrite mem_In.
    split.
    + intros [[<-|[<-|[]]]|[Hm Hc]]; [by left | by right; left |].
      right. right. split; [done|].
      rewrite normalize_zipcode_column_resolve in Hnorm.
      destruct (Tiger.resolve_zipcode_col _) as [zc|]; [|done].
      injection Hnorm as <-. simpl in Hc. apply in_map_iff in Hc
        as (x & Hx & Hin). rewrite <- Hprj_cols.
      destruct (String.eqb x zc); [|by subst].
      subst c. by repeat destruct Hm as [Hm|Hm].
    + intros [->|[->|[Hm Hc]]];
        [left; by left | left; right; by left |].
      right. split; [done|].
      rewrite normalize_zipcode_column_resolve in Hnorm.
      destruct (Tiger.resolve_zipcode_col _) as [zc|] eqn:Hzc; [|done].
      injection Hnorm as <-. simpl. apply in_map_iff. exists c.
      rewrite Hprj_cols. split; [|done].
      destruct (String.eqb_spec c zc) as [->|]; [|done].
      exfalso. clear -Hm Hzc. unfold Tiger.resolve_zipcode_col in Hzc.
      repeat (match type of Hzc with
              | (if ?b then _ else _) = _ => destruct b
              end; [injection Hzc as <-;
                    by repeat destruct Hm as [Hm|Hm]|]).
      destruct (List.filter Tiger.looks_like_zipcode (columns prj))
        as [|x l] eqn:Hf; [discriminate Hzc|].
      injection Hzc as ->.
      assert (Hx : In zc (List.filter Tiger.looks_like_zipcode
                            (columns prj))) by (rewrite Hf; by left).
      apply filter_In in Hx as [_ Hx].
      repeat destruct Hm as [<-|Hm]; try done; by vm_compute in Hx.
  - intros Hrect. by apply Hrs, Hrn, Hprj_rect.
Qed.

End extraction.

(** X17.  After the download of the prior year succeeded, the shapefile is
    still looked up under the name of the configured year.  When the
    archive has no member of that name, and no such shapefile was
    extracted before, the run ends with a read error for that path. *)
Theorem fallback_archive_not_read (w : Tiger.world) (year : Z)
    (members : list (string * Tiger.shapefile)) :
  Tiger.fs w !! Tiger.raw_path (Tiger.tiger_file_name year) = None ->
  Tiger.download_tiger_file w (Tiger.tiger_url_of year) = None ->
  (2020 < year)%Z ->
  Tiger.download_tiger_file w (Tiger.tiger_url_of (year - 1))
  = Some (Tiger.Archive members) ->
  Tiger.fs w !! (Tiger.extract_dir +:+ "/tl_" +:+ pretty year
                 +:+ "_us_zcta520.shp") = None ->
  (forall m, In m members ->
     m.1 <> "tl_" +:+ pretty year +:+ "_us_zcta520.shp") ->
  Tiger.extract_zipcode_boundaries w year
  = Raise (DataSourceError (Tiger.extract_dir +:+ "/tl_" +:+ pretty year
                            +:+ "_us_zcta520.shp")).
Proof.
  intros Hfs Hd1 Hy Hd2 Hshp Hno.
  unfold Tiger.extract_zipcode_boundaries, Tiger.acquire.
  rewrite Hfs, Hd1, Hd2. destruct (Z.ltb_spec 2020 year); [|lia].
  cbn [mbind result_bind].
  rewrite lookup_insert_ne, Hshp
    by (intros H'; by apply (shp_path_not_archive year (year - 1))).
  unfold Tiger.extractall. rewrite lookup_insert_eq.
  cbn [mbind result_bind]. unfold Tiger.read_shapefile.
  rewrite shp_path_member, extracted_None by done.
  rewrite <- shp_path_member.
  rewrite lookup_insert_ne, Hshp
    by (intros H'; by apply (shp_path_not_archive year (year - 1))).
  done.
Qed.

Lemma fallback_archive_not_read_witness :
  Tiger.extract_zipcode_boundaries
    (Tiger.mkWorld ∅
       (fun url _ _ =>
          if String.eqb url (Tiger.tiger_url_of 2024)
          then Tiger.Downloaded
                 (Tiger.Archive
                    [("tl_2024_us_zcta520.shp",
                      Tiger.mkShp None
                        (mkDF ["ZCTA5CE20"; "geometry"]
                           [[Str "64101"; Geom "POLYGON A"]]))])
          else Tiger.Failed)
       (fun _ => true) (fun _ g => g) None)
    2025
  = Raise (DataSourceError
             "data/raw/census/tiger_zcta/tl_2025_us_zcta520.shp").
Proof.
  apply (fallback_archive_not_read
    (Tiger.mkWorld ∅
       (fun url _ _ =>
          if String.eqb url (Tiger.tiger_url_of 2024)
          then Tiger.Downloaded
                 (Tiger.Archive
                    [("tl_2024_us_zcta520.shp",
                      Tiger.mkShp None
                        (mkDF ["ZCTA5CE20"; "geometry"]
                           [[Str "64101"; Geom "POLYGON A"]]))])
          else Tiger.Failed)
       (fun _ => true) (fun _ g => g) None)
    2025
    [("tl_2024_us_zcta520.shp",
      Tiger.mkShp None
        (mkDF ["ZCTA5CE20"; "geometry"]
           [[Str "64101"; Geom "POLYGON A"]]))]).
  - reflexivity.
  - vm_compute. reflexivity.
  - lia.
  - vm_compute. reflexivity.
  - reflexivity.
  - intros m [<-|[]]. vm_compute. discriminate.
Defined.

(** X18.  A run of the boundary loader that succeeds read a shapefile that
    was on disk under the configured year's name, or a member of that
    name of an archive that was on disk or was downloaded for the
    configured or the prior year.  It replaces the [zipcodes] layer and leaves the
    other layers alone.  The stored table has one row for each row of
    the shapefile whose geometry meets the bounding box; its labels are
    [ZIPCODE], [geometry] and those of the four metadata labels that the
    shapefile has; it is rectangular when the shapefile's table is. *)
Theorem extract_zipcode_boundaries_layer (w : Tiger.world) (year : Z)
    (g' : container) :
  Tiger.extract_zipcode_boundaries w year = Ok g' ->
  exists shp out,
    (Tiger.fs w !! (Tiger.extract_dir +:+ "/tl_" +:+ pretty year
                    +:+ "_us_zcta520.shp") = Some (Tiger.Shapefile shp)
     \/ (Tiger.fs w !! (Tiger.extract_dir +:+ "/tl_" +:+ pretty year
                        +:+ "_us_zcta520.shp") = None
         /\ exists members,
              In ("tl_" +:+ pretty year +:+ "_us_zcta520.shp", shp)
                members
              /\ (Tiger.fs w !! Tiger.raw_path (Tiger.tiger_file_name year)
                  = Some (Tiger.Archive members)
                  \/ Tiger.download_tiger_file w (Tiger.tiger_url_of year)
                     = Some (Tiger.Archive members)
                  \/ Tiger.download_tiger_file w
                       (Tiger.tiger_url_of (year - 1))
                     = Some (Tiger.Archive members))))
    /\ read_file g' "zipcodes" = Ok out
    /\ (forall name, name <> "zipcodes" ->
          read_file g' name = read_file (Tiger.gpkg w) name)
    /\ length (rows out)
       = length (List.filter (Tiger.in_bounds w)
                   (Pd.keys "geometry" (Tiger.shp_table shp)))
    /\ (forall c, In c (columns out) <->
          c = "ZIPCODE" \/ c = "geometry"
          \/ (In c Tiger.metadata_columns
              /\ In c (columns (Tiger.shp_table shp))))
    /\ (rectangular (Tiger.shp_table shp) -> rectangular out).
Proof.
  intros Hrun. apply extract_zipcode_boundaries_inv in Hrun
    as (shp & out & Hprov & -> & Hlen & Hcols & Hrect).
  exists shp, out. split; [done|]. unfold read_file, to_file.
  split; [by rewrite lookup_insert_eq|].
  split; [|done]. intros name Hne. rewrite lookup_insert_ne by done.
  destruct (Tiger.gpkg w) as [layers|]; [done|]. simpl.
  by rewrite lookup_empty.
Qed.

Lemma extract_zipcode_boundaries_layer_witness :
  Tiger.extract_zipcode_boundaries
      (Tiger.mkWorld
         {[Tiger.raw_path (Tiger.tiger_file_name 2025) :=
             Tiger.Archive
               [("tl_2025_us_zcta520.shp",
                 Tiger.mkShp None
                   (mkDF ["ZCTA5CE20"; "GEOID20"; "ALAND20"; "geometry"]
                      [[Str "64101"; Str "64101"; Num 7; Geom "POLYGON A"];
                       [Str "10001"; Str "10001"; Num 9;
                        Geom "POLYGON B"]]))]]}
         (fun _ _ _ => Tiger.Failed)
         (fun x => match x with Geom "POLYGON A" => true | _ => false end)
         (fun _ x => x) None)
      2025
  = Ok (Some {["zipcodes" :=
                  mkDF ["ZIPCODE"; "geometry"; "GEOID20"]
                    [[Str "64101"; Geom "POLYGON A"; Str "64101"]]]})
  /\ exists out,
       read_file
         (Some {["zipcodes" :=
                  mkDF ["ZIPCODE"; "geometry"; "GEOID20"]
                    [[Str "64101"; Geom "POLYGON A"; Str "64101"]]]})
         "zipcodes" = Ok out
       /\ (rectangular
             (mkDF ["ZCTA5CE20"; "GEOID20"; "ALAND20"; "geometry"]
                [[Str "64101"; Str "64101"; Num 7; Geom "POLYGON A"];
                 [Str "10001"; Str "10001"; Num 9; Geom "POLYGON B"]]) ->
           rectangular out).
Proof.
  assert (Hrun :
    Tiger.extract_zipcode_boundaries
      (Tiger.mkWorld
         {[Tiger.raw_path (Tiger.tiger_file_name 2025) :=
             Tiger.Archive
               [("tl_2025_us_zcta520.shp",
                 Tiger.mkShp None
                   (mkDF ["ZCTA5CE20"; "GEOID20"; "ALAND20"; "geometry"]
                      [[Str "64101"; Str "64101"; Num 7; Geom "POLYGON A"];
                       [Str "10001"; Str "10001"; Num 9;
                        Geom "POLYGON B"]]))]]}
         (fun _ _ _ => Tiger.Failed)
         (fun x => match x with Geom "POLYGON A" => true | _ => false end)
         (fun _ x => x) None)
      2025
    = Ok (Some {["zipcodes" :=
                  mkDF ["ZIPCODE"; "geometry"; "GEOID20"]
                    [[Str "64101"; Geom "POLYGON A"; Str "64101"]]]}))
    by (vm_compute; reflexivity).
  split; [exact Hrun|].
  destruct (extract_zipcode_boundaries_layer _ _ _ Hrun)
    as (shp & out & Hprov & Hread & _ & _ & _ & Hrect).
  exists out. split; [exact Hread|].
  destruct Hprov as [Hdisk|(_ & members & Hin & [Hsrc|[Hsrc|Hsrc]])];
    [vm_compute in Hdisk; discriminate Hdisk
    | | vm_compute in Hsrc; discriminate Hsrc
    | vm_compute in Hsrc; discriminate Hsrc].
  assert (Hmem : members
                 = [("tl_2025_us_zcta520.shp",
                     Tiger.mkShp None
                       (mkDF ["ZCTA5CE20"; "GEOID20"; "ALAND20"; "geometry"]
                          [[Str "64101"; Str "64101"; Num 7;
                            Geom "POLYGON A"];
                           [Str "10001"; Str "10001"; Num 9;
                            Geom "POLYGON B"]]))]).
  { vm_compute in Hsrc. by injection Hsrc as <-. }
  subst members. destruct Hin as [Heq|[]].
  injection Heq as <-. exact Hrect.
Defined.

Lemma resolve_zipcode_col_Some cols c :
  Tiger.resolve_zipcode_col cols = Some c ->
  In c cols /\ Tiger.looks_like_zipcode c = true.
Proof.
  unfold Tiger.resolve_zipcode_col.
  repeat (match goal with
          | |- (if ?b then _ else _) = _ -> _ =>
              let H := fresh "H" in
              destruct b eqn:H;
              [intros [= <-]; split; [by apply mem_In | reflexivity]|]
          end).
  destruct (List.filter Tiger.looks_like_zipcode cols) as [|x l] eqn:Hf;
    [done|].
  intros [= <-].
  assert (Hx : In x (List.filter Tiger.looks_like_zipcode cols))
    by (rewrite Hf; by left).
  by apply filter_In in Hx.
Qed.

Lemma resolve_zipcode_col_None cols c :
  Tiger.resolve_zipcode_col cols = None ->
  In c cols -> Tiger.looks_like_zipcode c = false.
Proof.
  unfold Tiger.resolve_zipcode_col.
  repeat (match goal with
          | |- (if ?b then _ else _) = _ -> _ => destruct b; [done|]
          end).
  destruct (List.filter Tiger.looks_like_zipcode cols) as [|x l] eqn:Hf;
    [|done].
  intros _ Hc. destruct (Tiger.looks_like_zipcode c) eqn:Hl; [|done].
  assert (Hx : In c (List.filter Tiger.looks_like_zipcode cols))
    by (by apply filter_In).
  by rewrite Hf in Hx.
Qed.

(** X19.  The renaming of the boundary loader fails exactly when no label of
    the table contains ZCTA or ZIP, letter case apart.  When it
    succeeds, the table has a [ZIPCODE] column, the same rows and the
    same number of columns. *)
Theorem normalize_zipcode_column_cases (gdf : DataFrame) :
  match Tiger.normalize_zipcode_column gdf with
  | Ok out =>
      In "ZIPCODE" (columns out) /\ rows out = rows gdf
      /\ length (columns out) = length (columns gdf)
      /\ exists c, In c (columns gdf) /\ Tiger.looks_like_zipcode c = true
  | Raise e =>
      e = Exception "Could not find ZIPCODE column in TIGER file"
      /\ forall c, In c (columns gdf) -> Tiger.looks_like_zipcode c = false
  end.
Proof.
  rewrite normalize_zipcode_column_resolve.
  destruct (Tiger.resolve_zipcode_col (columns gdf)) as [c|] eqn:Hc.
  - apply resolve_zipcode_col_Some in Hc as [Hin Hlook].
    split; [|split; [done|split]].
    + apply mem_In. by apply mem_rename_new.
    + simpl. by rewrite length_map.
    + by exists c.
  - split; [done|]. intros c. by apply resolve_zipcode_col_None.
Qed.

(** ** The exporters *)

Section exporters.

Variable is_empty : string -> bool.

Lemma convert_body_Ok g g' :
  Exporters.convert_body is_empty g = Ok g' ->
  exists layers gdf,
    g = Some layers /\ layers !! "zipcodes" = Some gdf
    /\ In "geometry" (columns gdf)
    /\ g' = Some (<["zipcodes" :=
                      Pd.set_column "geometry_wkt"
                        (fun r => Exporters.wkt_of is_empty
                                    (Pd.key_of (columns gdf) "geometry" r))
                        gdf]> layers).
Proof.
  unfold Exporters.convert_body, read_file.
  destruct g as [layers|]; [|done].
  destruct (layers !! "zipcodes") as [gdf|] eqn:Hl; [|done].
  cbn [mbind result_bind]. unfold Pd.has_col.
  destruct (PyStr.mem "geometry" (columns gdf)) eqn:Hg; [|done].
  intros [= <-]. exists layers, gdf. apply mem_In in Hg. done.
Qed.

Lemma convert_body_Raise g e :
  Exporters.convert_body is_empty g = Raise e ->
  forall layers gdf,
    g = Some layers -> layers !! "zipcodes" = Some gdf ->
    ~ In "geometry" (columns gdf).
Proof.
  unfold Exporters.convert_body, read_file.
  intros Hrun layers gdf -> Hl. rewrite Hl in Hrun.
  cbn [mbind result_bind] in Hrun. unfold Pd.has_col in Hrun.
  destruct (PyStr.mem "geometry" (columns gdf)) eqn:Hg; [done|].
  by apply mem_false.
Qed.

Lemma keys_set_column c f df :
  rectangular df ->
  Pd.keys c (Pd.set_column c f df) = map f (rows df).
Proof.
  intros Hrect. unfold Pd.keys, Pd.set_column, Pd.has_col.
  unfold rectangular in Hrect. rewrite List.Forall_forall in Hrect.
  destruct (PyStr.mem c (columns df)) eqn:Hc; simpl; rewrite map_map;
    apply map_ext_in; intros r Hr; unfold Pd.key_of.
  - rewrite get_map_row_at, String.eqb_refl.
    apply mem_In in Hc.
    by destruct (get_is_Some (columns df) r c Hc (Hrect r Hr)) as [x ->].
  - rewrite get_app, Hc by by apply Hrect.
    unfold Pd.get. simpl. by rewrite String.eqb_refl.
Qed.

Lemma keys_set_column_ne c k f df :
  rectangular df -> k <> c ->
  Pd.keys c (Pd.set_column k f df) = Pd.keys c df.
Proof.
  intros Hrect Hne. unfold Pd.keys, Pd.set_column.
  unfold rectangular in Hrect. rewrite List.Forall_forall in Hrect.
  destruct (Pd.has_col k df); simpl; rewrite map_map;
    apply map_ext_in; intros r Hr; unfold Pd.key_of.
  - rewrite get_map_row_at. by destruct (String.eqb_spec c k).
  - rewrite get_app by by apply Hrect.
    destruct (PyStr.mem c (columns df)) eqn:Hc; [done|].
    apply mem_false in Hc. rewrite (get_None _ _ _ Hc).
    unfold Pd.get. simpl. by destruct (String.eqb_spec k c).
Qed.

End exporters.

(** X20.  [convert_geometry_to_wkt] reports success exactly when the
    container exists and its [zipcodes] layer has a [geometry] column;
    when it reports failure the container is left as it was. *)
Theorem convert_geometry_to_wkt_flag (is_empty : string -> bool)
    (g : container) :
  ((Exporters.convert_geometry_to_wkt is_empty g).1 = true <->
   exists layers gdf,
     g = Some layers /\ layers !! "zipcodes" = Some gdf
     /\ In "geometry" (columns gdf))
  /\ ((Exporters.convert_geometry_to_wkt is_empty g).1 = false ->
      (Exporters.convert_geometry_to_wkt is_empty g).2 = g).
Proof.
  unfold Exporters.convert_geometry_to_wkt.
  destruct g as [layers|].
  - destruct (Exporters.convert_body is_empty (Some layers)) as [g'|e] eqn:Hrun.
    + split; [|done]. split; [|done]. intros _.
      apply convert_body_Ok in Hrun
        as (layers' & gdf & [= <-] & Hl & Hg & _).
      by exists layers, gdf.
    + split; [|done]. split; [done|].
      intros (layers' & gdf & [= <-] & Hl & Hg).
      by destruct (convert_body_Raise _ _ _ Hrun layers gdf eq_refl Hl).
  - split; [|done]. split; [done|]. by intros (? & ? & ? & _).
Qed.

(** X21.  After a successful conversion the [zipcodes] layer has a
    [geometry_wkt] column and as many rows as before, and the other
    layers read as before.  When the layer was rectangular it still is,
    the new column holds the text of each row's geometry (a missing
    value where there is none or the geometry is empty), and every
    other column reads as before. *)
Theorem convert_geometry_to_wkt_result (is_empty : string -> bool)
    (g g' : container) :
  Exporters.convert_geometry_to_wkt is_empty g = (true, g') ->
  exists gdf out,
    read_file g "zipcodes" = Ok gdf
    /\ read_file g' "zipcodes" = Ok out
    /\ In "geometry_wkt" (columns out)
    /\ length (rows out) = length (rows gdf)
    /\ (forall name, name <> "zipcodes" ->
          read_file g' name = read_file g name)
    /\ (rectangular gdf ->
        rectangular out
        /\ Pd.keys "geometry_wkt" out
           = map (Exporters.wkt_of is_empty) (Pd.keys "geometry" gdf)
        /\ forall c, c <> "geometry_wkt" -> Pd.keys c out = Pd.keys c gdf).
Proof.
  unfold Exporters.convert_geometry_to_wkt.
  destruct g as [layers|]; [|done].
  destruct (Exporters.convert_body is_empty (Some layers)) as [g1|e] eqn:Hrun;
    [|done].
  intros [= <-].
  apply convert_body_Ok in Hrun as (layers' & gdf & [= <-] & Hl & Hg & ->).
  exists gdf. eexists. unfold read_file. rewrite Hl, lookup_insert_eq.
  split; [done|]. split; [done|].
  split; [apply set_column_has_col|].
  split.
  { unfold Pd.set_column. destruct (Pd.has_col _ _); simpl;
      by rewrite length_map. }
  split; [intros name Hne; by rewrite lookup_insert_ne|].
  intros Hrect. split; [by apply set_column_rectangular|].
  split; [|intros c Hc; by apply keys_set_column_ne].
  rewrite keys_set_column by done. unfold Pd.keys. by rewrite map_map.
Qed.

Lemma convert_geometry_to_wkt_result_witness :
  Exporters.convert_geometry_to_wkt (fun wkt => PyStr.endswith wkt "EMPTY")
    (Some {["zipcodes" := mkDF ["ZIPCODE"; "geometry"]
                              [[Str "64101"; Geom "POLYGON A"];
                               [Str "64102"; NaN];
                               [Str "64103"; Geom "POLYGON EMPTY"]]]})
  = (true,
     (Some {["zipcodes" :=
                mkDF ["ZIPCODE"; "geometry"; "geometry_wkt"]
                  [[Str "64101"; Geom "POLYGON A"; Str "POLYGON A"];
                   [Str "64102"; NaN; NaN];
                   [Str "64103"; Geom "POLYGON EMPTY"; NaN]]]}))
  /\ exists gdf out,
       read_file
         (Some {["zipcodes" := mkDF ["ZIPCODE"; "geometry"]
                              [[Str "64101"; Geom "POLYGON A"];
                               [Str "64102"; NaN];
                               [Str "64103"; Geom "POLYGON EMPTY"]]]})
         "zipcodes" = Ok gdf
       /\ read_file
            (Some {["zipcodes" :=
                mkDF ["ZIPCODE"; "geometry"; "geometry_wkt"]
                  [[Str "64101"; Geom "POLYGON A"; Str "POLYGON A"];
                   [Str "64102"; NaN; NaN];
                   [Str "64103"; Geom "POLYGON EMPTY"; NaN]]]})
            "zipcodes" = Ok out
       /\ In "geometry_wkt" (columns out).
Proof.
  assert (Hrun :
    Exporters.convert_geometry_to_wkt (fun wkt => PyStr.endswith wkt "EMPTY")
      (Some {["zipcodes" := mkDF ["ZIPCODE"; "geometry"]
                              [[Str "64101"; Geom "POLYGON A"];
                               [Str "64102"; NaN];
                               [Str "64103"; Geom "POLYGON EMPTY"]]]})
    = (true,
       (Some {["zipcodes" :=
                mkDF ["ZIPCODE"; "geometry"; "geometry_wkt"]
                  [[Str "64101"; Geom "POLYGON A"; Str "POLYGON A"];
                   [Str "64102"; NaN; NaN];
                   [Str "64103"; Geom "POLYGON EMPTY"; NaN]]]})))
    by (vm_compute; reflexivity).
  split; [exact Hrun|].
  destruct (convert_geometry_to_wkt_result _ _ _ Hrun)
    as (gdf & out & H1 & H2 & H3 & _).
  by exists gdf, out.
Defined.

Section rerun.

Variable is_empty : string -> bool.

Lemma map_row_at_const_idem v c cols r :
  Pd.map_row_at (fun _ => v) c cols (Pd.map_row_at (fun _ => v) c cols r)
  = Pd.map_row_at (fun _ => v) c cols r.
Proof. by apply map_row_at_idem. Qed.

Lemma map_row_at_app_new v c cols r x :
  ~ In c cols -> length r = length cols ->
  Pd.map_row_at (fun _ => v) c (cols ++ [c]) (r ++ [x]) = r ++ [v].
Proof.
  revert r. induction cols as [|k cols IH]; intros [|y r] Hc Hlen;
    simpl in *; try done.
  - by rewrite String.eqb_refl.
  - destruct (String.eqb_spec k c) as [->|Hne]; [by destruct Hc; left|].
    rewrite IH; [done | by intros H; apply Hc; right | lia].
Qed.

Lemma key_of_map_row_at_other f c k cols r :
  k <> c ->
  Pd.key_of cols k (Pd.map_row_at f c cols r) = Pd.key_of cols k r.
Proof.
  intros Hne. unfold Pd.key_of. rewrite get_map_row_at.
  by destruct (String.eqb_spec k c).
Qed.

Lemma key_of_app_old cols r c k x :
  In k cols -> length r = length cols ->
  Pd.key_of (cols ++ [c]) k (r ++ [x]) = Pd.key_of cols k r.
Proof.
  intros Hin Hlen. unfold Pd.key_of. rewrite get_app by done.
  by apply mem_In in Hin as ->.
Qed.

(** Writing the text column a second time changes nothing. *)
Lemma set_wkt_twice gdf :
  rectangular gdf -> In "geometry" (columns gdf) ->
  let out :=
    Pd.set_column "geometry_wkt"
      (fun r => Exporters.wkt_of is_empty (Pd.key_of (columns gdf) "geometry" r))
      gdf in
  Pd.set_column "geometry_wkt"
    (fun r => Exporters.wkt_of is_empty (Pd.key_of (columns out) "geometry" r)) out
  = out.
Proof.
  intros Hrect Hg. unfold rectangular in Hrect.
  rewrite List.Forall_forall in Hrect. cbv zeta.
  unfold Pd.set_column at 2 3 4. unfold Pd.has_col.
  destruct (PyStr.mem "geometry_wkt" (columns gdf)) eqn:Hw.
  - unfold Pd.set_column, Pd.has_col. cbn [columns rows]. rewrite Hw.
    f_equal. rewrite map_map. apply map_ext_in. intros r Hr.
    rewrite key_of_map_row_at_other by done.
    apply map_row_at_const_idem.
  - unfold Pd.set_column, Pd.has_col. cbn [columns rows].
    assert (PyStr.mem "geometry_wkt" (columns gdf ++ ["geometry_wkt"])
            = true) as ->.
    { apply mem_In, in_or_app. right. by left. }
    f_equal. rewrite map_map. apply map_ext_in. intros r Hr.
    apply mem_false in Hw.
    rewrite map_row_at_app_new by (by auto).
    by rewrite key_of_app_old by (by auto).
Qed.

End rerun.

(** X22.  Running the conversion a second time on a rectangular layer leaves
    the container as the first run left it. *)
Theorem convert_geometry_to_wkt_twice (is_empty : string -> bool)
    (g g' : container) (gdf : DataFrame) :
  read_file g "zipcodes" = Ok gdf -> rectangular gdf ->
  Exporters.convert_geometry_to_wkt is_empty g = (true, g') ->
  Exporters.convert_geometry_to_wkt is_empty g' = (true, g').
Proof.
  intros Hread Hrect Hrun. unfold Exporters.convert_geometry_to_wkt in Hrun.
  destruct g as [layers|]; [|done].
  destruct (Exporters.convert_body is_empty (Some layers)) as [g1|e] eqn:Hb; [|done].
  injection Hrun as <-.
  apply convert_body_Ok in Hb as (layers' & gdf' & [= <-] & Hl & Hg & ->).
  unfold read_file in Hread. rewrite Hl in Hread. injection Hread as <-.
  unfold Exporters.convert_geometry_to_wkt, Exporters.convert_body,
    read_file.
  rewrite lookup_insert_eq. cbn [mbind result_bind].
  unfold Pd.has_col at 1.
  assert (PyStr.mem "geometry"
            (columns (Pd.set_column "geometry_wkt"
                        (fun r => Exporters.wkt_of is_empty
                                    (Pd.key_of (columns gdf') "geometry" r))
                        gdf')) = true) as ->.
  { apply mem_In. unfold Pd.set_column.
    destruct (Pd.has_col _ _); simpl; [done|].
    apply in_or_app. by left. }
  pose proof (set_wkt_twice is_empty gdf' Hrect Hg) as Htwice. cbv zeta in Htwice.
  rewrite Htwice. unfold to_file. simpl. by rewrite insert_insert_eq.
Qed.

Lemma convert_geometry_to_wkt_twice_witness :
  Exporters.convert_geometry_to_wkt (fun wkt => PyStr.endswith wkt "EMPTY")
    (Some {["zipcodes" := mkDF ["ZIPCODE"; "geometry"; "geometry_wkt"]
                            [[Str "64101"; Geom "POLYGON A";
                              Str "POLYGON A"]]]})
  = (true,
     Some {["zipcodes" := mkDF ["ZIPCODE"; "geometry"; "geometry_wkt"]
                            [[Str "64101"; Geom "POLYGON A";
                              Str "POLYGON A"]]]}).
Proof.
  apply (convert_geometry_to_wkt_twice
           (fun wkt => PyStr.endswith wkt "EMPTY")
           (Some {["zipcodes" := mkDF ["ZIPCODE"; "geometry"]
                                   [[Str "64101"; Geom "POLYGON A"]]]})
           _ (mkDF ["ZIPCODE"; "geometry"]
                [[Str "64101"; Geom "POLYGON A"]])).
  - vm_compute. reflexivity.
  - repeat constructor.
  - vm_compute. reflexivity.
Defined.

(** X23.  The layer that the boundary loader stores can be converted: after
    a successful run of the loader, [convert_geometry_to_wkt] reports
    success. *)
Theorem convert_after_extract (is_empty : string -> bool)
    (w : Tiger.world) (year : Z) (g' : container) :
  Tiger.extract_zipcode_boundaries w year = Ok g' ->
  (Exporters.convert_geometry_to_wkt is_empty g').1 = true.
Proof.
  intros Hrun. apply extract_zipcode_boundaries_inv in Hrun
    as (shp & out & _ & -> & _ & Hcols & _).
  unfold Exporters.convert_geometry_to_wkt, to_file,
    Exporters.convert_body, read_file.
  rewrite lookup_insert_eq. cbn [mbind result_bind]. unfold Pd.has_col.
  assert (PyStr.mem "geometry" (columns out) = true) as ->; [|done].
  apply mem_In, Hcols. right. by left.
Qed.

Lemma convert_after_extract_witness :
  (Exporters.convert_geometry_to_wkt (fun wkt => PyStr.endswith wkt "EMPTY")
     (Some {["zipcodes" :=
               mkDF ["ZIPCODE"; "geometry"]
                 [[Str "64101"; Geom "POLYGON A"]]]})).1 = true.
Proof.
  apply (convert_after_extract
    (fun wkt => PyStr.endswith wkt "EMPTY")
    (Tiger.mkWorld
       {[Tiger.raw_path (Tiger.tiger_file_name 2025) :=
           Tiger.Archive
             [("tl_2025_us_zcta520.shp",
               Tiger.mkShp (Some "EPSG:4326")
                 (mkDF ["ZCTA5CE20"; "geometry"]
                    [[Str "64101"; Geom "POLYGON A"]]))]]}
       (fun _ _ _ => Tiger.Failed) (fun _ => true) (fun _ x => x) None)
    2025).
  vm_compute. reflexivity.
Defined.

(** X24.  After a successful run of the statistical loader the export
    succeeds, and what it writes is the joined table that the loader
    stored in the [acs_data] layer. *)
Theorem export_after_main
    (read_sql_query : container -> string -> result DataFrame)
    (to_json_raw : DataFrame -> result unit)
    (w : world) (to_numeric : cell -> cell)
    (all_variables : list string) (g' : container) :
  Acs.main w to_numeric all_variables = Ok g' ->
  exists merged,
    Exporters.export_to_json read_sql_query to_json_raw g'
    = (true, Some merged)
    /\ read_file g' "acs_data" = Ok merged.
Proof.
  intros Hrun. apply main_layers in Hrun
    as (layers & b & cleaned & merged & Hg & Hb & _ & _ & _ & _ & ->).
  exists merged.
  unfold Exporters.export_to_json, Exporters.export_body, read_file.
  rewrite (lookup_insert_ne _ "acs_data_table" "zipcodes") by done.
  rewrite (lookup_insert_ne _ "acs_data" "zipcodes"), Hb by done.
  cbn [mbind result_bind].
  by rewrite lookup_insert_ne, lookup_insert_eq.
Qed.

Lemma export_after_main_witness :
  exists merged,
    Exporters.export_to_json
      (fun _ _ => Raise (Exception "no driver")) (fun _ => Ok tt)
      (Some (<["acs_data_table" :=
                 mkDF ["B01001_001E"; "ZIPCODE"; "geometry"]
                   [[Str "12"; Str "64101"; Geom "POINT (0 0)"]]]>
               (<["acs_data" :=
                    mkDF ["ZIPCODE"; "geometry"; "B01001_001E"]
                      [[Str "64101"; Geom "POLYGON A"; Str "12"]]]>
                  {["zipcodes" := mkDF ["ZIPCODE"; "geometry"]
                                    [[Str "64101"; Geom "POLYGON A"]]]})))
    = (true, Some merged).
Proof.
  destruct (export_after_main
    (fun _ _ => Raise (Exception "no driver")) (fun _ => Ok tt)
    (mkWorld "key"
       (fun _ _ _ =>
          Json (JTable ["B01001_001E"; "zip code tabulation area"]
                  [[Str "12"; Str "64101"]; [Str "40"; Str "64199"]]))
       (Some {["zipcodes" := mkDF ["ZIPCODE"; "geometry"]
                               [[Str "64101"; Geom "POLYGON A"]]]}))
    (fun c => c) ["B01001_001E"]
    (Some (<["acs_data_table" :=
               mkDF ["B01001_001E"; "ZIPCODE"; "geometry"]
                 [[Str "12"; Str "64101"; Geom "POINT (0 0)"]]]>
             (<["acs_data" :=
                  mkDF ["ZIPCODE"; "geometry"; "B01001_001E"]
                    [[Str "64101"; Geom "POLYGON A"; Str "12"]]]>
                {["zipcodes" := mkDF ["ZIPCODE"; "geometry"]
                                  [[Str "64101"; Geom "POLYGON A"]]]}))))
    as (merged & H & _); [vm_compute; reflexivity|].
  by exists merged.
Defined.


